(** * Forex scanner: a shallow embedding of [forex_scanner.py]

    The development follows the script top-down: Python strings and the
    string methods the script calls, Python floats as far as the script
    looks at them, decoded JSON values with the dynamic operations applied
    to them, the exception classes that can travel through the script, and
    then the script's own functions under their own names.

    Conventions.
    - A Python [str] is a [string] of ASCII characters (codes below 128,
      [PyStr.is_ascii]).  On such text [upper] maps [a]-[z] to [A]-[Z],
      the white space of [strip] is the codes 9-13 and 28-32, and the white
      space [float] skips is the codes 9-13 and 32.  A statement whose truth
      depends on what Python does with other characters carries the
      hypothesis that the text is ASCII.
    - A Python [float] is [pyfloat]: NaN, the two infinities, or the
      rational value of a binary64 number.  [float] of a text or of an
      integer rounds to the nearest binary64 number, a tie to the even
      significand ([PyFloat.round64]); beyond the largest one a text gives
      an infinity and an integer an [OverflowError].  The two zeros are not
      told apart, as Python's [==] does not tell them apart.
    - A raised exception is a value of [exn]; a computation that can raise
      returns [result]. *)

From Stdlib Require Import String Ascii List ZArith QArith Qround Bool Lia.
Import ListNotations.
Local Open Scope string_scope.
Local Open Scope list_scope.
Local Open Scope Z_scope.

(* ================================================================= *)
(** ** Python strings *)

Module PyStr.

(** [str.isspace] on one ASCII character. *)
Definition is_space (c : ascii) : bool :=
  let n := N_of_ascii c in
  (((9 <=? n) && (n <=? 13)) || ((28 <=? n) && (n <=? 32)))%N.

Definition upper_char (c : ascii) : ascii :=
  let n := N_of_ascii c in
  if ((97 <=? n) && (n <=? 122))%N then ascii_of_N (n - 32) else c.

Definition lower_char (c : ascii) : ascii :=
  let n := N_of_ascii c in
  if ((65 <=? n) && (n <=? 90))%N then ascii_of_N (n + 32) else c.

Fixpoint map (f : ascii -> ascii) (s : string) : string :=
  match s with
  | EmptyString => EmptyString
  | String c s' => String (f c) (map f s')
  end.

(** [s.upper()] and [s.lower()]. *)
Definition upper (s : string) : string := map upper_char s.
Definition lower (s : string) : string := map lower_char s.

(** [s.replace(a, b)] for one-character [a] and [b]. *)
Definition replace (a b : ascii) (s : string) : string :=
  map (fun c => if Ascii.eqb c a then b else c) s.

Fixpoint lstrip (s : string) : string :=
  match s with
  | EmptyString => EmptyString
  | String c s' => if is_space c then lstrip s' else s
  end.

Fixpoint rstrip (s : string) : string :=
  match s with
  | EmptyString => EmptyString
  | String c s' =>
      match rstrip s' with
      | EmptyString => if is_space c then EmptyString else String c EmptyString
      | r => String c r
      end
  end.

(** [s.strip()]. *)
Definition strip (s : string) : string := rstrip (lstrip s).

(** [c in s] for a one-character [c]. *)
Fixpoint contains (c : ascii) (s : string) : bool :=
  match s with
  | EmptyString => false
  | String d s' => Ascii.eqb d c || contains c s'
  end.

(** [s.split(c, 1)] for a string [s] that contains [c]: the text before
    the first [c] and the text after it. *)
Fixpoint split_first (c : ascii) (s : string) : string * string :=
  match s with
  | EmptyString => (EmptyString, EmptyString)
  | String d s' =>
      if Ascii.eqb d c then (EmptyString, s')
      else let (a, b) := split_first c s' in (String d a, b)
  end.

Fixpoint starts_with (p s : string) : bool :=
  match p, s with
  | EmptyString, _ => true
  | String a p', String b s' => Ascii.eqb a b && starts_with p' s'
  | String _ _, EmptyString => false
  end.

(** [p in s] for strings: [p] occurs in [s] as a substring. *)
Fixpoint substring_of (p s : string) : bool :=
  starts_with p s ||
  match s with
  | EmptyString => false
  | String _ s' => substring_of p s'
  end.

(** [not s]. *)
Definition is_empty (s : string) : bool :=
  match s with EmptyString => true | _ => false end.

(** [s.isascii()]: every character has a code below 128. *)
Fixpoint is_ascii (s : string) : bool :=
  match s with
  | EmptyString => true
  | String c s' => (N_of_ascii c <? 128)%N && is_ascii s'
  end.

End PyStr.

(* ================================================================= *)
(** ** Python floats *)

Inductive pyfloat : Type :=
| FNan
| FInf (negative : bool)
| FFin (q : Q).

Module PyFloat.

(** [a > b]; every comparison with NaN is false. *)
Definition gt (a b : pyfloat) : bool :=
  match a, b with
  | FNan, _ | _, FNan => false
  | FInf na, FInf nb => negb na && nb
  | FInf na, FFin _ => negb na
  | FFin _, FInf nb => nb
  | FFin x, FFin y => match (x ?= y)%Q with Gt => true | _ => false end
  end.

(** [max(a, b)] of the builtin: the first argument is kept unless the
    second compares greater. *)
Definition max (a b : pyfloat) : pyfloat := if gt b a then b else a.

Definition is_positive (a : pyfloat) : bool := gt a (FFin 0).

(** [a / b] for [b > 0], rounded to the nearest integer, a tie to the
    even one. *)
Definition round_half_even (a b : Z) : Z :=
  let q := a / b in
  match 2 * (a mod b) ?= b with
  | Lt => q
  | Gt => q + 1
  | Eq => if Z.even q then q else q + 1
  end.

(** The binary64 number nearest to the rational [q], a tie going to the
    even significand: with [e] the exponent of [|q|] (so that
    [2^e <= |q| < 2^(e+1)]) the result is a multiple of [2^u] for
    [u = max(e - 52, -1074)], the spacing of the binary64 numbers around
    [q]; what rounds to [2^1024] or more in size is an infinity, and what
    rounds to nothing is zero. *)
Definition round64 (q : Q) : pyfloat :=
  let n := Z.abs (Qnum q) in
  let d := Zpos (Qden q) in
  let negative := Qnum q <? 0 in
  if n =? 0 then FFin 0
  else
    let e0 := Z.log2 n - Z.log2 d in
    let reaches := if 0 <=? e0 then d * 2 ^ e0 <=? n else d <=? n * 2 ^ (- e0) in
    let e := if reaches then e0 else e0 - 1 in
    let u := Z.max (e - 52) (-1074) in
    if 0 <=? u then
      let v := round_half_even n (d * 2 ^ u) * 2 ^ u in
      if 2 ^ 1024 <=? v then FInf negative
      else FFin (inject_Z (if negative then - v else v))
    else
      let m := round_half_even (n * 2 ^ (- u)) d in
      FFin (Qred ((if negative then - m else m) # Z.to_pos (2 ^ (- u)))).

(** [float(z)] for an integer: [None] stands for the [OverflowError]. *)
Definition of_int (z : Z) : option pyfloat :=
  match round64 (inject_Z z) with
  | FFin q => Some (FFin q)
  | _ => None
  end.

(** The white space [float] skips around the text of a number: the
    characters of C's [isspace]. *)
Definition is_space (c : ascii) : bool :=
  let n := N_of_ascii c in
  (((9 <=? n) && (n <=? 13)) || (n =? 32))%N.

Fixpoint lstrip (s : string) : string :=
  match s with
  | EmptyString => EmptyString
  | String c s' => if is_space c then lstrip s' else s
  end.

Fixpoint rstrip (s : string) : string :=
  match s with
  | EmptyString => EmptyString
  | String c s' =>
      match rstrip s' with
      | EmptyString => if is_space c then EmptyString else String c EmptyString
      | r => String c r
      end
  end.

Definition strip (s : string) : string := rstrip (lstrip s).

Definition digit_val (c : ascii) : option Z :=
  let n := N_of_ascii c in
  if ((48 <=? n) && (n <=? 57))%N then Some (Z.of_N (n - 48)) else None.

(** After a digit: [(["_"] digit)*], accumulating the digits read so
    far in [acc] and their number in [len]. *)
Fixpoint digits_rest (acc : Z) (len : Z) (s : string) : Z * Z * string :=
  match s with
  | String c s' =>
      match digit_val c with
      | Some d => digits_rest (10 * acc + d) (len + 1) s'
      | None =>
          if Ascii.eqb c "_" then
            match s' with
            | String c2 s'' =>
                match digit_val c2 with
                | Some d => digits_rest (10 * acc + d) (len + 1) s''
                | None => (acc, len, s)
                end
            | EmptyString => (acc, len, s)
            end
          else (acc, len, s)
      end
  | EmptyString => (acc, len, s)
  end.

(** [digitpart ::= digit (["_"] digit)*], continuing the number [acc]. *)
Definition digitpart (acc : Z) (s : string) : option (Z * Z * string) :=
  match s with
  | String c s' =>
      match digit_val c with
      | Some d => Some (digits_rest (10 * acc + d) 1 s')
      | None => None
      end
  | EmptyString => None
  end.

(** [number ::= [digitpart] "." digitpart | digitpart ["."]]: the digits
    as one integer, the number of digits after the point, the rest. *)
Definition number (s : string) : option (Z * Z * string) :=
  match digitpart 0 s with
  | Some (m, _, String "." r) =>
      match digitpart m r with
      | Some (m', k, r') => Some (m', k, r')
      | None => Some (m, 0, r)
      end
  | Some (m, _, r) => Some (m, 0, r)
  | None =>
      match s with
      | String "." r => digitpart 0 r
      | _ => None
      end
  end.

(** [exponent ::= ("e" | "E") ["+" | "-"] digitpart], when present. *)
Definition exponent (s : string) : option (Z * string) :=
  match s with
  | String c r =>
      if Ascii.eqb c "e" || Ascii.eqb c "E" then
        let (neg, r1) :=
          match r with
          | String "-" r' => (true, r')
          | String "+" r' => (false, r')
          | _ => (false, r)
          end in
        match digitpart 0 r1 with
        | Some (e, _, r2) => Some (if neg then - e else e, r2)
        | None => None
        end
      else None
  | EmptyString => Some (0, EmptyString)
  end.

Definition pow10 (e : Z) : Q :=
  if e <? 0 then 1 # Pos.pow 10 (Z.to_pos (- e))
  else inject_Z (10 ^ e).

(** [floatvalue] without its sign. *)
Definition unsigned_value (s : string) : option pyfloat :=
  let l := PyStr.lower s in
  if String.eqb l "inf" || String.eqb l "infinity" then Some (FInf false)
  else if String.eqb l "nan" then Some FNan
  else
    match number s with
    | Some (m, k, r) =>
        match exponent r with
        | Some (e, EmptyString) => Some (round64 (inject_Z m * pow10 (e - k)))
        | _ => None
        end
    | None => None
    end.

Definition negate (f : pyfloat) : pyfloat :=
  match f with
  | FNan => FNan
  | FInf n => FInf (negb n)
  | FFin q => FFin (- q)
  end.

(** [float(s)] for a string: [None] stands for the [ValueError]. *)
Definition of_string (s : string) : option pyfloat :=
  match strip s with
  | String "-" r => option_map negate (unsigned_value r)
  | String "+" r => unsigned_value r
  | r => unsigned_value r
  end.

End PyFloat.

(* ================================================================= *)
(** ** Decoded JSON and the dynamic operations applied to it *)

(** What [response.json()] can return.  An object is the decoded [dict]:
    an association list read at its first binding of a key.  [JNull] is
    Python's [None]. *)
#[warnings="-register-all"]
Inductive json : Type :=
| JNull
| JBool (b : bool)
| JInt (z : Z)
| JFloat (f : pyfloat)
| JStr (s : string)
| JArr (items : list json)
| JObj (fields : list (string * json)).

(** The exception a [requests] call raises: every class below
    [requests.RequestException]. *)
Inductive request_exception : Type :=
| ConnectionFailure (detail : string)   (* raised by [requests.get] *)
| HTTPError (status : Z).               (* raised by [raise_for_status] *)

(** The [ValueError]s of the script, by what raises them.  The decoding
    error of [response.json()] is one: its class is a subclass of
    [ValueError]. *)
Inductive value_error : Type :=
| NotAFloat (text : string)             (* [float(text)] *)
| BadSleepLength (seconds : pyfloat)    (* [time.sleep(seconds)] *)
| InvalidJSON.                          (* [response.json()] *)

(** The messages of [ForexScannerError], one constructor for each
    [raise ForexScannerError(f"...")] of the script, carrying the values
    its f-string interpolates. *)
Inductive scanner_error : Type :=
| ResponseMissingField (key : string)
    (* "Response missing field: {exc}" *)
| InvalidNumericValue (exc : value_error)
    (* "Invalid numeric value in response: {exc}" *)
| InvalidPairFormat (raw : string)
    (* "Invalid pair '{raw}'. Use the format BASE/QUOTE (e.g., EUR/USD)." *)
| InvalidPairSides (raw : string)
    (* "Invalid pair '{raw}'. Both base and quote currencies are required." *)
| NetworkError (base quote : string) (exc : request_exception)
    (* "Network error while fetching {base}/{quote}: {exc}" *)
| ApiError (base quote : string) (message : json)
    (* "API error for {base}/{quote}: {payload['Error Message']}" *)
| ApiLimit (note : json) (base quote : string)
    (* "API limit reached: {payload['Note']} (pair {base}/{quote})." *)
| UnexpectedStructure (base quote : string) (payload : json)
    (* "Unexpected response structure for {base}/{quote}: {json.dumps(payload)}" *)
| MissingApiKey
    (* "Missing API key. Set the ALPHAVANTAGE_API_KEY environment variable or
        provide --api-key." *)
| DemoUnavailable (key : string).
    (* "Demo data for {key} is unavailable. Try a default currency pair." *)

(** The exceptions that can travel through the script.
    [RequestException] stands for what [requests.get] and
    [raise_for_status] raise, the calls inside the [try] of
    [fetch_exchange_rate]; [OSError] for a wait the operating system
    refuses. *)
Inductive exn : Type :=
| ForexScannerError (msg : scanner_error)
| KeyError (key : string)
| ValueError (cause : value_error)
| TypeError
| AttributeError
| OverflowError
| OSError
| RequestException (exc : request_exception).

(** What [response.json()] raises for a body that is not JSON, after the
    [try] of [fetch_exchange_rate]: a [ValueError].  (In the versions of
    [requests] where its class also derives from [RequestException] this
    changes nothing: the only [except requests.RequestException] of the
    script is over before [response.json()] is called.) *)
Abbreviation JSONDecodeError := (ValueError InvalidJSON).

Inductive result (A : Type) : Type :=
| Ok (a : A)
| Raise (e : exn).
Arguments Ok {A} a.
Arguments Raise {A} e.

Definition bind {A B : Type} (m : result A) (k : A -> result B) : result B :=
  match m with
  | Ok a => k a
  | Raise e => Raise e
  end.

Declare Scope py_scope.
Delimit Scope py_scope with py.
Notation "x <- m ;; k" := (bind m (fun x => k))
  (at level 61, m at next level, right associativity) : py_scope.
Local Open Scope py_scope.

(** [try: body  except ...: handler]. *)
Definition try_except {A : Type} (body : result A) (handler : exn -> result A)
  : result A :=
  match body with
  | Ok a => Ok a
  | Raise e => handler e
  end.

Module Py.

Fixpoint lookup {V : Type} (k : string) (fields : list (string * V)) : option V :=
  match fields with
  | [] => None
  | (k', v) :: rest => if String.eqb k' k then Some v else lookup k rest
  end.

(** [v == s] for a string [s]. *)
Definition eq_str (v : json) (s : string) : bool :=
  match v with
  | JStr t => String.eqb t s
  | _ => false
  end.

(** [k in v] for a string [k]. *)
Definition contains (k : string) (v : json) : result bool :=
  match v with
  | JObj fields => Ok (match lookup k fields with Some _ => true | None => false end)
  | JArr items => Ok (existsb (fun x => eq_str x k) items)
  | JStr s => Ok (PyStr.substring_of k s)
  | JNull | JBool _ | JInt _ | JFloat _ => Raise TypeError
  end.

(** [v[k]] for a string [k]. *)
Definition getitem (v : json) (k : string) : result json :=
  match v with
  | JObj fields =>
      match lookup k fields with
      | Some x => Ok x
      | None => Raise (KeyError k)
      end
  | _ => Raise TypeError
  end.

(** [v.get(k)]. *)
Definition get (v : json) (k : string) : result json :=
  match v with
  | JObj fields =>
      match lookup k fields with
      | Some x => Ok x
      | None => Ok JNull
      end
  | _ => Raise AttributeError
  end.

(** [float(v)]. *)
Definition float (v : json) : result pyfloat :=
  match v with
  | JStr s =>
      match PyFloat.of_string s with
      | Some f => Ok f
      | None => Raise (ValueError (NotAFloat s))
      end
  | JFloat f => Ok f
  | JInt z =>
      match PyFloat.of_int z with
      | Some f => Ok f
      | None => Raise OverflowError
      end
  | JBool b => Ok (FFin (if b then 1 else 0))
  | JNull | JArr _ | JObj _ => Raise TypeError
  end.

(** [a or b] on optional strings. *)
Definition or (a b : option string) : option string :=
  match a with
  | Some s => if PyStr.is_empty s then b else a
  | None => b
  end.

End Py.

(* ================================================================= *)
(** ** [ExchangeRate] *)

(** The dataclass.  Python does not check the annotations, so the three
    text fields hold whatever value the payload had under their keys. *)
Record ExchangeRate : Type := mkExchangeRate {
  from_currency : json;
  to_currency : json;
  rate : pyfloat;
  last_refreshed : json;
  bid_price : option pyfloat;
  ask_price : option pyfloat
}.

Definition _parse_optional_float (value : json) : result (option pyfloat) :=
  match value with
  | JNull => Ok None
  | _ =>
      if Py.eq_str value "" then Ok None
      else
        try_except
          (f <- Py.float value ;; Ok (Some f))
          (fun e => match e with
                    | ValueError _ => Ok None
                    | _ => Raise e
                    end)
  end.

Definition from_api (payload : json) : result ExchangeRate :=
  try_except
    (from_code <- Py.getitem payload "1. From_Currency Code" ;;
     to_code <- Py.getitem payload "3. To_Currency Code" ;;
     rate_text <- Py.getitem payload "5. Exchange Rate" ;;
     rate <- Py.float rate_text ;;
     last_refreshed <- Py.getitem payload "6. Last Refreshed" ;;
     bid_text <- Py.get payload "8. Bid Price" ;;
     bid_price <- _parse_optional_float bid_text ;;
     ask_text <- Py.get payload "9. Ask Price" ;;
     ask_price <- _parse_optional_float ask_text ;;
     Ok (mkExchangeRate from_code to_code rate last_refreshed bid_price ask_price))
    (fun e => match e with
              | KeyError key => Raise (ForexScannerError (ResponseMissingField key))
              | ValueError exc => Raise (ForexScannerError (InvalidNumericValue exc))
              | _ => Raise e
              end).

(** A [Dict[str, str]], the declared type of [from_api]'s argument. *)
Definition str_dict (fields : list (string * string)) : json :=
  JObj (map (fun kv => (fst kv, JStr (snd kv))) fields).

(* ================================================================= *)
(** ** [parse_pairs] *)

(** The body of the [for raw in pairs] loop. *)
Definition parse_pair (raw : string) : result (string * string) :=
  let cleaned := PyStr.upper (PyStr.strip (PyStr.replace "-" "/" raw)) in
  if negb (PyStr.contains "/" cleaned) then
    Raise (ForexScannerError (InvalidPairFormat raw))
  else
    let (base, quote) := PyStr.split_first "/" cleaned in
    if PyStr.is_empty base || PyStr.is_empty quote then
      Raise (ForexScannerError (InvalidPairSides raw))
    else Ok (base, quote).

Fixpoint parse_pairs_loop (pairs : list string)
    (normalized_pairs : list (string * string)) : result (list (string * string)) :=
  match pairs with
  | [] => Ok normalized_pairs
  | raw :: rest =>
      p <- parse_pair raw ;;
      parse_pairs_loop rest (normalized_pairs ++ [p])
  end.

Definition parse_pairs (pairs : list string) : result (list (string * string)) :=
  parse_pairs_loop pairs [].

(* ================================================================= *)
(** ** The provider boundary, effects and [fetch_exchange_rate] *)

(** The [Response] object of [requests], as far as the script reads it:
    the status code, and the body as [response.json()] decodes it
    ([None] when the body is not JSON). *)
Record response : Type := mkResponse {
  status_code : Z;
  body : option json
}.

(** What one [requests.get] call comes back with: the detail of the
    transport-level exception it raised, or the response. *)
Definition answer : Type := (string + response)%type.

(** The observable actions of a run, in the order they happen. *)
Inductive event : Type :=
| EvGet (apikey from_currency to_currency : string) (a : answer)
| EvSleep (seconds : pyfloat).

(** [response.raise_for_status()]. *)
Definition raise_for_status (r : response) : result unit :=
  if (400 <=? status_code r) && (status_code r <? 600)
  then Raise (RequestException (HTTPError (status_code r)))
  else Ok tt.

(** [response.json()]. *)
Definition response_json (r : response) : result json :=
  match body r with
  | Some payload => Ok payload
  | None => Raise JSONDecodeError
  end.

Definition data_key : string := "Realtime Currency Exchange Rate".

(** [fetch_exchange_rate] from the point where [requests.get] has come
    back with [a]. *)
Definition fetch_outcome (base quote : string) (a : answer) : result ExchangeRate :=
  match
    try_except
      (match a with
       | inl detail => Raise (RequestException (ConnectionFailure detail))
       | inr r => _ <- raise_for_status r ;; Ok r
       end)
      (fun e => match e with
                | RequestException exc =>
                    Raise (ForexScannerError (NetworkError base quote exc))
                | _ => Raise e
                end)
  with
  | Raise e => Raise e
  | Ok r =>
      payload <- response_json r ;;
      has_error <- Py.contains "Error Message" payload ;;
      if has_error then
        message <- Py.getitem payload "Error Message" ;;
        Raise (ForexScannerError (ApiError base quote message))
      else
        has_note <- Py.contains "Note" payload ;;
        if has_note then
          note <- Py.getitem payload "Note" ;;
          Raise (ForexScannerError (ApiLimit note base quote))
        else
          has_data <- Py.contains data_key payload ;;
          if negb has_data then
            Raise (ForexScannerError (UnexpectedStructure base quote payload))
          else
            subtree <- Py.getitem payload data_key ;;
            from_api subtree
  end.

(** An effectful computation: from a state of the outside world to an
    outcome, the next state and the events it performed.  [None] is a
    loop that ran out of fuel. *)
Definition Eff (W A : Type) : Type := W -> option (result A * W * list event).

Definition ret {W A : Type} (a : A) : Eff W A :=
  fun w => Some (Ok a, w, []).

Definition raise {W A : Type} (e : exn) : Eff W A :=
  fun w => Some (Raise e, w, []).

Definition ebind {W A B : Type} (m : Eff W A) (k : A -> Eff W B) : Eff W B :=
  fun w =>
    match m w with
    | None => None
    | Some (Raise e, w1, evs1) => Some (Raise e, w1, evs1)
    | Some (Ok a, w1, evs1) =>
        match k a w1 with
        | None => None
        | Some (r, w2, evs2) => Some (r, w2, evs1 ++ evs2)
        end
    end.

Declare Scope eff_scope.
Delimit Scope eff_scope with eff.
Notation "x <~ m ;; k" := (ebind m (fun x => k))
  (at level 61, m at next level, right associativity) : eff_scope.

(** The first step of [time.sleep(seconds)] for a float: the length as a
    whole number of nanoseconds.  NaN is a [ValueError]; the length is
    multiplied by [1e9] as a float and rounded away from zero to a whole
    number, which is an [OverflowError] outside the signed 64-bit range
    (as an infinity is) and a [ValueError] when negative.  (Where the
    product is exactly [2^63], some versions of CPython report a negative
    length instead of the overflow; the length is rejected either way.) *)
Definition sleep_nanoseconds (seconds : pyfloat) : result Z :=
  match seconds with
  | FNan => Raise (ValueError (BadSleepLength seconds))
  | FInf _ => Raise OverflowError
  | FFin q =>
      match PyFloat.round64 (q * inject_Z (10 ^ 9)) with
      | FFin d =>
          let ns := if Qnum d <? 0 then Qfloor d else Qceiling d in
          if (ns <? - 2 ^ 63) || (2 ^ 63 <=? ns) then Raise OverflowError
          else if ns <? 0 then Raise (ValueError (BadSleepLength seconds))
          else Ok ns
      | _ => Raise OverflowError
      end
  end.

Section Provider.

(** The outside world: its states; what a GET of the exchange-rate
    function with the given key and codes does in a state; and whether
    the operating system, in a state, carries out a wait of so many
    nanoseconds or refuses it (a deadline past the end of its clock). *)
Context {W : Type}.
Variable requests_get : W -> string -> string -> string -> answer * W.
Variable os_sleep : W -> Z -> bool.

(** [time.sleep(seconds)]: the exception of the conversion, an [OSError]
    when the operating system refuses the wait, otherwise the wait. *)
Definition time_sleep (seconds : pyfloat) : Eff W unit :=
  fun w =>
    match sleep_nanoseconds seconds with
    | Raise e => Some (Raise e, w, [])
    | Ok ns =>
        if os_sleep w ns then Some (Ok tt, w, [EvSleep seconds])
        else Some (Raise OSError, w, [])
    end.

Definition fetch_exchange_rate (api_key base quote : string) : Eff W ExchangeRate :=
  fun w =>
    let (a, w') := requests_get w api_key base quote in
    Some (fetch_outcome base quote a, w', [EvGet api_key base quote a]).

(** The [while True] loop of [run_scanner] for one pair, entered with
    the counter at [attempt]. *)
Fixpoint retry_loop (fuel : nat) (api_key base quote : string)
    (retry : Z) (retry_delay : pyfloat) (attempt : Z) : Eff W ExchangeRate :=
  match fuel with
  | O => fun _ => None
  | S fuel' =>
      fun w =>
        match fetch_exchange_rate api_key base quote w with
        | None => None
        | Some (Ok rate, w1, evs1) => Some (Ok rate, w1, evs1)
        | Some (Raise (ForexScannerError msg), w1, evs1) =>
            let attempt := attempt + 1 in
            if attempt >? retry then
              Some (Raise (ForexScannerError msg), w1, evs1)
            else
              match time_sleep retry_delay w1 with
              | None => None
              | Some (Raise e, w2, evs2) => Some (Raise e, w2, evs1 ++ evs2)
              | Some (Ok _, w2, evs2) =>
                  match retry_loop fuel' api_key base quote retry retry_delay
                          attempt w2 with
                  | None => None
                  | Some (r, w3, evs3) => Some (r, w3, evs1 ++ evs2 ++ evs3)
                  end
              end
        | Some (Raise e, w1, evs1) => Some (Raise e, w1, evs1)
        end
  end.

(** Fuel for the loop: one unit per attempt the counter allows. *)
Definition attempts_allowed (retry : Z) : nat := S (Z.to_nat retry).

(** The [for base, quote in pairs] loop of [run_scanner]. *)
Fixpoint scan_loop (api_key : string) (retry : Z) (retry_delay : pyfloat)
    (pairs : list (string * string)) (results : list ExchangeRate)
    : Eff W (list ExchangeRate) :=
  match pairs with
  | [] => ret results
  | (base, quote) :: rest =>
      (rate <~ retry_loop (attempts_allowed retry) api_key base quote
                 retry retry_delay 0 ;;
       scan_loop api_key retry retry_delay rest (results ++ [rate]))%eff
  end.

Definition run_scanner (pairs : list (string * string)) (api_key : option string)
    (retry : Z) (retry_delay : pyfloat) : Eff W (list ExchangeRate) :=
  match api_key with
  | None => raise (ForexScannerError MissingApiKey)
  | Some key =>
      if PyStr.is_empty key then raise (ForexScannerError MissingApiKey)
      else scan_loop key retry retry_delay pairs []
  end.

End Provider.

(* ================================================================= *)
(** ** [load_demo_data] *)

Definition demo_entry (from_code to_code rate refreshed bid ask : string) : json :=
  str_dict
    [ ("1. From_Currency Code", from_code);
      ("3. To_Currency Code", to_code);
      ("5. Exchange Rate", rate);
      ("6. Last Refreshed", refreshed);
      ("8. Bid Price", bid);
      ("9. Ask Price", ask) ].

Definition demo_payload : list (string * json) :=
  [ ("EUR/USD", demo_entry "EUR" "USD" "1.08650" "2024-05-01 15:35:00" "1.08630" "1.08670");
    ("GBP/USD", demo_entry "GBP" "USD" "1.24510" "2024-05-01 15:35:00" "1.24490" "1.24530");
    ("USD/JPY", demo_entry "USD" "JPY" "154.8200" "2024-05-01 15:35:00" "154.7800" "154.8600");
    ("USD/CHF", demo_entry "USD" "CHF" "0.90680" "2024-05-01 15:35:00" "0.90660" "0.90700");
    ("AUD/USD", demo_entry "AUD" "USD" "0.65320" "2024-05-01 15:35:00" "0.65300" "0.65340") ].

(** [f"{base}/{quote}"]. *)
Definition pair_key (p : string * string) : string :=
  (fst p ++ "/" ++ snd p)%string.

Fixpoint load_demo_loop (pairs : list (string * string))
    (results : list ExchangeRate) : result (list ExchangeRate) :=
  match pairs with
  | [] => Ok results
  | p :: rest =>
      let key := pair_key p in
      match Py.lookup key demo_payload with
      | None => Raise (ForexScannerError (DemoUnavailable key))
      | Some entry =>
          r <- from_api entry ;;
          load_demo_loop rest (results ++ [r])
      end
  end.

Definition load_demo_data (pairs : list (string * string)) : result (list ExchangeRate) :=
  load_demo_loop pairs [].

(* ================================================================= *)
(** ** [main], up to the point where [rates] is bound *)

(** The namespace [parse_arguments] returns, as far as [main] reads it
    before it renders. *)
Record arguments : Type := mkArguments {
  arg_pairs : list string;
  arg_api_key : option string;
  arg_retry : Z;
  arg_retry_delay : pyfloat;
  arg_demo : bool
}.

Definition lift {W A : Type} (m : result A) : Eff W A :=
  fun w => Some (m, w, []).

Section Main.

Context {W : Type}.
Variable requests_get : W -> string -> string -> string -> answer * W.
Variable os_sleep : W -> Z -> bool.

(** The value of [os.getenv(ENV_API_KEY)]. *)
Variable env_api_key : option string.

(** [0.5] *)
Definition min_retry_delay : pyfloat := FFin (1 # 2).

(** The first statements of the [try] block of [main]: the outcome is
    the list bound to [rates], or the exception raised on the way. *)
Definition main_rates (args : arguments) : Eff W (list ExchangeRate) :=
  (pairs <~ lift (parse_pairs (arg_pairs args)) ;;
   if arg_demo args then lift (load_demo_data pairs)
   else
     let api_key := Py.or (arg_api_key args) env_api_key in
     run_scanner requests_get os_sleep pairs api_key
       (Z.max 0 (arg_retry args))
       (PyFloat.max min_retry_delay (arg_retry_delay args)))%eff.

End Main.

(* ================================================================= *)
(** ** Scripted providers, for running the model *)

(** A provider that answers the calls it receives from a script, one
    answer per call whatever is asked, and fails at transport level once
    the script is used up. *)
Definition scripted (w : list answer) (api_key base quote : string)
  : answer * list answer :=
  match w with
  | a :: rest => (a, rest)
  | [] => (inl "connection refused", [])
  end.

(** An operating system that carries out every wait. *)
Definition os_accepts {W : Type} (w : W) (nanoseconds : Z) : bool := true.

Definition ok_body (pair_rate : string) : answer :=
  inr (mkResponse 200
         (Some (JObj [(data_key,
                       demo_entry "EUR" "USD" pair_rate "2024-05-01 15:35:00"
                         "" "n/a")]))).

Definition note_body : answer :=
  inr (mkResponse 200 (Some (JObj [("Note", JStr "rate limit")]))).

Definition server_error : answer := inr (mkResponse 503 None).

(* ================================================================= *)
(** ** Vocabulary of the statements *)

(** The keys [from_api] reads. *)
Definition key_from : string := "1. From_Currency Code".
Definition key_to : string := "3. To_Currency Code".
Definition key_rate : string := "5. Exchange Rate".
Definition key_refreshed : string := "6. Last Refreshed".
Definition key_bid : string := "8. Bid Price".
Definition key_ask : string := "9. Ask Price".

(** What the lenient parser makes of an optional key of a dictionary of
    strings: the float its text parses to, if the key is there and the
    text parses. *)
Definition optional_price (fields : list (string * string)) (k : string)
  : option pyfloat :=
  match Py.lookup k fields with
  | Some s => PyFloat.of_string s
  | None => None
  end.

(** The pair a [ForexScannerError] message names, for the messages that
    interpolate [{base}/{quote}]. *)
Definition error_pair (msg : scanner_error) : option (string * string) :=
  match msg with
  | NetworkError base quote _ => Some (base, quote)
  | ApiError base quote _ => Some (base, quote)
  | ApiLimit _ base quote => Some (base, quote)
  | UnexpectedStructure base quote _ => Some (base, quote)
  | ResponseMissingField _ | InvalidNumericValue _ | InvalidPairFormat _
  | InvalidPairSides _ | MissingApiKey | DemoUnavailable _ => None
  end.

(** [raise_for_status] raises exactly for the statuses 400 to 599. *)
Definition error_status (status : Z) : bool := (400 <=? status) && (status <? 600).

(** A length [time.sleep] takes: its conversion to nanoseconds raises
    nothing. *)
Definition valid_delay (seconds : pyfloat) : bool :=
  match sleep_nanoseconds seconds with
  | Ok _ => true
  | Raise _ => false
  end.

(** [time.sleep(seconds)] waits, whatever the state of the world: the
    length is taken and the operating system carries the wait out. *)
Definition sleep_waits {W : Type} (os_sleep : W -> Z -> bool) (seconds : pyfloat)
  : Prop :=
  exists ns, sleep_nanoseconds seconds = Ok ns /\ forall w, os_sleep w ns = true.

(** No wait is needed, or the wait happens. *)
Definition can_retry {W : Type} (os_sleep : W -> Z -> bool) (retry : Z)
    (retry_delay : pyfloat) : Prop :=
  retry <= 0 \/ sleep_waits os_sleep retry_delay.

(** The pairs requested, in order. *)
Definition gets (evs : list event) : list (string * string) :=
  flat_map (fun ev => match ev with
                      | EvGet _ base quote _ => [(base, quote)]
                      | EvSleep _ => []
                      end) evs.

(** The waits, in order. *)
Definition sleeps (evs : list event) : list pyfloat :=
  flat_map (fun ev => match ev with
                      | EvGet _ _ _ _ => []
                      | EvSleep seconds => [seconds]
                      end) evs.

(** The requests that came back with a record: the pair asked for and
    the record. *)
Definition successes (evs : list event) : list ((string * string) * ExchangeRate) :=
  flat_map (fun ev => match ev with
                      | EvGet _ base quote a =>
                          match fetch_outcome base quote a with
                          | Ok r => [((base, quote), r)]
                          | Raise _ => []
                          end
                      | EvSleep _ => []
                      end) evs.

Section ProviderBehaviour.

Context {W : Type}.
Variable requests_get : W -> string -> string -> string -> answer * W.
Variables (api_key base quote : string) (retry_delay : pyfloat).

(** [exhausts n w msg w' evs]: the [n + 1] requests for the pair that
    start in state [w], with a wait between them, all fail with a
    [ForexScannerError], the last one with [msg]; they leave the provider
    in [w'] and are the events [evs]. *)
Inductive exhausts : nat -> W -> scanner_error -> W -> list event -> Prop :=
| exhausts_last w a w1 msg :
    requests_get w api_key base quote = (a, w1) ->
    fetch_outcome base quote a = Raise (ForexScannerError msg) ->
    exhausts O w msg w1 [EvGet api_key base quote a]
| exhausts_retry n w a w1 msg0 msg w2 evs :
    requests_get w api_key base quote = (a, w1) ->
    fetch_outcome base quote a = Raise (ForexScannerError msg0) ->
    exhausts n w1 msg w2 evs ->
    exhausts (S n) w msg w2
      (EvGet api_key base quote a :: EvSleep retry_delay :: evs).

(** [succeeds n w rate w' evs]: the requests for the pair that start in
    state [w] fail with a [ForexScannerError] at most [n] times and then
    come back with the record [rate]; with a wait after each failure,
    they leave the provider in [w'] and are the events [evs]. *)
Inductive succeeds : nat -> W -> ExchangeRate -> W -> list event -> Prop :=
| succeeds_now n w a w1 rate :
    requests_get w api_key base quote = (a, w1) ->
    fetch_outcome base quote a = Ok rate ->
    succeeds n w rate w1 [EvGet api_key base quote a]
| succeeds_later n w a w1 msg0 rate w2 evs :
    requests_get w api_key base quote = (a, w1) ->
    fetch_outcome base quote a = Raise (ForexScannerError msg0) ->
    succeeds n w1 rate w2 evs ->
    succeeds (S n) w rate w2
      (EvGet api_key base quote a :: EvSleep retry_delay :: evs).

(** The retry loop as a bounded iteration over the retries left: the
    outcome, the final state and the events. *)
Fixpoint attempts (retries : nat) (w : W) : result ExchangeRate * W * list event :=
  let (a, w1) := requests_get w api_key base quote in
  match fetch_outcome base quote a, retries with
  | Raise (ForexScannerError msg), S n =>
      let '(r, w2, evs) := attempts n w1 in
      (r, w2, EvGet api_key base quote a :: EvSleep retry_delay :: evs)
  | r, _ => (r, w1, [EvGet api_key base quote a])
  end.

End ProviderBehaviour.

Section BatchBehaviour.

Context {W : Type}.
Variable requests_get : W -> string -> string -> string -> answer * W.
Variables (api_key : string) (retry_delay : pyfloat) (retries : nat).

(** [batch_succeeds pairs w rates w' evs]: from state [w] every pair of
    the batch, in order, succeeds within [retries] retries; [rates] are
    their records, in order. *)
Inductive batch_succeeds
  : list (string * string) -> W -> list ExchangeRate -> W -> list event -> Prop :=
| batch_nil w : batch_succeeds [] w [] w []
| batch_cons base quote rest w rate w1 evs1 rates w2 evs2 :
    succeeds requests_get api_key base quote retry_delay retries w rate w1 evs1 ->
    batch_succeeds rest w1 rates w2 evs2 ->
    batch_succeeds ((base, quote) :: rest) w (rate :: rates) w2 (evs1 ++ evs2).

End BatchBehaviour.

(** The record [r] was fetched for the pair [p] in a run with the events
    [evs]: a request for [p] came back with a body whose subtree under the
    result key [from_api] turned into [r], and the rate of [r] is what
    [float] gives for the value under the rate key of that subtree. *)
Definition fetched (evs : list event) (p : string * string) (r : ExchangeRate)
  : Prop :=
  exists key resp payload subtree v,
    In (EvGet key (fst p) (snd p) (inr resp)) evs /\
    body resp = Some payload /\
    Py.getitem payload data_key = Ok subtree /\
    from_api subtree = Ok r /\
    Py.getitem subtree key_rate = Ok v /\
    Py.float v = Ok (rate r).

(** The record [r] is the demo record of the pair [p]: [from_api] of the
    entry of the demo table under the pair's key, and its rate is what
    [float] gives for the entry's rate text. *)
Definition demo_record (p : string * string) (r : ExchangeRate) : Prop :=
  exists entry v,
    Py.lookup (pair_key p) demo_payload = Some entry /\
    from_api entry = Ok r /\
    Py.getitem entry key_rate = Ok v /\
    Py.float v = Ok (rate r).


(** The value under an optional key, [None] (here [JNull]) when the key
    is missing: [payload.get(k)]. *)
Definition optional_value (fields : list (string * json)) (k : string) : json :=
  match Py.lookup k fields with
  | Some v => v
  | None => JNull
  end.


(** The requests of a batch in which the [i]-th pair is asked for
    [counts[i]] times in a row. *)
Definition requests_of (pairs : list (string * string)) (counts : list nat)
  : list (string * string) :=
  concat (map (fun pk => repeat (fst pk) (snd pk)) (combine pairs counts)).

(** The text [parse_pairs] splits for a raw string. *)
Definition cleaned_text (raw : string) : string :=
  PyStr.upper (PyStr.strip (PyStr.replace "-" "/" raw)).

(** What a run may do for a batch: request a pair of the batch with the
    given credential, or wait for the given delay. *)
Definition event_allowed (api_key : string) (pairs : list (string * string))
    (retry_delay : pyfloat) (ev : event) : Prop :=
  match ev with
  | EvGet k base quote _ => k = api_key /\ In (base, quote) pairs
  | EvSleep seconds => seconds = retry_delay
  end.

(** The constant [DEFAULT_PAIRS] of the script. *)
Definition DEFAULT_PAIRS : list string :=
  ["EUR/USD"; "GBP/USD"; "USD/JPY"; "USD/CHF"; "AUD/USD"].

(** The credential a live run of [main] uses:
    [args.api_key or os.getenv(ENV_API_KEY)]. *)
Definition chosen_api_key (args : arguments) (env_api_key : option string)
  : option string :=
  Py.or (arg_api_key args) env_api_key.

(* ================================================================= *)
(** ** [render_table] and [format_price] *)

Module Text.

(** [c * n] *)
Fixpoint repeat_char (c : ascii) (n : nat) : string :=
  match n with
  | O => EmptyString
  | S n' => String c (repeat_char c n')
  end.

(** [f"{s:<{width}}"] for a string [s]: spaces are added on the right up
    to [width]; a longer string is left as it is. *)
Definition ljust (s : string) (width : nat) : string :=
  (s ++ repeat_char " " (width - String.length s))%string.

(** [sep.join(parts)] *)
Fixpoint join (sep : string) (parts : list string) : string :=
  match parts with
  | [] => EmptyString
  | [s] => s
  | s :: rest => (s ++ sep ++ join sep rest)%string
  end.

Definition newline : string := String (ascii_of_nat 10) EmptyString.

(** [max(xs, default=d)] *)
Definition max_or (d : nat) (xs : list nat) : nat :=
  match xs with
  | [] => d
  | x :: rest => fold_left Nat.max rest x
  end.

End Text.

Section Rendering.

(** What Python's formatting gives, for the values the script formats
    without looking at them:
    - [str_of v], the text [str(v)] of a value that is no string;
    - [aligned_number v], the text a number is laid out as by a format
      with an alignment and no presentation type;
    - [fixed6 x], the text [format(x, ".6f")] of a float;
    - [placeholder], the three-character literal printed for an absent
      price. *)
Variable str_of : json -> string.
Variable aligned_number : json -> string.
Variable fixed6 : pyfloat -> string.
Variable placeholder : string.

(** [f"{v}"] *)
Definition py_str (v : json) : string :=
  match v with
  | JStr s => s
  | _ => str_of v
  end.

(** [f"{v:<{width}}"]: [None], lists and objects do not take a format. *)
Definition format_left (v : json) (width : nat) : result string :=
  match v with
  | JStr s => Ok (Text.ljust s width)
  | JBool _ | JInt _ | JFloat _ => Ok (Text.ljust (aligned_number v) width)
  | JNull | JArr _ | JObj _ => Raise TypeError
  end.

(** [f"{item.from_currency}/{item.to_currency}"] *)
Definition pair_label (item : ExchangeRate) : string :=
  (py_str (from_currency item) ++ "/" ++ py_str (to_currency item))%string.

Definition format_price (value : option pyfloat) (width : nat) : string :=
  match value with
  | Some x => Text.ljust (fixed6 x) width
  | None => Text.ljust placeholder width
  end.

(** The width of the first column. *)
Definition pair_width (data : list ExchangeRate) : nat :=
  Nat.max 4 (Text.max_or 4 (map (fun item => String.length (pair_label item)) data)).

Definition headers (data : list ExchangeRate) : list (string * nat) :=
  [("Pair", pair_width data); ("Rate", 12%nat); ("Bid", 12%nat); ("Ask", 12%nat);
   ("Last Refreshed", 19%nat)].

Definition header_line (data : list ExchangeRate) : string :=
  Text.join " | " (map (fun h => Text.ljust (fst h) (snd h)) (headers data)).

Definition separator (data : list ExchangeRate) : string :=
  Text.join "-+-" (map (fun h => Text.repeat_char "-" (snd h)) (headers data)).

(** One turn of the [for item in data] loop: the row of [item] in a
    table whose first column is [width] wide. *)
Definition render_row (width : nat) (item : ExchangeRate) : result string :=
  refreshed <- format_left (last_refreshed item) 19 ;;
  Ok (Text.join " | "
        [Text.ljust (pair_label item) width;
         Text.ljust (fixed6 (rate item)) 12;
         format_price (bid_price item) 12;
         format_price (ask_price item) 12;
         refreshed]).

Fixpoint render_rows (width : nat) (data : list ExchangeRate) (rows : list string)
  : result (list string) :=
  match data with
  | [] => Ok rows
  | item :: rest =>
      row <- render_row width item ;;
      render_rows width rest (rows ++ [row])
  end.

(** [data] is a list, as [main] passes it: it is gone through twice. *)
Definition render_table (data : list ExchangeRate) : result string :=
  rows <- render_rows (pair_width data) data [] ;;
  Ok (Text.join Text.newline (header_line data :: separator data :: rows)).

(* ================================================================= *)
(** ** [main] *)

Inductive output_format : Type := OutTable | OutJson.

(** The namespace of [parse_arguments]: the part read before [rates] is
    bound, then [--output] and [--save]. *)
Record cli_arguments : Type := mkCli {
  cli_args : arguments;
  cli_output : output_format;
  cli_save : option string
}.

(** What [main] lets the user see. *)
Inductive action : Type :=
| PrintText (text : string)
    (* print(render_table(rates)) *)
| PrintJson (payload : json)
    (* print(json.dumps(payload, indent=2)) *)
| PrintError (msg : scanner_error)
    (* print(f"Error: {exc}", file=sys.stderr) *)
| WriteJson (path : string) (payload : json).
    (* save_output(path, payload) *)

(** How a call of [main] ends: with a return value, or with an exception
    nobody catches ([OSError] is what [open] raises). *)
Inductive exit_status : Type :=
| Returned (code : Z)
| Uncaught (e : exn)
| UncaughtOSError (path : string).

Definition optional_float (value : option pyfloat) : json :=
  match value with
  | Some x => JFloat x
  | None => JNull
  end.

(** The object printed for a record with [--output json]. *)
Definition json_entry (item : ExchangeRate) : json :=
  JObj [("pair", JStr (pair_label item));
        ("rate", JFloat (rate item));
        ("bid", optional_float (bid_price item));
        ("ask", optional_float (ask_price item));
        ("last_refreshed", last_refreshed item)].

(** The object saved for a record with [--save]. *)
Definition snapshot_entry (item : ExchangeRate) : json :=
  JObj [("from_currency", from_currency item);
        ("to_currency", to_currency item);
        ("exchange_rate", JFloat (rate item));
        ("bid_price", optional_float (bid_price item));
        ("ask_price", optional_float (ask_price item));
        ("last_refreshed", last_refreshed item)].

(** The snapshot: [generated_at] is the text of the clock. *)
Definition snapshot (generated_at : string) (pairs : list (string * string))
    (rates : list ExchangeRate) : json :=
  JObj [("generated_at", JStr generated_at);
        ("pairs", JArr (map (fun p => JStr (pair_key p)) pairs));
        ("data", JArr (map snapshot_entry rates))].

Context {W : Type}.
Variable requests_get : W -> string -> string -> string -> answer * W.
Variable os_sleep : W -> Z -> bool.
Variable env_api_key : option string.

(** The clock, as [time.strftime("%Y-%m-%dT%H:%M:%SZ", time.gmtime())]
    reads it, and the file system: whether [path] can be opened for
    writing. *)
Variable clock : string.
Variable writable : string -> bool.

(** [save_output(path, payload)]: the file is written, or [open] raises
    an [OSError]. *)
Definition save_output (path : string) (payload : json) : bool * list action :=
  if writable path then (true, [WriteJson path payload]) else (false, []).

(** [except ForexScannerError as exc: ...; return 1]: any other exception
    passes. *)
Definition on_exception (e : exn) : exit_status * list action :=
  match e with
  | ForexScannerError msg => (Returned 1, [PrintError msg])
  | _ => (Uncaught e, [])
  end.

(** The statements of [main] after [rates] is bound. *)
Definition report (cli : cli_arguments) (pairs : list (string * string))
    (rates : list ExchangeRate) : exit_status * list action :=
  match
    match cli_output cli with
    | OutJson => Ok (PrintJson (JArr (map json_entry rates)))
    | OutTable => text <- render_table rates ;; Ok (PrintText text)
    end
  with
  | Raise e => on_exception e
  | Ok printed =>
      match cli_save cli with
      | None => (Returned 0, [printed])
      | Some path =>
          if PyStr.is_empty path then (Returned 0, [printed])
          else
            let (saved, written) := save_output path (snapshot clock pairs rates) in
            (if saved then Returned 0 else UncaughtOSError path, printed :: written)
      end
  end.

Definition main (cli : cli_arguments)
  : W -> option (exit_status * W * list event * list action) :=
  fun w =>
    let args := cli_args cli in
    match parse_pairs (arg_pairs args) with
    | Raise e => let (status, acts) := on_exception e in Some (status, w, [], acts)
    | Ok pairs =>
        match
          (if arg_demo args then lift (load_demo_data pairs)
           else
             let api_key := Py.or (arg_api_key args) env_api_key in
             run_scanner requests_get os_sleep pairs api_key
               (Z.max 0 (arg_retry args))
               (PyFloat.max min_retry_delay (arg_retry_delay args))) w
        with
        | None => None
        | Some (Raise e, w', evs) =>
            let (status, acts) := on_exception e in Some (status, w', evs, acts)
        | Some (Ok rates, w', evs) =>
            let (status, acts) := report cli pairs rates in
            Some (status, w', evs, acts)
        end
    end.

End Rendering.

Section RenderingVocabulary.

Variable aligned_number : json -> string.
Variable fixed6 : pyfloat -> string.
Variable placeholder : string.

(** The text of a price cell before padding. *)
Definition price_text (value : option pyfloat) : string :=
  match value with
  | Some x => fixed6 x
  | None => placeholder
  end.

(** The text of a last-refreshed cell before padding, for the values
    that take the format. *)
Definition refreshed_text (v : json) : option string :=
  match v with
  | JStr s => Some s
  | JBool _ | JInt _ | JFloat _ => Some (aligned_number v)
  | JNull | JArr _ | JObj _ => None
  end.

(** The four cells after the pair are no wider than their columns. *)
Definition cells_fit (item : ExchangeRate) : Prop :=
  (String.length (fixed6 (rate item)) <= 12)%nat /\
  (String.length (price_text (bid_price item)) <= 12)%nat /\
  (String.length (price_text (ask_price item)) <= 12)%nat /\
  match refreshed_text (last_refreshed item) with
  | Some text => (String.length text <= 19)%nat
  | None => True
  end.

End RenderingVocabulary.

(* ================================================================= *)
(** * Properties *)

(** ** Strings *)

Module PyStrFacts.
Import PyStr.

Ltac by_cases_on_char c :=
  destruct c as [[] [] [] [] [] [] [] []]; try reflexivity; try discriminate.

Lemma is_space_upper_char c : is_space (upper_char c) = is_space c.
Proof. by_cases_on_char c. Qed.

Lemma upper_char_idem c : upper_char (upper_char c) = upper_char c.
Proof. by_cases_on_char c. Qed.

Lemma upper_char_eqb_slash c : Ascii.eqb (upper_char c) "/" = Ascii.eqb c "/".
Proof. by_cases_on_char c. Qed.

Lemma upper_char_eqb_dash c : Ascii.eqb (upper_char c) "-" = Ascii.eqb c "-".
Proof. by_cases_on_char c. Qed.

Lemma map_append f s t : map f (s ++ t) = (map f s ++ map f t)%string.
Proof. induction s as [|c s IH]; simpl; [reflexivity | now rewrite IH]. Qed.

Lemma upper_idem s : upper (upper s) = upper s.
Proof.
  unfold upper. induction s as [|c s IH]; simpl; [reflexivity|].
  now rewrite upper_char_idem, IH.
Qed.

Lemma contains_upper_slash s : contains "/" (upper s) = contains "/" s.
Proof.
  unfold upper. induction s as [|c s IH]; simpl; [reflexivity|].
  now rewrite upper_char_eqb_slash, IH.
Qed.

Lemma contains_upper_dash s : contains "-" (upper s) = contains "-" s.
Proof.
  unfold upper. induction s as [|c s IH]; simpl; [reflexivity|].
  now rewrite upper_char_eqb_dash, IH.
Qed.

Lemma contains_append c s t :
  contains c (s ++ t) = contains c s || contains c t.
Proof.
  induction s as [|d s IH]; simpl; [reflexivity|].
  now rewrite IH, orb_assoc.
Qed.

(** Stripping only removes characters. *)
Lemma contains_lstrip c s : contains c (lstrip s) = true -> contains c s = true.
Proof.
  induction s as [|d s IH]; simpl; [easy|].
  destruct (is_space d); [|easy].
  intros H. rewrite (IH H). apply orb_true_r.
Qed.

Lemma contains_rstrip c s : contains c (rstrip s) = true -> contains c s = true.
Proof.
  induction s as [|d s IH]; simpl; [easy|].
  destruct (rstrip s) as [|e r] eqn:E.
  - destruct (is_space d); simpl; [easy|].
    rewrite orb_false_r. intros ->. reflexivity.
  - simpl in *. destruct (Ascii.eqb d c); [easy|]. simpl. exact IH.
Qed.

Lemma contains_strip c s : contains c (strip s) = true -> contains c s = true.
Proof. intros H. now apply contains_lstrip, contains_rstrip. Qed.

(** After [replace a b] no [a] is left, when [b] is another character. *)
Lemma contains_replace_old a b s :
  Ascii.eqb b a = false -> contains a (replace a b s) = false.
Proof.
  intros Hab. unfold replace. induction s as [|c s IH]; simpl; [reflexivity|].
  rewrite IH, orb_false_r.
  destruct (Ascii.eqb c a) eqn:E; [exact Hab | exact E].
Qed.

Lemma replace_absent a b s : contains a s = false -> replace a b s = s.
Proof.
  unfold replace. induction s as [|c s IH]; simpl; [reflexivity|].
  intros H. apply orb_false_elim in H as [H1 H2].
  now rewrite H1, IH.
Qed.

Lemma contains_replace_new a b s :
  contains b (replace a b s) = contains a s || contains b s.
Proof.
  unfold replace. induction s as [|c s IH]; simpl; [reflexivity|].
  rewrite IH. destruct (Ascii.eqb c a) eqn:E1.
  - now rewrite Ascii.eqb_refl.
  - destruct (Ascii.eqb c b), (contains a s); reflexivity.
Qed.

(** [upper] commutes with stripping. *)
Lemma lstrip_upper s : lstrip (upper s) = upper (lstrip s).
Proof.
  unfold upper. induction s as [|c s IH]; simpl; [reflexivity|].
  rewrite is_space_upper_char. destruct (is_space c); [exact IH | reflexivity].
Qed.

Lemma rstrip_upper s : rstrip (upper s) = upper (rstrip s).
Proof.
  unfold upper. induction s as [|c s IH]; simpl; [reflexivity|].
  rewrite IH, is_space_upper_char.
  destruct (rstrip s); simpl; [destruct (is_space c)|]; reflexivity.
Qed.

Lemma strip_upper s : strip (upper s) = upper (strip s).
Proof. unfold strip. now rewrite lstrip_upper, rstrip_upper. Qed.

Lemma lstrip_idem s : lstrip (lstrip s) = lstrip s.
Proof.
  induction s as [|c s IH]; simpl; [reflexivity|].
  destruct (is_space c) eqn:E; [exact IH|]. simpl. now rewrite E.
Qed.

Lemma rstrip_idem s : rstrip (rstrip s) = rstrip s.
Proof.
  induction s as [|c s IH]; simpl; [reflexivity|].
  destruct (rstrip s) as [|e r] eqn:E.
  - destruct (is_space c) eqn:Ec; simpl; [reflexivity | now rewrite Ec].
  - change (rstrip (String c (String e r)))
      with (match rstrip (String e r) with
            | EmptyString => if is_space c then EmptyString else String c EmptyString
            | r' => String c r'
            end).
    now rewrite IH.
Qed.

(** A string that starts with a visible character keeps it through
    [rstrip]. *)
Lemma rstrip_head c s :
  is_space c = false -> exists r, rstrip (String c s) = String c r.
Proof.
  intros Hc. simpl. destruct (rstrip s) as [|e r].
  - rewrite Hc. now exists EmptyString.
  - now exists (String e r).
Qed.

Lemma lstrip_rstrip_lstrip s : lstrip (rstrip (lstrip s)) = rstrip (lstrip s).
Proof.
  induction s as [|c s IH]; [reflexivity|].
  simpl lstrip at 2 3. destruct (is_space c) eqn:E; [exact IH|].
  destruct (rstrip_head c s E) as [r ->]. simpl. now rewrite E.
Qed.

Lemma strip_idem s : strip (strip s) = strip s.
Proof. unfold strip. now rewrite lstrip_rstrip_lstrip, rstrip_idem. Qed.

(** Splitting at the first [c] and joining again. *)
Lemma split_first_join c s a b :
  contains c s = true -> split_first c s = (a, b) ->
  s = (a ++ String c b)%string /\ contains c a = false.
Proof.
  revert a b. induction s as [|d s IH]; simpl; [easy|].
  intros a b Hc Hs. destruct (Ascii.eqb d c) eqn:E.
  - apply Ascii.eqb_eq in E. subst d. inversion Hs; subst. now split.
  - simpl in Hc. destruct (split_first c s) as [a' b'] eqn:E'.
    inversion Hs; subst. destruct (IH a' b Hc eq_refl) as [-> Ha].
    simpl. now rewrite E.
Qed.

Lemma split_first_append c a b :
  contains c a = false -> split_first c (a ++ String c b) = (a, b).
Proof.
  induction a as [|d a IH]; simpl.
  - now rewrite Ascii.eqb_refl.
  - intros H. apply orb_false_elim in H as [H1 H2]. now rewrite H1, IH.
Qed.

(** Stripping a string that ends in a visible character. *)
Lemma lstrip_append_visible a c b :
  is_space c = false ->
  lstrip (a ++ String c b) = (lstrip a ++ String c b)%string /\
  (lstrip a = EmptyString \/ lstrip a <> EmptyString).
Proof.
  intros Hc. split; [|destruct (lstrip a); [now left | now right]].
  induction a as [|d a IH]; simpl; [now rewrite Hc|].
  destruct (is_space d); [exact IH | reflexivity].
Qed.

Lemma rstrip_append_visible a c :
  is_space c = false ->
  rstrip (a ++ String c EmptyString) = (a ++ String c EmptyString)%string.
Proof.
  intros Hc. induction a as [|d a IH]; simpl; [now rewrite Hc|].
  rewrite IH. destruct a; reflexivity.
Qed.

End PyStrFacts.

(* ================================================================= *)
(** ** [parse_pairs] *)

Section ParsePairs.
Import PyStr PyStrFacts.

(** The loop stops at the first string its body rejects, and otherwise
    appends the parsed pairs in order. *)
Lemma parse_pairs_loop_ok raws : forall acc ps,
  parse_pairs_loop raws acc = Ok ps <->
  exists ps', ps = acc ++ ps' /\ Forall2 (fun raw p => parse_pair raw = Ok p) raws ps'.
Proof.
  induction raws as [|raw raws IH]; intros acc ps; simpl.
  - split.
    + intros [= <-]. exists []. now rewrite app_nil_r.
    + intros (ps' & -> & H). inversion H. now rewrite app_nil_r.
  - destruct (parse_pair raw) as [p|e] eqn:E; simpl.
    + rewrite IH. split.
      * intros (ps' & -> & H). exists (p :: ps'). rewrite <- app_assoc. auto.
      * intros (ps' & -> & H). inversion H as [|? p' ? ps'' Hp Hrest]; subst.
        rewrite E in Hp. injection Hp as <-.
        exists ps''. now rewrite <- app_assoc.
    + split; [discriminate|]. intros (ps' & _ & H).
      inversion H as [|? p' ? ps'' Hp Hrest]; subst. congruence.
Qed.

Lemma parse_pairs_single raw :
  parse_pairs [raw] = p <- parse_pair raw ;; Ok [p].
Proof. unfold parse_pairs. simpl. now destruct (parse_pair raw). Qed.

(** The normalized text is a fixed point of the normalization. *)
Lemma cleaned_fixed raw :
  let cleaned := upper (strip (replace "-" "/" raw)) in
  upper (strip (replace "-" "/" cleaned)) = cleaned.
Proof.
  intros cleaned.
  assert (Hdash : contains "-" cleaned = false).
  { unfold cleaned. rewrite contains_upper_dash.
    destruct (contains "-" (strip (replace "-" "/" raw))) eqn:E; [|reflexivity].
    apply contains_strip in E.
    now rewrite contains_replace_old in E. }
  rewrite (replace_absent _ _ _ Hdash). unfold cleaned.
  now rewrite strip_upper, strip_idem, upper_idem.
Qed.

Lemma parse_pair_render raw base quote :
  parse_pair raw = Ok (base, quote) ->
  parse_pair (pair_key (base, quote)) = Ok (base, quote).
Proof.
  intros H. pose proof (cleaned_fixed raw) as Hfix. simpl in Hfix.
  unfold parse_pair in H.
  destruct (contains "/" (upper (strip (replace "-" "/" raw)))) eqn:Hc;
    [|discriminate].
  simpl in H.
  destruct (split_first "/" (upper (strip (replace "-" "/" raw))))
    as [b q] eqn:Hs.
  destruct (is_empty b || is_empty q) eqn:He; [discriminate|].
  injection H as -> ->.
  destruct (split_first_join _ _ _ _ Hc Hs) as [Hjoin _].
  unfold pair_key. simpl fst. simpl snd.
  change (base ++ "/" ++ quote)%string with (base ++ String "/" quote)%string.
  rewrite <- Hjoin. unfold parse_pair. rewrite Hfix, Hc. simpl.
  now rewrite Hs, He.
Qed.

Lemma parse_pair_no_separator raw :
  contains "-" raw = false -> contains "/" raw = false ->
  parse_pair raw = Raise (ForexScannerError (InvalidPairFormat raw)).
Proof.
  intros Hd Hs. unfold parse_pair.
  destruct (contains "/" (upper (strip (replace "-" "/" raw)))) eqn:E;
    [|reflexivity].
  rewrite contains_upper_slash in E. apply contains_strip in E.
  rewrite contains_replace_new, Hd, Hs in E. discriminate.
Qed.

Lemma parse_pair_empty_base sep b :
  sep = "-"%char \/ sep = "/"%char ->
  parse_pair (String sep b) =
    Raise (ForexScannerError (InvalidPairSides (String sep b))).
Proof.
  intros Hsep. unfold parse_pair.
  assert (Hr : replace "-" "/" (String sep b) = String "/" (replace "-" "/" b))
    by (destruct Hsep; subst; reflexivity).
  rewrite Hr. unfold strip. simpl lstrip.
  destruct (rstrip_head "/" (replace "-" "/" b) eq_refl) as [r ->].
  reflexivity.
Qed.

Lemma parse_pair_empty_quote a sep :
  sep = "-"%char \/ sep = "/"%char ->
  contains "-" a = false -> contains "/" a = false ->
  parse_pair (a ++ String sep EmptyString) =
    Raise (ForexScannerError (InvalidPairSides (a ++ String sep EmptyString))).
Proof.
  intros Hsep Hd Hs. unfold parse_pair.
  assert (Hr : replace "-" "/" (a ++ String sep EmptyString)
               = (a ++ String "/" EmptyString)%string).
  { unfold replace. rewrite map_append.
    fold (replace "-" "/" a). rewrite (replace_absent _ _ _ Hd).
    destruct Hsep; subst; reflexivity. }
  rewrite Hr. unfold strip.
  destruct (lstrip_append_visible a "/" EmptyString eq_refl) as [-> _].
  rewrite rstrip_append_visible by reflexivity.
  unfold upper. rewrite map_append. fold (upper (lstrip a)). simpl map.
  assert (Hu : contains "/" (upper (lstrip a)) = false).
  { rewrite contains_upper_slash.
    destruct (contains "/" (lstrip a)) eqn:E; [|reflexivity].
    apply contains_lstrip in E. congruence. }
  rewrite contains_append. simpl contains. rewrite orb_true_r. simpl negb.
  cbv iota. rewrite split_first_append by exact Hu.
  simpl. now rewrite orb_true_r.
Qed.

End ParsePairs.

(** C6. [parse_pairs] maps both "EUR-USD" and "eur/usd" to the pair
    (EUR, USD); a raw string without "-" and without "/" (such as
    "EURUSD") is rejected with the invalid-pair-format error; and a raw
    string whose text before the first separator, or after it, is empty is
    rejected with the error that asks for both currencies. *)
Theorem parse_pairs_accepts_and_rejects :
  parse_pairs ["EUR-USD"] = Ok [("EUR", "USD")] /\
  parse_pairs ["eur/usd"] = Ok [("EUR", "USD")] /\
  (forall raw,
      PyStr.contains "-" raw = false -> PyStr.contains "/" raw = false ->
      parse_pairs [raw] = Raise (ForexScannerError (InvalidPairFormat raw))) /\
  (forall a sep b,
      sep = "-"%char \/ sep = "/"%char ->
      PyStr.contains "-" a = false -> PyStr.contains "/" a = false ->
      a = EmptyString \/ b = EmptyString ->
      parse_pairs [(a ++ String sep b)%string] =
        Raise (ForexScannerError (InvalidPairSides (a ++ String sep b)%string))).
Proof.
  split; [reflexivity|]. split; [reflexivity|]. split.
  - intros raw Hd Hs. rewrite parse_pairs_single.
    now rewrite parse_pair_no_separator.
  - intros a sep b Hsep Hd Hs [-> | ->]; rewrite parse_pairs_single.
    + simpl append. now rewrite parse_pair_empty_base.
    + now rewrite parse_pair_empty_quote.
Qed.

Lemma parse_pairs_accepts_and_rejects_witness :
  parse_pairs ["EURUSD"] = Raise (ForexScannerError (InvalidPairFormat "EURUSD")) /\
  parse_pairs ["/USD"] = Raise (ForexScannerError (InvalidPairSides "/USD")) /\
  parse_pairs ["EUR-"] = Raise (ForexScannerError (InvalidPairSides "EUR-")).
Proof.
  destruct parse_pairs_accepts_and_rejects as (_ & _ & Hformat & Hsides).
  split; [apply Hformat; reflexivity|].
  split.
  - apply (Hsides EmptyString "/"%char "USD"); [right | | | left]; reflexivity.
  - apply (Hsides "EUR" "-"%char EmptyString); [left | | | right]; reflexivity.
Defined.

(** C9. [parse_pairs] is idempotent: when it maps raw strings to pairs,
    parsing the renderings "base/quote" of those pairs succeeds and gives
    the same pairs. *)
Theorem parse_pairs_idempotent (raws : list string) (ps : list (string * string)) :
  parse_pairs raws = Ok ps ->
  parse_pairs (map pair_key ps) = Ok ps.
Proof.
  unfold parse_pairs. rewrite !parse_pairs_loop_ok.
  intros (ps' & -> & H). exists ps'. split; [reflexivity|]. simpl.
  induction H as [|raw [base quote] raws ps' Hp _ IH]; simpl; constructor.
  - exact (parse_pair_render raw base quote Hp).
  - exact IH.
Qed.

Lemma parse_pairs_idempotent_witness :
  parse_pairs [" eur-usd"; "gbp/usd/x "] = Ok [("EUR", "USD"); ("GBP", "USD/X")] /\
  parse_pairs (map pair_key [("EUR", "USD"); ("GBP", "USD/X")])
    = Ok [("EUR", "USD"); ("GBP", "USD/X")].
Proof.
  split; [reflexivity|].
  apply (parse_pairs_idempotent [" eur-usd"; "gbp/usd/x "]). reflexivity.
Defined.

(* ================================================================= *)
(** ** [ExchangeRate.from_api] *)

Section FromApi.

Lemma lookup_str_dict k fields :
  Py.lookup k (map (fun kv : string * string => (fst kv, JStr (snd kv))) fields)
  = option_map JStr (Py.lookup k fields).
Proof.
  induction fields as [|[k' v] fields IH]; simpl; [reflexivity|].
  destruct (String.eqb k' k); [reflexivity | exact IH].
Qed.

(** On a string the lenient parser gives what [float] gives, and
    absence where [float] raises; the empty string is such a string. *)
Lemma parse_optional_float_str s :
  _parse_optional_float (JStr s) = Ok (PyFloat.of_string s).
Proof.
  unfold _parse_optional_float, Py.eq_str.
  destruct (String.eqb_spec s "") as [-> | _]; [reflexivity|].
  simpl. now destruct (PyFloat.of_string s).
Qed.

(** The lenient parser, value by value. *)
Lemma parse_optional_float_cases (value : json) :
  _parse_optional_float value =
    match value with
    | JNull => Ok None
    | JStr s => Ok (PyFloat.of_string s)
    | JFloat f => Ok (Some f)
    | JBool b => Ok (Some (FFin (if b then 1 else 0)))
    | JInt z =>
        match PyFloat.of_int z with
        | Some f => Ok (Some f)
        | None => Raise OverflowError
        end
    | JArr _ | JObj _ => Raise TypeError
    end.
Proof.
  destruct value as [| b | z | f | s | items | fields]; try reflexivity.
  - cbn. now destruct (PyFloat.of_int z).
  - apply parse_optional_float_str.
Qed.

(** What [float] makes of a value. *)
Lemma float_cases (v : json) :
  (exists f, Py.float v = Ok f) \/
  (exists s, v = JStr s /\ PyFloat.of_string s = None /\
             Py.float v = Raise (ValueError (NotAFloat s))) \/
  Py.float v = Raise TypeError \/ Py.float v = Raise OverflowError.
Proof.
  destruct v as [| b | z | f | s | items | fields]; cbn; eauto.
  - destruct (PyFloat.of_int z); eauto.
  - destruct (PyFloat.of_string s) eqn:E; eauto 6.
Qed.



Lemma get_object fields k : Py.get (JObj fields) k = Ok (optional_value fields k).
Proof. unfold Py.get, optional_value. now destruct (Py.lookup k fields). Qed.

(** [from_api] on an object, field by field in the order they are
    read. *)
Lemma from_api_object fields :
  from_api (JObj fields) =
    match Py.lookup key_from fields with
    | None => Raise (ForexScannerError (ResponseMissingField key_from))
    | Some from_code =>
    match Py.lookup key_to fields with
    | None => Raise (ForexScannerError (ResponseMissingField key_to))
    | Some to_code =>
    match Py.lookup key_rate fields with
    | None => Raise (ForexScannerError (ResponseMissingField key_rate))
    | Some rate_value =>
    match Py.float rate_value with
    | Raise (ValueError exc) => Raise (ForexScannerError (InvalidNumericValue exc))
    | Raise e => Raise e
    | Ok rate =>
    match Py.lookup key_refreshed fields with
    | None => Raise (ForexScannerError (ResponseMissingField key_refreshed))
    | Some refreshed =>
    match _parse_optional_float (optional_value fields key_bid) with
    | Raise e => Raise e
    | Ok bid =>
    match _parse_optional_float (optional_value fields key_ask) with
    | Raise e => Raise e
    | Ok ask => Ok (mkExchangeRate from_code to_code rate refreshed bid ask)
    end end end end end end end.
Proof.
  unfold from_api. fold key_from key_to key_rate key_refreshed key_bid key_ask.
  rewrite !get_object. unfold Py.getitem.
  destruct (Py.lookup key_from fields) as [from_code|]; [|reflexivity].
  destruct (Py.lookup key_to fields) as [to_code|]; [|reflexivity].
  destruct (Py.lookup key_rate fields) as [rate_value|]; [|reflexivity].
  cbn [bind].
  destruct (float_cases rate_value) as [[rate ->] | [(s & _ & _ & ->) | [-> | ->]]];
    try reflexivity.
  destruct (Py.lookup key_refreshed fields) as [refreshed|]; [|reflexivity].
  cbn [bind].
  rewrite (parse_optional_float_cases (optional_value fields key_bid)),
    (parse_optional_float_cases (optional_value fields key_ask)).
  destruct (optional_value fields key_bid) as [| b | z | f | s | items | fields1];
    try reflexivity;
    try (destruct (PyFloat.of_int z); [|reflexivity]);
    cbn [bind];
    destruct (optional_value fields key_ask) as [| b' | z' | f' | s' | items' | fields2];
    try reflexivity;
    now destruct (PyFloat.of_int z').
Qed.

Lemma str_dict_optional_value fields k :
  optional_value (map (fun kv : string * string => (fst kv, JStr (snd kv))) fields) k
  = match Py.lookup k fields with Some s => JStr s | None => JNull end.
Proof. unfold optional_value. rewrite lookup_str_dict. now destruct (Py.lookup k fields). Qed.

(** [from_api] on a dictionary of strings, case by case in the order
    the fields are read. *)
Lemma from_api_str_dict fields :
  from_api (str_dict fields) =
    match Py.lookup key_from fields with
    | None => Raise (ForexScannerError (ResponseMissingField key_from))
    | Some from_code =>
    match Py.lookup key_to fields with
    | None => Raise (ForexScannerError (ResponseMissingField key_to))
    | Some to_code =>
    match Py.lookup key_rate fields with
    | None => Raise (ForexScannerError (ResponseMissingField key_rate))
    | Some rate_text =>
    match PyFloat.of_string rate_text with
    | None => Raise (ForexScannerError (InvalidNumericValue (NotAFloat rate_text)))
    | Some rate =>
    match Py.lookup key_refreshed fields with
    | None => Raise (ForexScannerError (ResponseMissingField key_refreshed))
    | Some refreshed =>
        Ok (mkExchangeRate (JStr from_code) (JStr to_code) rate (JStr refreshed)
              (optional_price fields key_bid) (optional_price fields key_ask))
    end end end end end.
Proof.
  unfold str_dict. rewrite from_api_object, !lookup_str_dict, !str_dict_optional_value.
  unfold optional_price.
  destruct (Py.lookup key_from fields) as [from_code|]; [|reflexivity].
  destruct (Py.lookup key_to fields) as [to_code|]; [|reflexivity].
  destruct (Py.lookup key_rate fields) as [rate_text|]; [|reflexivity].
  cbn [option_map Py.float].
  destruct (PyFloat.of_string rate_text) as [rate|]; [|reflexivity].
  destruct (Py.lookup key_refreshed fields) as [refreshed|]; [|reflexivity].
  cbn [option_map]. rewrite !parse_optional_float_cases.
  now destruct (Py.lookup key_bid fields), (Py.lookup key_ask fields).
Qed.

End FromApi.




(** C7, as stated, fails: a payload whose rate text is "-1" is accepted
    and the record's rate is negative. *)
Lemma from_api_rate_not_positive :
  ~ (forall payload r,
        from_api payload = Ok r -> PyFloat.is_positive (rate r) = true).
Proof.
  intros H.
  specialize (H (str_dict [(key_from, "EUR"); (key_to, "USD"); (key_rate, "-1");
                           (key_refreshed, "2024-05-01 15:35:00")])
                _ eq_refl).
  vm_compute in H. discriminate.
Qed.

(* ================================================================= *)
(** ** [fetch_exchange_rate] *)

(** C5, as stated, fails: when the body holds the result key but the
    subtree under it lacks a required field, the fetch fails with the
    field-missing error, which is no success and names no pair. *)
Lemma fetch_failure_without_pair :
  ~ (forall w api_key base quote e w' evs,
        fetch_exchange_rate scripted api_key base quote w = Some (Raise e, w', evs) ->
        exists msg, e = ForexScannerError msg /\ error_pair msg = Some (base, quote)).
Proof.
  intros H.
  destruct (H [inr (mkResponse 200 (Some (JObj [(data_key, JObj [])])))]
              "key" "EUR" "USD" _ _ _ eq_refl) as (msg & Hmsg & Hpair).
  injection Hmsg as <-. discriminate.
Qed.

(** A body that decodes to [null] is not classified at all: the
    membership test on it raises a [TypeError], which is no
    [ForexScannerError]. *)
Example fetch_null_body :
  fetch_exchange_rate scripted "key" "EUR" "USD" [inr (mkResponse 200 (Some JNull))]
  = Some (Raise TypeError, [],
          [EvGet "key" "EUR" "USD" (inr (mkResponse 200 (Some JNull)))]).
Proof. reflexivity. Qed.

(** Nor is a body that is not JSON. *)
Example fetch_undecodable_body :
  fetch_exchange_rate scripted "key" "EUR" "USD" [inr (mkResponse 200 None)]
  = Some (Raise JSONDecodeError, [],
          [EvGet "key" "EUR" "USD" (inr (mkResponse 200 None))]).
Proof. reflexivity. Qed.

(** C5, amended.  [fetch_exchange_rate] makes one GET and classifies what
    comes back in this order: an exception raised by [requests.get], or a
    status from 400 to 599, becomes the network error naming the pair and
    wrapping the exception, which is never passed on raw; otherwise, for a
    body that decodes to a JSON object, the presence of "Error Message"
    gives the API error naming the pair; otherwise the presence of "Note"
    gives the API-limit error naming the pair; otherwise the absence of
    the result key gives the unexpected-structure error naming the pair;
    otherwise the subtree under the result key is handed to [from_api],
    and the record or error of [from_api] is the outcome. *)
Theorem fetch_classification {W : Type}
    (requests_get : W -> string -> string -> string -> answer * W)
    (api_key base quote : string) (w w' : W) (a : answer) :
  requests_get w api_key base quote = (a, w') ->
  exists r,
    fetch_exchange_rate requests_get api_key base quote w
    = Some (r, w', [EvGet api_key base quote a]) /\
    match a with
    | inl detail =>
        r = Raise (ForexScannerError (NetworkError base quote (ConnectionFailure detail)))
    | inr resp =>
        if error_status (status_code resp) then
          r = Raise (ForexScannerError
                       (NetworkError base quote (HTTPError (status_code resp))))
        else
          match body resp with
          | Some (JObj fields) =>
              match Py.lookup "Error Message" fields with
              | Some message =>
                  r = Raise (ForexScannerError (ApiError base quote message))
              | None =>
              match Py.lookup "Note" fields with
              | Some note =>
                  r = Raise (ForexScannerError (ApiLimit note base quote))
              | None =>
              match Py.lookup data_key fields with
              | None =>
                  r = Raise (ForexScannerError
                               (UnexpectedStructure base quote (JObj fields)))
              | Some subtree => r = from_api subtree
              end end end
          | _ => True
          end
    end.
Proof.
  intros Hget. unfold fetch_exchange_rate. rewrite Hget.
  eexists. split; [reflexivity|].
  destruct a as [detail | resp]; [reflexivity|].
  unfold fetch_outcome, raise_for_status. fold (error_status (status_code resp)).
  destruct (error_status (status_code resp)); [reflexivity|].
  cbn [try_except bind]. unfold response_json.
  destruct (body resp) as [[| | | | | |fields]|]; try exact I.
  cbn [bind Py.contains Py.getitem].
  destruct (Py.lookup "Error Message" fields); [reflexivity|].
  destruct (Py.lookup "Note" fields); [reflexivity|].
  destruct (Py.lookup data_key fields); reflexivity.
Qed.

Lemma fetch_classification_witness :
  exists r,
    fetch_exchange_rate scripted "key" "EUR" "USD" [note_body; server_error]
    = Some (r, [server_error], [EvGet "key" "EUR" "USD" note_body]) /\
    r = Raise (ForexScannerError (ApiLimit (JStr "rate limit") "EUR" "USD")).
Proof.
  exact (fetch_classification scripted "key" "EUR" "USD"
           [note_body; server_error] [server_error] note_body eq_refl).
Defined.

(* ================================================================= *)
(** ** [run_scanner] without a credential *)

(** C4. With an absent or empty credential [run_scanner] raises the
    missing-credential error at once, whatever the pairs, the retry budget
    and the delay: no event happens and the provider is left as it was. *)
Theorem run_scanner_missing_credential {W : Type}
    (requests_get : W -> string -> string -> string -> answer * W)
    (os_sleep : W -> Z -> bool)
    (pairs : list (string * string)) (api_key : option string)
    (retry : Z) (retry_delay : pyfloat) (w : W) :
  api_key = None \/ api_key = Some EmptyString ->
  run_scanner requests_get os_sleep pairs api_key retry retry_delay w
  = Some (Raise (ForexScannerError MissingApiKey), w, []).
Proof. intros [-> | ->]; reflexivity. Qed.

Lemma run_scanner_missing_credential_witness :
  run_scanner scripted os_accepts [("EUR", "USD"); ("GBP", "USD")] (Some EmptyString)
    3 (FFin 5) [ok_body "1.5"; ok_body "1.2"]
  = Some (Raise (ForexScannerError MissingApiKey), [ok_body "1.5"; ok_body "1.2"], []).
Proof.
  apply (run_scanner_missing_credential scripted). right. reflexivity.
Defined.

(* ================================================================= *)
(** ** Demo mode *)

Section Demo.

(** Every entry of the demo table parses, and to a positive rate. *)
Lemma demo_entries_parse key entry :
  Py.lookup key demo_payload = Some entry ->
  exists r, from_api entry = Ok r /\ PyFloat.is_positive (rate r) = true.
Proof.
  unfold demo_payload. cbn [Py.lookup].
  repeat match goal with
         | |- context [String.eqb ?k key] => destruct (String.eqb k key)
         end;
    try discriminate;
    intros [= <-]; eexists; split; reflexivity.
Qed.

(** The demo loop either returns one record per pair or stops at a
    pair the table lacks. *)
Lemma load_demo_loop_outcome pairs : forall results,
  (exists rs, load_demo_loop pairs results = Ok (results ++ rs) /\
              length rs = length pairs /\
              Forall (fun r => PyFloat.is_positive (rate r) = true) rs) \/
  (exists p, In p pairs /\
             load_demo_loop pairs results
             = Raise (ForexScannerError (DemoUnavailable (pair_key p)))).
Proof.
  induction pairs as [|p pairs IH]; intros results; cbn [load_demo_loop].
  - left. exists []. now rewrite app_nil_r.
  - destruct (Py.lookup (pair_key p) demo_payload) as [entry|] eqn:E.
    + destruct (demo_entries_parse _ _ E) as (r & -> & Hpos). cbn [bind].
      destruct (IH (results ++ [r])) as [(rs & -> & Hlen & Hall) | (q & Hq & ->)].
      * left. exists (r :: rs). rewrite <- app_assoc. simpl. auto.
      * right. exists q. split; [now right | reflexivity].
    + right. exists p. split; [now left | reflexivity].
Qed.

(** A rejected batch of raw strings is rejected for one of them. *)
Lemma parse_pairs_loop_error raws : forall acc e,
  parse_pairs_loop raws acc = Raise e ->
  exists raw, In raw raws /\
    (e = ForexScannerError (InvalidPairFormat raw) \/
     e = ForexScannerError (InvalidPairSides raw)).
Proof.
  induction raws as [|raw raws IH]; intros acc e; simpl; [discriminate|].
  destruct (parse_pair raw) as [p|e'] eqn:E; simpl.
  - intros H. destruct (IH _ _ H) as (raw' & Hin & He). exists raw'. auto.
  - intros [= <-]. exists raw. split; [now left|].
    unfold parse_pair in E.
    destruct (negb _); [injection E as <-; now left|].
    destruct (PyStr.split_first _ _) as [b q].
    destruct (_ || _); [injection E as <-; now right | discriminate].
Qed.

End Demo.

(** C10, as stated, fails: a demo run on the raw pair "EURUSD" neither
    succeeds nor fails with the demo-pair-unavailable error; it fails in
    [parse_pairs], before the demo table is consulted. *)
Lemma demo_run_rejects_raw_pair :
  ~ (forall (env_api_key : option string) (args : arguments) (w : list answer),
        arg_demo args = true ->
        exists r w' evs,
          main_rates scripted os_accepts env_api_key args w = Some (r, w', evs) /\
          ((exists rates, r = Ok rates) \/
           (exists key, r = Raise (ForexScannerError (DemoUnavailable key))))).
Proof.
  intros H.
  destruct (H None (mkArguments ["EURUSD"] None 1 (FFin 5) true) [] eq_refl)
    as (r & w' & evs & Hrun & [[rates ->] | [key ->]]);
    vm_compute in Hrun; discriminate.
Qed.

(** C10, amended.  Demo mode never reads the credential: with the demo
    flag set, the outcome of a run is that of [parse_pairs] followed by
    [load_demo_data] on the parsed pairs, whatever the credential given on
    the command line or in the environment; no request is made.  The run
    succeeds, or fails in [parse_pairs] with an invalid-pair error for one
    of the raw strings, or fails with the demo-pair-unavailable error; the
    missing-credential error does not occur.  On parsed pairs,
    [load_demo_data] alone either returns one record per pair or fails
    with the demo-pair-unavailable error for one of the pairs. *)
Theorem demo_mode_ignores_credential {W : Type}
    (requests_get : W -> string -> string -> string -> answer * W)
    (os_sleep : W -> Z -> bool)
    (env_api_key : option string) (args : arguments) (w : W) :
  arg_demo args = true ->
  main_rates requests_get os_sleep env_api_key args w
  = Some (pairs <- parse_pairs (arg_pairs args) ;; load_demo_data pairs, w, []) /\
  (forall r w' evs,
      main_rates requests_get os_sleep env_api_key args w = Some (r, w', evs) ->
      r <> Raise (ForexScannerError MissingApiKey) /\
      ((exists rates, r = Ok rates) \/
       (exists raw, In raw (arg_pairs args) /\
                    (r = Raise (ForexScannerError (InvalidPairFormat raw)) \/
                     r = Raise (ForexScannerError (InvalidPairSides raw)))) \/
       (exists key, r = Raise (ForexScannerError (DemoUnavailable key))))) /\
  (forall pairs,
      (exists rates, load_demo_data pairs = Ok rates /\ length rates = length pairs) \/
      (exists p, In p pairs /\
                 load_demo_data pairs
                 = Raise (ForexScannerError (DemoUnavailable (pair_key p))))).
Proof.
  intros Hdemo.
  assert (Hrun : main_rates requests_get os_sleep env_api_key args w
                 = Some (pairs <- parse_pairs (arg_pairs args) ;; load_demo_data pairs,
                         w, [])).
  { unfold main_rates, ebind, lift. rewrite Hdemo.
    destruct (parse_pairs (arg_pairs args)); reflexivity. }
  assert (Hdata : forall pairs,
      (exists rates, load_demo_data pairs = Ok rates /\ length rates = length pairs) \/
      (exists p, In p pairs /\
                 load_demo_data pairs
                 = Raise (ForexScannerError (DemoUnavailable (pair_key p))))).
  { intros pairs. unfold load_demo_data.
    destruct (load_demo_loop_outcome pairs []) as [(rs & H & Hlen & _) | H].
    - left. exists rs. auto.
    - right. exact H. }
  split; [exact Hrun|]. split; [|exact Hdata].
  intros r w' evs. rewrite Hrun. intros [= <- <- <-].
  destruct (parse_pairs (arg_pairs args)) as [pairs|e] eqn:E; simpl.
  - destruct (Hdata pairs) as [(rates & -> & _) | (p & _ & ->)].
    + split; [discriminate|]. left. now exists rates.
    + split; [discriminate|]. right. right. now exists (pair_key p).
  - destruct (parse_pairs_loop_error _ _ _ E) as (raw & Hin & [-> | ->]);
      (split; [discriminate|]); right; left; exists raw; auto.
Qed.

Lemma demo_mode_ignores_credential_witness :
  main_rates scripted os_accepts None (mkArguments ["eur-usd"; "XAU/USD"] None 1 (FFin 5) true)
    [server_error]
  = Some (Raise (ForexScannerError (DemoUnavailable "XAU/USD")), [server_error], []).
Proof.
  exact (proj1 (demo_mode_ignores_credential scripted os_accepts None
                  (mkArguments ["eur-usd"; "XAU/USD"] None 1 (FFin 5) true)
                  [server_error] eq_refl)).
Defined.

(* ================================================================= *)
(** ** The retry loop *)

Section Traces.

Lemma gets_get k b q a evs : gets (EvGet k b q a :: evs) = (b, q) :: gets evs.
Proof. reflexivity. Qed.

Lemma gets_sleep d evs : gets (EvSleep d :: evs) = gets evs.
Proof. reflexivity. Qed.

Lemma sleeps_get k b q a evs : sleeps (EvGet k b q a :: evs) = sleeps evs.
Proof. reflexivity. Qed.

Lemma sleeps_sleep d evs : sleeps (EvSleep d :: evs) = d :: sleeps evs.
Proof. reflexivity. Qed.

Lemma successes_get k b q a evs :
  successes (EvGet k b q a :: evs)
  = match fetch_outcome b q a with
    | Ok r => [((b, q), r)]
    | Raise _ => []
    end ++ successes evs.
Proof. reflexivity. Qed.

Lemma successes_sleep d evs : successes (EvSleep d :: evs) = successes evs.
Proof. reflexivity. Qed.

Lemma gets_app evs1 evs2 : gets (evs1 ++ evs2) = gets evs1 ++ gets evs2.
Proof. apply flat_map_app. Qed.

Lemma sleeps_app evs1 evs2 : sleeps (evs1 ++ evs2) = sleeps evs1 ++ sleeps evs2.
Proof. apply flat_map_app. Qed.

Lemma successes_app evs1 evs2 :
  successes (evs1 ++ evs2) = successes evs1 ++ successes evs2.
Proof. apply flat_map_app. Qed.

End Traces.

Section RetryLoop.

Context {W : Type}.
Variable requests_get : W -> string -> string -> string -> answer * W.
Variable os_sleep : W -> Z -> bool.

Lemma time_sleep_waits (seconds : pyfloat) (w : W) :
  sleep_waits os_sleep seconds ->
  time_sleep os_sleep seconds w = Some (Ok tt, w, [EvSleep seconds]).
Proof.
  intros (ns & Hns & Hos). unfold time_sleep. now rewrite Hns, Hos.
Qed.

(** What the conversion of a length raises. *)
Lemma sleep_nanoseconds_error (seconds : pyfloat) (e : exn) :
  sleep_nanoseconds seconds = Raise e ->
  e = OverflowError \/ e = ValueError (BadSleepLength seconds).
Proof.
  unfold sleep_nanoseconds. destruct seconds as [| n | q];
    try (intros [= <-]; auto).
  destruct (PyFloat.round64 _) as [| n | d]; try (intros [= <-]; auto).
  destruct (_ || _); [intros [= <-]; auto|].
  destruct (_ <? 0); [intros [= <-]; auto | discriminate].
Qed.

(** The sleep raises or waits; in both cases it comes back, and what it
    raises is no [ForexScannerError]. *)
Lemma time_sleep_total (seconds : pyfloat) (w : W) :
  exists r,
    time_sleep os_sleep seconds w
    = Some (r, w, match r with Ok _ => [EvSleep seconds] | Raise _ => [] end) /\
    forall msg, r <> Raise (ForexScannerError msg).
Proof.
  unfold time_sleep.
  destruct (sleep_nanoseconds seconds) as [ns|e] eqn:E.
  - destruct (os_sleep w ns); [exists (Ok tt) | exists (Raise OSError)];
      (split; [reflexivity | discriminate]).
  - exists (Raise e). split; [reflexivity|].
    intros msg [= ->]. now destruct (sleep_nanoseconds_error _ _ E).
Qed.

Lemma time_sleep_invalid (seconds : pyfloat) (w : W) :
  valid_delay seconds = false ->
  exists e,
    time_sleep os_sleep seconds w = Some (Raise e, w, []) /\
    (e = OverflowError \/ e = ValueError (BadSleepLength seconds)).
Proof.
  unfold valid_delay, time_sleep.
  destruct (sleep_nanoseconds seconds) as [ns|e] eqn:E; [discriminate|].
  intros _. exists e. split; [reflexivity|].
  exact (sleep_nanoseconds_error _ _ E).
Qed.

Variables (api_key base quote : string) (retry : Z) (retry_delay : pyfloat).

(** Enough fuel: the loop terminates. *)
Lemma retry_loop_total : forall fuel attempt w,
  (Z.to_nat (retry - attempt) < fuel)%nat ->
  exists r w' evs,
    retry_loop requests_get os_sleep fuel api_key base quote retry retry_delay attempt w
    = Some (r, w', evs).
Proof.
  induction fuel as [|fuel IH]; intros attempt w Hfuel; [lia|].
  cbn [retry_loop]. unfold fetch_exchange_rate.
  destruct (requests_get w api_key base quote) as [a w1].
  destruct (fetch_outcome base quote a) as [rate|e]; [eauto|].
  destruct e; eauto.
  destruct (attempt + 1 >? retry) eqn:E; [eauto|].
  destruct (time_sleep_total retry_delay w1) as [[[]|e] [-> _]]; [|eauto].
  destruct (IH (attempt + 1) w1) as (r & w' & evs & ->); [lia | eauto].
Qed.

(** Where no wait is needed or the wait happens, the loop is the
    bounded iteration [attempts]. *)
Lemma retry_loop_attempts : forall n fuel attempt w,
  n = O \/ sleep_waits os_sleep retry_delay ->
  Z.to_nat (retry - attempt) = n -> (n < fuel)%nat ->
  retry_loop requests_get os_sleep fuel api_key base quote retry retry_delay attempt w
  = Some (attempts requests_get api_key base quote retry_delay n w).
Proof.
  induction n as [|n IH]; intros fuel attempt w Hcan Hn Hfuel;
    (destruct fuel as [|fuel]; [lia|]);
    cbn [retry_loop attempts]; unfold fetch_exchange_rate;
    destruct (requests_get w api_key base quote) as [a w1];
    (destruct (fetch_outcome base quote a) as [rate|e]; [reflexivity|]);
    destruct e; try reflexivity.
  - replace (attempt + 1 >? retry) with true by lia. reflexivity.
  - replace (attempt + 1 >? retry) with false by lia.
    destruct Hcan as [Hn0 | Hwaits]; [discriminate|].
    rewrite (time_sleep_waits _ _ Hwaits).
    rewrite (IH fuel (attempt + 1) w1); [| now right | lia | lia].
    now destruct (attempts _ _ _ _ _ n w1) as [[r w2] evs].
Qed.

(** What the bounded iteration does. *)
Lemma attempts_exhausts n w msg w' evs :
  exhausts requests_get api_key base quote retry_delay n w msg w' evs ->
  attempts requests_get api_key base quote retry_delay n w
  = (Raise (ForexScannerError msg), w', evs).
Proof.
  induction 1 as [w a w1 msg Hget Hout | n w a w1 msg0 msg w2 evs Hget Hout _ IH];
    cbn [attempts]; rewrite Hget, Hout; [reflexivity|].
  now rewrite IH.
Qed.

Lemma attempts_succeeds n w rate w' evs :
  succeeds requests_get api_key base quote retry_delay n w rate w' evs ->
  attempts requests_get api_key base quote retry_delay n w = (Ok rate, w', evs).
Proof.
  induction 1 as [n w a w1 rate Hget Hout
                 | n w a w1 msg0 rate w2 evs Hget Hout _ IH].
  - destruct n; cbn [attempts]; now rewrite Hget, Hout.
  - cbn [attempts]. rewrite Hget, Hout. now rewrite IH.
Qed.

(** What the loop has done when it comes back: with a record, the pair
    succeeded within the retries the counter left; with a
    [ForexScannerError], every attempt the counter left failed. *)
Lemma retry_loop_outcome : forall fuel attempt w r w' evs,
  retry_loop requests_get os_sleep fuel api_key base quote retry retry_delay attempt w
  = Some (r, w', evs) ->
  match r with
  | Ok rate =>
      succeeds requests_get api_key base quote retry_delay
        (Z.to_nat (retry - attempt)) w rate w' evs
  | Raise (ForexScannerError msg) =>
      exhausts requests_get api_key base quote retry_delay
        (Z.to_nat (retry - attempt)) w msg w' evs
  | Raise _ => True
  end.
Proof.
  induction fuel as [|fuel IH]; intros attempt w r w' evs; [discriminate|].
  cbn [retry_loop]. unfold fetch_exchange_rate.
  destruct (requests_get w api_key base quote) as [a w1] eqn:Hget.
  destruct (fetch_outcome base quote a) as [rate|e] eqn:Hout.
  { intros [= <- <- <-]. now apply succeeds_now. }
  destruct e; try (intros [= <- <- <-]; exact I).
  destruct (attempt + 1 >? retry) eqn:Hover.
  { intros [= <- <- <-].
    replace (Z.to_nat (retry - attempt)) with O by lia.
    now apply exhausts_last. }
  destruct (time_sleep_total retry_delay w1) as [[[]|e] [-> Hraw]].
  - destruct (retry_loop requests_get os_sleep fuel api_key base quote retry
                retry_delay (attempt + 1) w1) as [[[r3 w3] evs3]|] eqn:E;
      [|discriminate].
    intros [= <- <- <-]. specialize (IH _ _ _ _ _ E).
    replace (Z.to_nat (retry - attempt))
      with (S (Z.to_nat (retry - (attempt + 1)))) by lia.
    cbn [app]. destruct r3 as [rate|[]]; try exact I.
    + eapply succeeds_later; eauto.
    + eapply exhausts_retry; eauto.
  - intros [= <- <- <-]. destruct e; try exact I. now destruct (Hraw msg0).
Qed.

(** The events of the loop for one pair: at least one request and at
    most one more than the retries the counter leaves, all for this pair,
    with a wait of [retry_delay] between two of them; only the last
    request can have come back with a record, and that record is the
    outcome. *)
Lemma retry_loop_shape : forall fuel attempt w r w' evs,
  retry_loop requests_get os_sleep fuel api_key base quote retry retry_delay attempt w
  = Some (r, w', evs) ->
  (1 <= length (gets evs) <= S (Z.to_nat (retry - attempt)))%nat /\
  gets evs = repeat (base, quote) (length (gets evs)) /\
  sleeps evs = repeat retry_delay (length (gets evs) - 1) /\
  successes evs = match r with Ok rate => [((base, quote), rate)] | Raise _ => [] end.
Proof.
  assert (Hone : forall a r,
             (r = fetch_outcome base quote a \/
              exists e, r = Raise e /\ exists msg,
                  fetch_outcome base quote a = Raise (ForexScannerError msg)) ->
             forall n evs, evs = [EvGet api_key base quote a] ->
             (1 <= length (gets evs) <= S n)%nat /\
             gets evs = repeat (base, quote) (length (gets evs)) /\
             sleeps evs = repeat retry_delay (length (gets evs) - 1) /\
             successes evs = match r with
                             | Ok rate => [((base, quote), rate)]
                             | Raise _ => []
                             end).
  { intros a r Hr n evs ->. rewrite successes_get. cbn.
    destruct Hr as [-> | (e & -> & msg & ->)];
      [destruct (fetch_outcome base quote a)|]; repeat split; lia. }
  induction fuel as [|fuel IH]; intros attempt w r w' evs; [discriminate|].
  cbn [retry_loop]. unfold fetch_exchange_rate.
  destruct (requests_get w api_key base quote) as [a w1].
  destruct (fetch_outcome base quote a) as [rate|e] eqn:Hout.
  { intros [= Hr <- <-]. apply (Hone a r); [left; congruence | reflexivity]. }
  destruct e;
    try (intros [= Hr <- <-];
         apply (Hone a r); [left; congruence | reflexivity]).
  destruct (attempt + 1 >? retry) eqn:Hover.
  { intros [= Hr <- <-]. apply (Hone a r); [left; congruence | reflexivity]. }
  destruct (time_sleep_total retry_delay w1) as [[[]|e] [-> _]].
  - destruct (retry_loop requests_get os_sleep fuel api_key base quote retry
                retry_delay (attempt + 1) w1) as [[[r3 w3] evs3]|] eqn:E;
      [|discriminate].
    intros [= <- <- <-].
    destruct (IH _ _ _ _ _ E) as ([Hlo Hhi] & Hgets & Hsleeps & Hsucc).
    cbn [app]. rewrite gets_get, gets_sleep, sleeps_get, sleeps_sleep,
      successes_get, successes_sleep, Hout, Hsucc.
    cbn [length app repeat]. rewrite <- Hgets, Hsleeps.
    repeat split; try lia.
    destruct (length (gets evs3)) as [|k]; [lia|].
    cbn. now rewrite Nat.sub_0_r.
  - intros [= Hr <- <-]. apply (Hone a r); [right; eauto | reflexivity].
Qed.

End RetryLoop.

(* ================================================================= *)
(** ** The loop over the pairs *)

Section ScanLoop.

Context {W : Type}.
Variable requests_get : W -> string -> string -> string -> answer * W.
Variable os_sleep : W -> Z -> bool.
Variables (api_key : string) (retry : Z) (retry_delay : pyfloat).

Local Abbreviation scan := (scan_loop requests_get os_sleep api_key retry retry_delay).
Local Abbreviation loop base quote :=
  (retry_loop requests_get os_sleep (attempts_allowed retry) api_key base quote
     retry retry_delay 0).
Local Abbreviation batch :=
  (batch_succeeds requests_get api_key retry_delay (Z.to_nat retry)).

Lemma requests_of_cons p rest k counts :
  requests_of (p :: rest) (k :: counts) = repeat p k ++ requests_of rest counts.
Proof. reflexivity. Qed.

Lemma requests_of_nil_r pairs : requests_of pairs [] = [].
Proof. unfold requests_of. now rewrite combine_nil. Qed.

Lemma requests_of_length pairs : forall counts,
  (length counts <= length pairs)%nat ->
  Forall (fun k => (1 <= k)%nat) counts ->
  (length counts <= length (requests_of pairs counts))%nat.
Proof.
  induction pairs as [|p pairs IH]; intros [|k counts] Hlen Hall;
    cbn in Hlen; try (cbn; lia).
  rewrite requests_of_cons, length_app, repeat_length. cbn [length].
  inversion Hall as [|? ? Hk Hrest]; subst.
  specialize (IH counts ltac:(lia) Hrest). lia.
Qed.

Lemma scan_loop_cons base quote rest results w :
  scan ((base, quote) :: rest) results w =
    match loop base quote w with
    | None => None
    | Some (Raise e, w1, evs1) => Some (Raise e, w1, evs1)
    | Some (Ok rate, w1, evs1) =>
        match scan rest (results ++ [rate]) w1 with
        | None => None
        | Some (r, w2, evs2) => Some (r, w2, evs1 ++ evs2)
        end
    end.
Proof. reflexivity. Qed.

Lemma loop_total base quote w :
  exists r w' evs, loop base quote w = Some (r, w', evs).
Proof. apply retry_loop_total. unfold attempts_allowed. lia. Qed.

(** The batch always comes back. *)
Lemma scan_loop_total pairs : forall results w,
  exists r w' evs, scan pairs results w = Some (r, w', evs).
Proof.
  induction pairs as [|[base quote] rest IH]; intros results w.
  - now exists (Ok results), w, [].
  - rewrite scan_loop_cons.
    destruct (loop_total base quote w) as ([rate|e] & w1 & evs1 & ->); [|eauto].
    destruct (IH (results ++ [rate]) w1) as (r & w2 & evs2 & ->). eauto.
Qed.

(** A batch is run as its beginning followed, if that succeeds, by its
    end. *)
Lemma scan_loop_app pre post : forall results w,
  scan (pre ++ post) results w =
    match scan pre results w with
    | Some (Ok rs, w1, evs1) =>
        match scan post rs w1 with
        | Some (r, w2, evs2) => Some (r, w2, evs1 ++ evs2)
        | None => None
        end
    | other => other
    end.
Proof.
  induction pre as [|[base quote] pre IH]; intros results w.
  - cbn. now destruct (scan post results w) as [[[r w2] evs2]|].
  - cbn [app]. rewrite !scan_loop_cons.
    destruct (loop base quote w) as [[[[rate|e] w1] evs1]|]; try reflexivity.
    rewrite IH.
    destruct (scan pre (results ++ [rate]) w1) as [[[[rs|e] w2] evs2]|];
      try reflexivity.
    destruct (scan post rs w2) as [[[r w3] evs3]|]; [|reflexivity].
    now rewrite app_assoc.
Qed.

(** A batch that succeeds returns one record per pair, in the order of
    the pairs: the records of its successful requests. *)
Lemma scan_loop_ok pairs : forall results w rates w' evs,
  scan pairs results w = Some (Ok rates, w', evs) ->
  exists rs, rates = results ++ rs /\ length rs = length pairs /\
             successes evs = combine pairs rs /\
             exists counts, length counts = length pairs /\
                            gets evs = requests_of pairs counts.
Proof.
  induction pairs as [|[base quote] rest IH]; intros results w rates w' evs.
  - cbn. intros [= <- <- <-]. exists []. rewrite app_nil_r.
    repeat split. now exists [].
  - rewrite scan_loop_cons.
    destruct (loop base quote w) as [[[[rate|e] w1] evs1]|] eqn:E; try discriminate.
    destruct (scan rest (results ++ [rate]) w1) as [[[r w2] evs2]|] eqn:E2;
      [|discriminate].
    intros [= -> <- <-].
    destruct (IH _ _ _ _ _ E2) as (rs & -> & Hlen & Hsucc & counts & Hc & Hg).
    destruct (retry_loop_shape _ _ _ _ _ _ _ _ _ _ _ _ _ E)
      as (_ & Hgets & _ & Hone).
    exists (rate :: rs). rewrite <- app_assoc.
    rewrite successes_app, Hone, Hsucc. cbn [length combine app].
    repeat split; [now rewrite Hlen|].
    exists (length (gets evs1) :: counts). cbn [length]. split; [now rewrite Hc|].
    rewrite requests_of_cons, gets_app, Hg. now rewrite Hgets at 1.
Qed.

(** A batch that returns a list has seen every pair succeed. *)
Lemma scan_loop_batch pairs : forall results w rates w' evs,
  scan pairs results w = Some (Ok rates, w', evs) ->
  exists rs, rates = results ++ rs /\ batch pairs w rs w' evs.
Proof.
  induction pairs as [|[base quote] rest IH]; intros results w rates w' evs.
  - cbn. intros [= <- <- <-]. exists []. rewrite app_nil_r.
    split; [reflexivity | constructor].
  - rewrite scan_loop_cons.
    destruct (loop base quote w) as [[[[rate|e] w1] evs1]|] eqn:E; try discriminate.
    destruct (scan rest (results ++ [rate]) w1) as [[[r w2] evs2]|] eqn:E2;
      [|discriminate].
    intros [= -> <- <-].
    destruct (IH _ _ _ _ _ E2) as (rs & -> & Hbatch).
    pose proof (retry_loop_outcome _ _ _ _ _ _ _ _ _ _ _ _ _ E) as Hfirst.
    cbn beta iota in Hfirst. rewrite Z.sub_0_r in Hfirst.
    exists (rate :: rs). rewrite <- app_assoc. split; [reflexivity|].
    now apply batch_cons with (w1 := w1).
Qed.

(** A batch that raises has seen the pairs before one pair succeed, and
    the loop of that pair raise; nothing happened after. *)
Lemma scan_loop_stops pairs : forall results w e w' evs,
  scan pairs results w = Some (Raise e, w', evs) ->
  exists pre base quote post rs w1 evs1 evs2,
    pairs = pre ++ (base, quote) :: post /\
    batch pre w rs w1 evs1 /\
    loop base quote w1 = Some (Raise e, w', evs2) /\
    evs = evs1 ++ evs2.
Proof.
  induction pairs as [|[base quote] rest IH]; intros results w e w' evs.
  - discriminate.
  - rewrite scan_loop_cons.
    destruct (loop base quote w) as [[[[rate|e1] w1] evs1]|] eqn:E; try discriminate.
    + destruct (scan rest (results ++ [rate]) w1) as [[[r w2] evs2]|] eqn:E2;
        [|discriminate].
      intros [= -> <- <-].
      destruct (IH _ _ _ _ _ E2)
        as (pre & b & q & post & rs & w3 & evs3 & evs4 & -> & Hbatch & Hloop & ->).
      pose proof (retry_loop_outcome _ _ _ _ _ _ _ _ _ _ _ _ _ E) as Hfirst.
      cbn beta iota in Hfirst. rewrite Z.sub_0_r in Hfirst.
      exists ((base, quote) :: pre), b, q, post, (rate :: rs), w3,
        (evs1 ++ evs3), evs4.
      repeat split; [|exact Hloop | now rewrite app_assoc].
      now apply batch_cons with (w1 := w1).
    + intros [= <- <- <-].
      exists [], base, quote, rest, [], w, [], evs1.
      repeat split; [constructor | exact E].
Qed.

(** Where every pair succeeds, and no wait is needed or the wait
    happens, the batch returns the records. *)
Lemma batch_scan pairs w rs w' evs :
  can_retry os_sleep retry retry_delay ->
  batch pairs w rs w' evs ->
  forall results, scan pairs results w = Some (Ok (results ++ rs), w', evs).
Proof.
  intros Hcan. induction 1 as [w | base quote rest w rate w1 evs1 rates w2 evs2
                                     Hfirst _ IH]; intros results.
  - cbn. now rewrite app_nil_r.
  - rewrite scan_loop_cons.
    rewrite (retry_loop_attempts _ _ _ _ _ _ _ (Z.to_nat retry));
      [| destruct Hcan; [left; lia | now right]
       | now rewrite Z.sub_0_r | unfold attempts_allowed; lia].
    rewrite (attempts_succeeds _ _ _ _ _ _ _ _ _ _ Hfirst).
    rewrite IH, <- app_assoc. reflexivity.
Qed.

(** The events of a pair that succeeds: requests for that pair, of which
    the last one gives the record. *)
Lemma succeeds_events base quote n w rate w' evs :
  succeeds requests_get api_key base quote retry_delay n w rate w' evs ->
  gets evs = repeat (base, quote) (length (gets evs)) /\
  successes evs = [((base, quote), rate)].
Proof.
  induction 1 as [n w a w1 rate _ Hout
                 | n w a w1 msg0 rate w2 evs _ Hout _ (IHg & IHs)].
  - rewrite successes_get, Hout. now split.
  - rewrite gets_get, gets_sleep, successes_get, successes_sleep, Hout, IHs.
    cbn [length repeat app]. now rewrite <- IHg.
Qed.

(** The records of a batch whose pairs all succeed: one per pair, in
    order, each the record of the pair's successful request. *)
Lemma batch_records pairs w rs w' evs :
  batch pairs w rs w' evs ->
  length rs = length pairs /\
  successes evs = combine pairs rs /\
  exists counts, length counts = length pairs /\
                 gets evs = requests_of pairs counts.
Proof.
  induction 1 as [w | base quote rest w rate w1 evs1 rates w2 evs2
                      Hfirst _ (Hlen & Hsucc & counts & Hc & Hg)].
  - repeat split. now exists [].
  - destruct (succeeds_events _ _ _ _ _ _ _ Hfirst) as [Hgets Hone].
    cbn [length]. split; [now rewrite Hlen|]. split.
    + now rewrite successes_app, Hone, Hsucc.
    + exists (length (gets evs1) :: counts). cbn [length]. split; [now rewrite Hc|].
      rewrite requests_of_cons, gets_app, Hg. now rewrite Hgets at 1.
Qed.

(** Per pair: the pairs are requested in order, each between one and
    [max(0, retry) + 1] times in a row, with one wait between two
    requests for the same pair and none elsewhere; a list is returned
    when every pair was requested and its last request succeeded, and
    otherwise every pair requested but the last one has given a
    record. *)
Lemma scan_loop_requests pairs : forall results w r w' evs,
  scan pairs results w = Some (r, w', evs) ->
  exists counts,
    (length counts <= length pairs)%nat /\
    Forall (fun k => (1 <= k <= S (Z.to_nat retry))%nat) counts /\
    gets evs = requests_of pairs counts /\
    sleeps evs = repeat retry_delay (length (gets evs) - length counts) /\
    exists rs,
      successes evs = combine pairs rs /\
      match r with
      | Ok rates => rates = results ++ rs /\ length rs = length pairs /\
                    length counts = length pairs
      | Raise _ => S (length rs) = length counts
      end.
Proof.
  induction pairs as [|[base quote] rest IH]; intros results w r w' evs.
  - cbn. intros [= <- <- <-]. exists []. repeat split; auto.
    exists []. now rewrite app_nil_r.
  - rewrite scan_loop_cons.
    destruct (loop base quote w) as [[[r1 w1] evs1]|] eqn:E; [|discriminate].
    destruct (retry_loop_shape _ _ _ _ _ _ _ _ _ _ _ _ _ E)
      as (Hbound & Hgets & Hsleeps & Hone).
    rewrite Z.sub_0_r in Hbound.
    destruct r1 as [rate|e].
    + destruct (scan rest (results ++ [rate]) w1) as [[[r2 w2] evs2]|] eqn:E2;
        [|discriminate].
      intros [= <- <- <-].
      destruct (IH _ _ _ _ _ E2) as (counts & Hlen & Hall & Hg & Hs & rs & Hsucc & Hr).
      exists (length (gets evs1) :: counts). cbn [length]. repeat split.
      * lia.
      * constructor; assumption.
      * rewrite requests_of_cons, gets_app, Hg. now rewrite Hgets at 1.
      * rewrite sleeps_app, gets_app, Hsleeps, Hs, length_app, <- repeat_app.
        f_equal.
        assert (length counts <= length (gets evs2))%nat; [|lia].
        rewrite Hg. apply requests_of_length; [lia|].
        eapply Forall_impl; [|exact Hall]. cbn. lia.
      * exists (rate :: rs). rewrite successes_app, Hone, Hsucc.
        split; [reflexivity|].
        destruct r2 as [rates|e2]; cbn [length].
        -- destruct Hr as (-> & Hlenrs & Hlenc).
           rewrite <- app_assoc. repeat split; congruence.
        -- congruence.
    + intros [= <- <- <-].
      exists [length (gets evs1)]. cbn [length]. repeat split.
      * lia.
      * constructor; [exact Hbound | constructor].
      * now rewrite requests_of_cons, requests_of_nil_r, app_nil_r.
      * exact Hsleeps.
      * exists []. now rewrite Hone.
Qed.

End ScanLoop.

(* ================================================================= *)
(** ** [run_scanner] with a credential *)

Section RunScanner.

Context {W : Type}.
Variable requests_get : W -> string -> string -> string -> answer * W.
Variable os_sleep : W -> Z -> bool.
Variables (api_key : string) (retry_delay : pyfloat).
Hypothesis key_given : PyStr.is_empty api_key = false.

Lemma run_scanner_with_key pairs retry w :
  run_scanner requests_get os_sleep pairs (Some api_key) retry retry_delay w
  = scan_loop requests_get os_sleep api_key retry retry_delay pairs [] w.
Proof. unfold run_scanner. now rewrite key_given. Qed.

Lemma exhausts_gets base quote n w msg w' evs :
  exhausts requests_get api_key base quote retry_delay n w msg w' evs ->
  gets evs = repeat (base, quote) (S n) /\ sleeps evs = repeat retry_delay n /\
  successes evs = [].
Proof.
  induction 1 as [w a w1 msg _ Hout|n w a w1 msg0 msg w2 evs _ Hout _ (IHg & IHs & IHr)].
  - rewrite successes_get, Hout. now repeat split.
  - rewrite gets_get, gets_sleep, sleeps_get, sleeps_sleep, successes_get,
      successes_sleep, Hout, IHg, IHs, IHr. now repeat split.
Qed.

(** The loop of a pair that fails on every attempt. *)
Lemma loop_exhausted base quote retry w msg w' evs :
  can_retry os_sleep retry retry_delay ->
  exhausts requests_get api_key base quote retry_delay (Z.to_nat retry) w msg w' evs ->
  retry_loop requests_get os_sleep (attempts_allowed retry) api_key base quote
    retry retry_delay 0 w
  = Some (Raise (ForexScannerError msg), w', evs).
Proof.
  intros Hcan Hfail.
  rewrite (retry_loop_attempts _ _ _ _ _ _ _ (Z.to_nat retry));
    [| destruct Hcan; [left; lia | now right]
     | now rewrite Z.sub_0_r | unfold attempts_allowed; lia].
  now rewrite (attempts_exhausts _ _ _ _ _ _ _ _ _ _ Hfail).
Qed.

(** Without retries the loop is one request. *)
Lemma loop_no_retry base quote retry w :
  retry <= 0 ->
  retry_loop requests_get os_sleep (attempts_allowed retry) api_key base quote
    retry retry_delay 0 w
  = let (a, w1) := requests_get w api_key base quote in
    Some (fetch_outcome base quote a, w1, [EvGet api_key base quote a]).
Proof.
  intros Hretry. unfold attempts_allowed. cbn [retry_loop].
  unfold fetch_exchange_rate.
  destruct (requests_get w api_key base quote) as [a w1].
  destruct (fetch_outcome base quote a) as [rate|[]]; try reflexivity.
  now replace (0 + 1 >? retry) with true by lia.
Qed.

(** Without retries a batch is one request per pair up to the first
    request that fails, which ends it. *)
Lemma scan_loop_no_retry retry pairs :
  retry <= 0 ->
  forall results w r w' evs,
    scan_loop requests_get os_sleep api_key retry retry_delay pairs results w
    = Some (r, w', evs) ->
    sleeps evs = [] /\
    gets evs = firstn (length (gets evs)) pairs /\
    (forall evs0 k b q a evs1 e,
        evs = evs0 ++ EvGet k b q a :: evs1 ->
        fetch_outcome b q a = Raise e ->
        r = Raise e /\ evs1 = []) /\
    match r with
    | Ok rates =>
        gets evs = pairs /\
        exists rs, rates = results ++ rs /\ length rs = length pairs /\
                   successes evs = combine pairs rs
    | Raise e =>
        exists evs0 base quote a,
          evs = evs0 ++ [EvGet api_key base quote a] /\
          fetch_outcome base quote a = Raise e
    end.
Proof.
  intros Hretry.
  induction pairs as [|[base quote] rest IH]; intros results w r w' evs.
  - intros [= <- <- <-]. split; [reflexivity|]. split; [reflexivity|]. split.
    + intros evs0 k b q a evs1 e Hevs. now destruct evs0.
    + split; [reflexivity|]. exists []. now rewrite app_nil_r.
  - rewrite scan_loop_cons, (loop_no_retry _ _ _ _ Hretry).
    destruct (requests_get w api_key base quote) as [a w1].
    destruct (fetch_outcome base quote a) as [rate|e] eqn:Hout.
    + destruct (scan_loop _ _ _ _ _ rest _ w1) as [[[r2 w2] evs2]|] eqn:E;
        [|discriminate].
      intros [= <- <- <-].
      destruct (IH _ _ _ _ _ E) as (Hs & Hg & Hfirst & Hr).
      cbn [app]. rewrite gets_get, sleeps_get. cbn [length firstn].
      split; [exact Hs|]. split; [now rewrite <- Hg|]. split.
      * intros evs0 k b q a' evs1 e Hevs Hfail.
        destruct evs0 as [|ev evs0]; cbn [app] in Hevs.
        -- injection Hevs as _ <- <- <- _. congruence.
        -- injection Hevs as _ Hevs. exact (Hfirst _ _ _ _ _ _ _ Hevs Hfail).
      * destruct r2 as [rates|e].
        -- destruct Hr as (Hgets & rs & -> & Hlen & Hsucc).
           rewrite Hgets. split; [reflexivity|].
           exists (rate :: rs). rewrite <- app_assoc, successes_get, Hout, Hsucc.
           cbn [length]. now rewrite Hlen.
        -- destruct Hr as (evs0 & b & q & a' & -> & Hfail).
           now exists (EvGet api_key base quote a :: evs0), b, q, a'.
    + intros [= <- <- <-]. split; [reflexivity|]. split; [reflexivity|]. split.
      * intros evs0 k b q a' evs1 e' Hevs Hfail.
        destruct evs0 as [|ev evs0]; cbn [app] in Hevs.
        -- injection Hevs as <- <- <- <- <-. split; congruence.
        -- injection Hevs as _ Hevs. now destruct evs0.
      * now exists [], base, quote, a.
Qed.



(** The loop of a pair that fails twice and then succeeds, with a budget
    of two retries. *)
Lemma loop_third_time_lucky base quote w a1 w1 msg1 a2 w2 msg2 a3 w3 rate :
  sleep_waits os_sleep retry_delay ->
  requests_get w api_key base quote = (a1, w1) ->
  fetch_outcome base quote a1 = Raise (ForexScannerError msg1) ->
  requests_get w1 api_key base quote = (a2, w2) ->
  fetch_outcome base quote a2 = Raise (ForexScannerError msg2) ->
  requests_get w2 api_key base quote = (a3, w3) ->
  fetch_outcome base quote a3 = Ok rate ->
  retry_loop requests_get os_sleep (attempts_allowed 2) api_key base quote 2
    retry_delay 0 w
  = Some (Ok rate, w3,
          [EvGet api_key base quote a1; EvSleep retry_delay;
           EvGet api_key base quote a2; EvSleep retry_delay;
           EvGet api_key base quote a3]).
Proof.
  intros Hdelay Hget1 Hout1 Hget2 Hout2 Hget3 Hout3.
  rewrite (retry_loop_attempts _ _ _ _ _ _ _ 2%nat);
    [| now right | reflexivity | unfold attempts_allowed; cbn; lia].
  cbn [attempts]. rewrite Hget1, Hout1.
  cbn [attempts]. rewrite Hget2, Hout2.
  cbn [attempts]. now rewrite Hget3, Hout3.
Qed.

End RunScanner.

(** C1. A batch run with a credential always comes back, with a list or
    with an exception, never with both.  It returns a list only when
    every pair has succeeded within its [retry + 1] attempts, and the list
    then holds one record per pair, in input order: the records of the
    successful requests.  When it raises, the pairs before some pair have
    succeeded, the events end with the requests for that pair, at most
    [retry + 1] of them and none with a record, so that no later pair is
    requested and the records fetched for the earlier pairs are not
    returned; and when it raises a [ForexScannerError], that pair has
    failed on every one of its [retry + 1] attempts.  Conversely, where no
    wait is needed or [time.sleep] carries out the wait: if the pairs
    before a pair succeed and that pair fails with a domain error on all
    its [retry + 1] attempts, the run raises that pair's last error after
    exactly these events; and if every pair succeeds, the run returns
    their records. *)
Theorem run_scanner_all_or_nothing {W : Type}
    (requests_get : W -> string -> string -> string -> answer * W)
    (os_sleep : W -> Z -> bool)
    (pairs : list (string * string)) (api_key : string)
    (retry : Z) (retry_delay : pyfloat) (w : W) :
  PyStr.is_empty api_key = false ->
  let batch := batch_succeeds requests_get api_key retry_delay (Z.to_nat retry) in
  let fails base quote :=
    exhausts requests_get api_key base quote retry_delay (Z.to_nat retry) in
  (exists r w' evs,
      run_scanner requests_get os_sleep pairs (Some api_key) retry retry_delay w
      = Some (r, w', evs) /\
      match r with
      | Ok rates =>
          batch pairs w rates w' evs /\
          length rates = length pairs /\ successes evs = combine pairs rates
      | Raise e =>
          exists pre base quote post rates w1 evs1 evs2,
            pairs = pre ++ (base, quote) :: post /\
            batch pre w rates w1 evs1 /\
            evs = evs1 ++ evs2 /\
            (1 <= length (gets evs2) <= S (Z.to_nat retry))%nat /\
            gets evs2 = repeat (base, quote) (length (gets evs2)) /\
            successes evs = combine pre rates /\
            (forall msg, e = ForexScannerError msg -> fails base quote w1 msg w' evs2)
      end) /\
  (can_retry os_sleep retry retry_delay ->
   (forall pre base quote post rates w1 evs1 msg w2 evs2,
       pairs = pre ++ (base, quote) :: post ->
       batch pre w rates w1 evs1 ->
       fails base quote w1 msg w2 evs2 ->
       run_scanner requests_get os_sleep pairs (Some api_key) retry retry_delay w
       = Some (Raise (ForexScannerError msg), w2, evs1 ++ evs2) /\
       gets (evs1 ++ evs2) = gets evs1 ++ repeat (base, quote) (S (Z.to_nat retry)) /\
       successes (evs1 ++ evs2) = combine pre rates) /\
   (forall rates w' evs,
       batch pairs w rates w' evs ->
       run_scanner requests_get os_sleep pairs (Some api_key) retry retry_delay w
       = Some (Ok rates, w', evs) /\
       length rates = length pairs /\ successes evs = combine pairs rates)).
Proof.
  intros Hkey batch fails. subst batch fails. cbv beta.
  rewrite (run_scanner_with_key _ _ _ _ Hkey). split.
  - destruct (scan_loop_total requests_get os_sleep api_key retry retry_delay pairs [] w)
      as (r & w' & evs & Hrun).
    exists r, w', evs. split; [exact Hrun|].
    destruct r as [rates|e].
    + destruct (scan_loop_batch _ _ _ _ _ _ _ _ _ _ _ Hrun) as (rs & -> & Hbatch).
      cbn [app]. split; [exact Hbatch|].
      destruct (batch_records _ _ _ _ _ _ _ _ _ Hbatch) as (Hlen & Hsucc & _).
      now split.
    + destruct (scan_loop_stops _ _ _ _ _ _ _ _ _ _ _ Hrun)
        as (pre & base & quote & post & rs & w1 & evs1 & evs2
            & -> & Hbatch & Hloop & ->).
      exists pre, base, quote, post, rs, w1, evs1, evs2.
      destruct (retry_loop_shape _ _ _ _ _ _ _ _ _ _ _ _ _ Hloop)
        as (Hbound & Hgets & _ & Hnone).
      rewrite Z.sub_0_r in Hbound.
      destruct (batch_records _ _ _ _ _ _ _ _ _ Hbatch) as (_ & Hsucc & _).
      repeat split; try assumption; try lia.
      * now rewrite successes_app, Hnone, app_nil_r.
      * intros msg ->.
        pose proof (retry_loop_outcome _ _ _ _ _ _ _ _ _ _ _ _ _ Hloop) as Hall.
        cbn beta iota in Hall. now rewrite Z.sub_0_r in Hall.
  - intros Hcan. split.
    + intros pre base quote post rates w1 evs1 msg w2 evs2 -> Hbatch Hfail.
      pose proof (batch_scan _ _ _ _ _ _ _ _ _ _ Hcan Hbatch []) as Hpre.
      destruct (batch_records _ _ _ _ _ _ _ _ _ Hbatch) as (_ & Hsucc & _).
      destruct (exhausts_gets _ _ _ _ _ _ _ _ _ _ Hfail) as (Hgets & _ & Hnone).
      rewrite scan_loop_app, Hpre, scan_loop_cons.
      rewrite (loop_exhausted _ _ _ _ _ _ _ _ _ _ _ Hcan Hfail).
      repeat split.
      * now rewrite gets_app, Hgets.
      * now rewrite successes_app, Hnone, app_nil_r.
    + intros rates w' evs Hbatch.
      pose proof (batch_scan _ _ _ _ _ _ _ _ _ _ Hcan Hbatch []) as Hrun.
      destruct (batch_records _ _ _ _ _ _ _ _ _ Hbatch) as (Hlen & Hsucc & _).
      now repeat split.
Qed.

Lemma run_scanner_all_or_nothing_witness :
  run_scanner scripted os_accepts [("EUR", "USD"); ("GBP", "USD"); ("USD", "JPY")]
    (Some "key") 1 (FFin 2)
    [ok_body "1.5"; note_body; server_error; ok_body "150"]
  = Some (Raise (ForexScannerError (NetworkError "GBP" "USD" (HTTPError 503))),
          [ok_body "150"],
          [EvGet "key" "EUR" "USD" (ok_body "1.5")] ++
          [EvGet "key" "GBP" "USD" note_body; EvSleep (FFin 2);
           EvGet "key" "GBP" "USD" server_error]) /\
  gets ([EvGet "key" "EUR" "USD" (ok_body "1.5")] ++
        [EvGet "key" "GBP" "USD" note_body; EvSleep (FFin 2);
         EvGet "key" "GBP" "USD" server_error])
  = gets [EvGet "key" "EUR" "USD" (ok_body "1.5")] ++ repeat ("GBP", "USD") 2 /\
  successes ([EvGet "key" "EUR" "USD" (ok_body "1.5")] ++
             [EvGet "key" "GBP" "USD" note_body; EvSleep (FFin 2);
              EvGet "key" "GBP" "USD" server_error])
  = combine [("EUR", "USD")]
      [mkExchangeRate (JStr "EUR") (JStr "USD") (FFin (3 # 2))
         (JStr "2024-05-01 15:35:00") None None].
Proof.
  assert (Hcan : can_retry (W := list answer) os_accepts 1 (FFin 2)).
  { right. exists 2000000000. split; [vm_compute; reflexivity | reflexivity]. }
  refine (proj1 (proj2 (run_scanner_all_or_nothing scripted os_accepts
                          [("EUR", "USD"); ("GBP", "USD"); ("USD", "JPY")]
                          "key" 1 (FFin 2)
                          [ok_body "1.5"; note_body; server_error; ok_body "150"]
                          eq_refl) Hcan)
            [("EUR", "USD")] "GBP" "USD" [("USD", "JPY")]
            [mkExchangeRate (JStr "EUR") (JStr "USD") (FFin (3 # 2))
               (JStr "2024-05-01 15:35:00") None None]
            [note_body; server_error; ok_body "150"]
            ([EvGet "key" "EUR" "USD" (ok_body "1.5")] ++ [])
            (NetworkError "GBP" "USD" (HTTPError 503))
            [ok_body "150"] _ eq_refl _ _).
  - eapply batch_cons; [|apply batch_nil].
    apply succeeds_now with (a := ok_body "1.5"); [reflexivity | vm_compute; reflexivity].
  - eapply exhausts_retry; [reflexivity | reflexivity |].
    eapply exhausts_last; reflexivity.
Defined.

(** C3. In a run with a credential the pairs are requested in order, each
    at least once and at most [retry + 1] times in a row, with one wait
    of [retry_delay] between two requests for a pair and no other wait;
    every pair requested but the last one has given a record, and a list is
    returned only when the last pair has too.  With a budget of zero no
    wait happens, each pair reached is requested exactly once, and a
    request that fails is the last event of the run, whose outcome is the
    exception of that request; when no request fails the run returns the
    records of the requests, one per pair.  With a budget of two, where
    [time.sleep] carries out the wait, a pair whose first two requests
    fail with a domain error and whose third succeeds is requested exactly
    three times with a wait after the first and after the second, and its
    record is returned. *)
Theorem run_scanner_attempt_budget {W : Type}
    (requests_get : W -> string -> string -> string -> answer * W)
    (os_sleep : W -> Z -> bool)
    (api_key : string) (retry_delay : pyfloat) :
  PyStr.is_empty api_key = false ->
  (forall pairs retry w, 0 <= retry ->
     exists r w' evs counts,
       run_scanner requests_get os_sleep pairs (Some api_key) retry retry_delay w
       = Some (r, w', evs) /\
       (length counts <= length pairs)%nat /\
       Forall (fun k => 1 <= Z.of_nat k <= retry + 1) counts /\
       gets evs = requests_of pairs counts /\
       sleeps evs = repeat retry_delay (length (gets evs) - length counts) /\
       exists rs,
         successes evs = combine pairs rs /\
         match r with
         | Ok rates => rates = rs /\ length rs = length pairs /\
                       length counts = length pairs
         | Raise _ => S (length rs) = length counts
         end) /\
  (forall pairs w,
     exists r w' evs,
       run_scanner requests_get os_sleep pairs (Some api_key) 0 retry_delay w
       = Some (r, w', evs) /\
       sleeps evs = [] /\
       gets evs = firstn (length (gets evs)) pairs /\
       (forall evs0 k b q a evs1 e,
           evs = evs0 ++ EvGet k b q a :: evs1 ->
           fetch_outcome b q a = Raise e ->
           r = Raise e /\ evs1 = []) /\
       match r with
       | Ok rates =>
           gets evs = pairs /\ length rates = length pairs /\
           successes evs = combine pairs rates
       | Raise e =>
           exists evs0 base quote a,
             evs = evs0 ++ [EvGet api_key base quote a] /\
             fetch_outcome base quote a = Raise e
       end) /\
  (forall base quote rest w a1 w1 msg1 a2 w2 msg2 a3 w3 rate,
     sleep_waits os_sleep retry_delay ->
     requests_get w api_key base quote = (a1, w1) ->
     fetch_outcome base quote a1 = Raise (ForexScannerError msg1) ->
     requests_get w1 api_key base quote = (a2, w2) ->
     fetch_outcome base quote a2 = Raise (ForexScannerError msg2) ->
     requests_get w2 api_key base quote = (a3, w3) ->
     fetch_outcome base quote a3 = Ok rate ->
     exists r w' evs',
       run_scanner requests_get os_sleep ((base, quote) :: rest) (Some api_key) 2
         retry_delay w
       = Some (r, w',
               [EvGet api_key base quote a1; EvSleep retry_delay;
                EvGet api_key base quote a2; EvSleep retry_delay;
                EvGet api_key base quote a3] ++ evs') /\
       (forall rates, r = Ok rates -> hd_error rates = Some rate) /\
       (rest = [] -> r = Ok [rate] /\ w' = w3 /\ evs' = [])).
Proof.
  intros Hkey. split; [|split].
  - intros pairs retry w Hretry.
    rewrite (run_scanner_with_key _ _ _ _ Hkey).
    destruct (scan_loop_total requests_get os_sleep api_key retry retry_delay pairs [] w)
      as (r & w' & evs & Hrun).
    destruct (scan_loop_requests _ _ _ _ _ _ _ _ _ _ _ Hrun)
      as (counts & Hlen & Hall & Hgets & Hsleeps & rs & Hsucc & Hr).
    exists r, w', evs, counts. repeat split; try assumption.
    + eapply Forall_impl; [|exact Hall]. cbn. lia.
    + exists rs. split; [exact Hsucc|]. now destruct r.
  - intros pairs w.
    rewrite (run_scanner_with_key _ _ _ _ Hkey).
    destruct (scan_loop_total requests_get os_sleep api_key 0 retry_delay pairs [] w)
      as (r & w' & evs & Hrun).
    exists r, w', evs. split; [exact Hrun|].
    destruct (scan_loop_no_retry _ _ _ _ 0 pairs (Z.le_refl 0) _ _ _ _ _ Hrun)
      as (Hs & Hg & Hfirst & Hr).
    split; [exact Hs|]. split; [exact Hg|]. split; [exact Hfirst|].
    destruct r as [rates|e]; [|exact Hr].
    destruct Hr as (Hgets & rs & -> & Hlen & Hsucc). now repeat split.
  - intros base quote rest w a1 w1 msg1 a2 w2 msg2 a3 w3 rate
      Hdelay Hget1 Hout1 Hget2 Hout2 Hget3 Hout3.
    rewrite (run_scanner_with_key _ _ _ _ Hkey), scan_loop_cons.
    rewrite (loop_third_time_lucky _ _ _ _ _ _ _ _ _ _ _ _ _ _ _ _
               Hdelay Hget1 Hout1 Hget2 Hout2 Hget3 Hout3).
    destruct (scan_loop_total requests_get os_sleep api_key 2 retry_delay rest
                ([] ++ [rate]) w3) as (r & w' & evs' & Hrest).
    rewrite Hrest. exists r, w', evs'. split; [reflexivity|]. split.
    + intros rates ->.
      destruct (scan_loop_ok _ _ _ _ _ _ _ _ _ _ _ Hrest) as (rs & -> & _).
      reflexivity.
    + intros ->. cbn in Hrest. now injection Hrest as <- <- <-.
Qed.

Lemma run_scanner_attempt_budget_witness :
  exists r w' evs',
    run_scanner scripted os_accepts [("EUR", "USD")] (Some "key") 2 (FFin 2)
      [note_body; server_error; ok_body "1.5"]
    = Some (r, w',
            [EvGet "key" "EUR" "USD" note_body; EvSleep (FFin 2);
             EvGet "key" "EUR" "USD" server_error; EvSleep (FFin 2);
             EvGet "key" "EUR" "USD" (ok_body "1.5")] ++ evs') /\
    (forall rates, r = Ok rates ->
       hd_error rates = Some (mkExchangeRate (JStr "EUR") (JStr "USD") (FFin (3 # 2))
                                (JStr "2024-05-01 15:35:00") None None)) /\
    (@nil (string * string) = [] ->
     r = Ok [mkExchangeRate (JStr "EUR") (JStr "USD") (FFin (3 # 2))
               (JStr "2024-05-01 15:35:00") None None] /\
     w' = [] /\ evs' = []).
Proof.
  assert (Hwaits : sleep_waits (W := list answer) os_accepts (FFin 2)).
  { exists 2000000000. split; [vm_compute; reflexivity | reflexivity]. }
  refine (proj2 (proj2 (run_scanner_attempt_budget scripted os_accepts "key" (FFin 2)
                          eq_refl))
            "EUR" "USD" [] [note_body; server_error; ok_body "1.5"]
            note_body [server_error; ok_body "1.5"]
            (ApiLimit (JStr "rate limit") "EUR" "USD")
            server_error [ok_body "1.5"] (NetworkError "EUR" "USD" (HTTPError 503))
            (ok_body "1.5") []
            (mkExchangeRate (JStr "EUR") (JStr "USD") (FFin (3 # 2))
               (JStr "2024-05-01 15:35:00") None None)
            Hwaits eq_refl eq_refl eq_refl eq_refl eq_refl _).
  vm_compute. reflexivity.
Defined.

(* ================================================================= *)
(** ** The clamps of [main] *)

Section Clamps.



End Clamps.



(* ================================================================= *)
(** ** The rate of a record *)

Section Rates.

(** A record of [from_api] carries the float of the payload's rate. *)
Lemma from_api_ok_rate payload r :
  from_api payload = Ok r ->
  exists v, Py.getitem payload key_rate = Ok v /\ Py.float v = Ok (rate r).
Proof.
  unfold from_api. fold key_rate.
  destruct (Py.getitem payload "1. From_Currency Code") as [from_code|[]];
    cbn [bind try_except]; try discriminate.
  destruct (Py.getitem payload "3. To_Currency Code") as [to_code|[]];
    cbn [bind try_except]; try discriminate.
  destruct (Py.getitem payload key_rate) as [v|[]];
    cbn [bind try_except]; try discriminate.
  destruct (Py.float v) as [f|[]] eqn:Hf;
    cbn [bind try_except]; try discriminate.
  destruct (Py.getitem payload "6. Last Refreshed") as [refreshed|[]];
    cbn [bind try_except]; try discriminate.
  destruct (Py.get payload "8. Bid Price") as [bid|[]];
    cbn [bind try_except]; try discriminate.
  destruct (_parse_optional_float bid) as [bid_price|[]];
    cbn [bind try_except]; try discriminate.
  destruct (Py.get payload "9. Ask Price") as [ask|[]];
    cbn [bind try_except]; try discriminate.
  destruct (_parse_optional_float ask) as [ask_price|[]];
    cbn [bind try_except]; try discriminate.
  intros [= <-]. exists v. split; [reflexivity | exact Hf].
Qed.

(** A fetch that returns a record has received a body whose subtree
    under the result key [from_api] turned into that record. *)
Lemma fetch_outcome_ok base quote a r :
  fetch_outcome base quote a = Ok r ->
  exists resp payload subtree,
    a = inr resp /\ body resp = Some payload /\
    Py.getitem payload data_key = Ok subtree /\ from_api subtree = Ok r.
Proof.
  unfold fetch_outcome.
  destruct a as [detail|resp]; cbn [try_except]; [discriminate|].
  destruct (raise_for_status resp) as [[]|[]]; cbn [bind try_except];
    try discriminate.
  unfold response_json.
  destruct (body resp) as [payload|] eqn:Hbody; [|discriminate]. cbn [bind].
  destruct (Py.contains "Error Message" payload) as [[]|e]; cbn [bind];
    try discriminate.
  { destruct (Py.getitem payload "Error Message"); discriminate. }
  destruct (Py.contains "Note" payload) as [[]|e]; cbn [bind]; try discriminate.
  { destruct (Py.getitem payload "Note"); discriminate. }
  destruct (Py.contains data_key payload) as [[]|e]; cbn [bind negb];
    try discriminate.
  destruct (Py.getitem payload data_key) as [subtree|e] eqn:Hsub; [|discriminate].
  cbn [bind]. intros H. now exists resp, payload, subtree.
Qed.

(** Every record among the successes of a run was fetched in it. *)
Lemma successes_fetched evs p r :
  In (p, r) (successes evs) -> fetched evs p r.
Proof.
  induction evs as [|[key base quote a|d] evs IH].
  - intros [].
  - rewrite successes_get. intros Hin. apply in_app_or in Hin.
    destruct Hin as [Hin | Hin].
    + destruct (fetch_outcome base quote a) as [r'|e] eqn:E; [|destruct Hin].
      destruct Hin as [[= <- <-] | []].
      destruct (fetch_outcome_ok _ _ _ _ E)
        as (resp & payload & subtree & -> & Hbody & Hsub & Hparse).
      destruct (from_api_ok_rate _ _ Hparse) as (v & Hv & Hfloat).
      exists key, resp, payload, subtree, v. cbn [fst snd].
      repeat split; try assumption. now left.
    + destruct (IH Hin) as (k & resp & payload & subtree & v & Hev & H).
      exists k, resp, payload, subtree, v. split; [now right | exact H].
  - rewrite successes_sleep. intros Hin.
    destruct (IH Hin) as (k & resp & payload & subtree & v & Hev & H).
    exists k, resp, payload, subtree, v. split; [now right | exact H].
Qed.

Lemma combine_Forall2 {A B : Type} (P : A -> B -> Prop) (xs : list A) :
  forall ys, length ys = length xs ->
             (forall x y, In (x, y) (combine xs ys) -> P x y) ->
             Forall2 P xs ys.
Proof.
  induction xs as [|x xs IH]; intros [|y ys] Hlen Hall; try discriminate;
    constructor.
  - apply Hall. now left.
  - apply IH; [now injection Hlen|]. intros x' y' Hin. apply Hall. now right.
Qed.

(** The demo loop gives, pair by pair, the demo record of the pair, with
    a positive rate. *)
Lemma load_demo_loop_records pairs : forall results rates,
  load_demo_loop pairs results = Ok rates ->
  exists rs, rates = results ++ rs /\
             Forall2 (fun p r => demo_record p r /\
                                 PyFloat.is_positive (rate r) = true) pairs rs.
Proof.
  induction pairs as [|p pairs IH]; intros results rates; cbn [load_demo_loop].
  - intros [= <-]. exists []. now rewrite app_nil_r.
  - destruct (Py.lookup (pair_key p) demo_payload) as [entry|] eqn:E;
      [|discriminate].
    destruct (demo_entries_parse _ _ E) as (r & Hr & Hpos).
    rewrite Hr. cbn [bind]. intros H.
    destruct (IH _ _ H) as (rs & -> & Hall).
    exists (r :: rs). rewrite <- app_assoc. split; [reflexivity|].
    constructor; [|exact Hall]. split; [|exact Hpos].
    destruct (from_api_ok_rate _ _ Hr) as (v & Hv & Hfloat).
    now exists entry, v.
Qed.

End Rates.

(** C7, amended.  The rate of a record made by [from_api] is present and
    is the float that [float] gives for the payload's rate value; nothing
    about it is checked: whatever [float] makes of a rate text, negative,
    zero, NaN or infinite, is the rate of the record made of a payload
    with that text.  The records [run_scanner]
    returns are, pair by pair, records that [from_api] made of the subtree
    under the result key of a body received for that pair in the run, and
    so carry the float of that subtree's rate value.  The records of the
    demo lookup are, pair by pair, the records [from_api] makes of the
    entries of the demo table, and their rates are strictly positive. *)
Theorem rate_is_the_parsed_float :
  (forall payload r,
      from_api payload = Ok r ->
      exists v, Py.getitem payload key_rate = Ok v /\ Py.float v = Ok (rate r)) /\
  (forall (W : Type) (requests_get : W -> string -> string -> string -> answer * W)
          (os_sleep : W -> Z -> bool)
          pairs api_key retry retry_delay w rates w' evs,
      run_scanner requests_get os_sleep pairs api_key retry retry_delay w
      = Some (Ok rates, w', evs) ->
      Forall2 (fetched evs) pairs rates) /\
  (forall pairs rates,
      load_demo_data pairs = Ok rates ->
      Forall2 (fun p r => demo_record p r /\ PyFloat.is_positive (rate r) = true)
        pairs rates) /\
  (forall text f,
      PyFloat.of_string text = Some f ->
      exists r,
        from_api (str_dict [(key_from, "EUR"); (key_to, "USD"); (key_rate, text);
                            (key_refreshed, "2024-05-01 15:35:00")]) = Ok r /\
        rate r = f) /\
  PyFloat.of_string "-1" = Some (FFin (-1)) /\
  PyFloat.of_string "0" = Some (FFin 0) /\
  PyFloat.of_string "nan" = Some FNan /\
  PyFloat.of_string "-inf" = Some (FInf true).
Proof.
  split; [exact from_api_ok_rate|]. split; [|split; [|split]]; cycle 2.
  { intros text f Hf. rewrite from_api_str_dict.
    unfold optional_price. cbn -[PyFloat.of_string].
    rewrite Hf. eexists. split; reflexivity. }
  { repeat split; vm_compute; reflexivity. }
  - intros W requests_get os_sleep pairs api_key retry retry_delay w rates w' evs.
    unfold run_scanner. destruct api_key as [key|]; [|discriminate].
    destruct (PyStr.is_empty key); [discriminate|].
    intros Hrun.
    destruct (scan_loop_ok _ _ _ _ _ _ _ _ _ _ _ Hrun)
      as (rs & -> & Hlen & Hsucc & _).
    cbn [app]. apply combine_Forall2; [exact Hlen|].
    intros p r Hin. apply successes_fetched. now rewrite Hsucc.
  - intros pairs rates H.
    destruct (load_demo_loop_records _ _ _ H) as (rs & -> & Hall). exact Hall.
Qed.

Lemma rate_is_the_parsed_float_witness :
  Forall2 (fetched [EvGet "key" "EUR" "USD" (ok_body "-1.5")])
    [("EUR", "USD")]
    [mkExchangeRate (JStr "EUR") (JStr "USD") (FFin (-3 # 2))
       (JStr "2024-05-01 15:35:00") None None].
Proof.
  refine (proj1 (proj2 rate_is_the_parsed_float) (list answer) scripted os_accepts
            [("EUR", "USD")] (Some "key") 0 (FFin 2) [ok_body "-1.5"]
            [mkExchangeRate (JStr "EUR") (JStr "USD") (FFin (-3 # 2))
               (JStr "2024-05-01 15:35:00") None None]
            [] [EvGet "key" "EUR" "USD" (ok_body "-1.5")] _).
  vm_compute. reflexivity.
Defined.

(* ================================================================= *)
(** * Further properties *)

(** ** [parse_pairs]: what a parsed pair looks like *)

Section ParsedPairs.
Import PyStr PyStrFacts.

Lemma lower_upper_char c : upper_char (lower_char c) = upper_char c.
Proof. by_cases_on_char c. Qed.

Lemma is_space_lower_char c : is_space (lower_char c) = is_space c.
Proof. by_cases_on_char c. Qed.

Lemma lower_char_eqb_dash c : Ascii.eqb (lower_char c) "-" = Ascii.eqb c "-".
Proof. by_cases_on_char c. Qed.

(** Stripping commutes with a character map that keeps white space
    white and visible characters visible. *)
Lemma lstrip_map f s :
  (forall c, is_space (f c) = is_space c) -> lstrip (map f s) = map f (lstrip s).
Proof.
  intros Hf. induction s as [|c s IH]; simpl; [reflexivity|].
  rewrite Hf. destruct (is_space c); [exact IH | reflexivity].
Qed.

Lemma rstrip_map f s :
  (forall c, is_space (f c) = is_space c) -> rstrip (map f s) = map f (rstrip s).
Proof.
  intros Hf. induction s as [|c s IH]; simpl; [reflexivity|].
  rewrite IH, Hf.
  destruct (rstrip s); simpl; [destruct (is_space c)|]; reflexivity.
Qed.

Lemma strip_map f s :
  (forall c, is_space (f c) = is_space c) -> strip (map f s) = map f (strip s).
Proof. intros Hf. unfold strip. now rewrite lstrip_map, rstrip_map. Qed.

Lemma cleaned_text_no_dash raw : contains "-" (cleaned_text raw) = false.
Proof.
  unfold cleaned_text. rewrite contains_upper_dash.
  destruct (contains "-" (strip (replace "-" "/" raw))) eqn:E; [|reflexivity].
  apply contains_strip in E. now rewrite contains_replace_old in E.
Qed.

Lemma parse_pair_ok raw base quote :
  parse_pair raw = Ok (base, quote) <->
  cleaned_text raw = pair_key (base, quote) /\
  contains "/" base = false /\ base <> EmptyString /\ quote <> EmptyString.
Proof.
  unfold parse_pair. fold (cleaned_text raw). split.
  - destruct (contains "/" (cleaned_text raw)) eqn:Hc; [|discriminate].
    cbn [negb].
    destruct (split_first "/" (cleaned_text raw)) as [b q] eqn:Hs.
    destruct (is_empty b || is_empty q) eqn:He; [discriminate|].
    intros [= -> ->].
    destruct (split_first_join _ _ _ _ Hc Hs) as [Hjoin Hfree].
    apply orb_false_elim in He as [Hb Hq].
    repeat split; [exact Hjoin | exact Hfree | |].
    + now destruct base.
    + now destruct quote.
  - intros (Hjoin & Hfree & Hb & Hq).
    unfold pair_key in Hjoin. cbn [fst snd] in Hjoin.
    change (base ++ "/" ++ quote)%string with (base ++ String "/" quote)%string
      in Hjoin.
    rewrite Hjoin, contains_append. cbn [contains].
    rewrite Ascii.eqb_refl, orb_true_r. cbn [negb].
    rewrite (split_first_append _ _ _ Hfree).
    destruct base; [contradiction|]. destruct quote; [contradiction|].
    reflexivity.
Qed.

(** Two raw strings with the same cleaned text parse alike. *)
Lemma parse_pair_same_text raw1 raw2 p :
  cleaned_text raw1 = cleaned_text raw2 ->
  parse_pair raw1 = Ok p -> parse_pair raw2 = Ok p.
Proof.
  destruct p as [base quote]. rewrite !parse_pair_ok. now intros ->.
Qed.

Lemma parse_pairs_map_same_text (f : string -> string) raws ps :
  (forall raw, cleaned_text (f raw) = cleaned_text raw) ->
  parse_pairs (List.map f raws) = Ok ps <-> parse_pairs raws = Ok ps.
Proof.
  intros Hf. unfold parse_pairs. rewrite !parse_pairs_loop_ok.
  split; intros (ps' & -> & H); exists ps'; (split; [reflexivity|]).
  - remember (List.map f raws) as mapped eqn:Hm. revert raws Hm.
    induction H as [|raw p mapped ps' Hp _ IH]; intros [|r raws] Hm;
      try discriminate; constructor.
    + injection Hm as -> _.
      exact (parse_pair_same_text _ _ _ (Hf r) Hp).
    + injection Hm as _ ->. now apply IH.
  - induction H as [|raw p raws ps' Hp _ IH]; cbn; constructor; [|exact IH].
    exact (parse_pair_same_text _ _ _ (eq_sym (Hf raw)) Hp).
Qed.

Lemma replace_lower s :
  replace "-" "/" (lower s) = lower (replace "-" "/" s).
Proof.
  unfold replace, lower. induction s as [|c s IH]; simpl; [reflexivity|].
  rewrite IH. f_equal. by_cases_on_char c.
Qed.

Lemma replace_upper s :
  replace "-" "/" (upper s) = upper (replace "-" "/" s).
Proof.
  unfold replace, upper. induction s as [|c s IH]; simpl; [reflexivity|].
  rewrite IH. f_equal. by_cases_on_char c.
Qed.

Lemma upper_lower s : upper (lower s) = upper s.
Proof.
  unfold upper, lower. induction s as [|c s IH]; simpl; [reflexivity|].
  now rewrite lower_upper_char, IH.
Qed.

Lemma cleaned_text_lower raw : cleaned_text (lower raw) = cleaned_text raw.
Proof.
  unfold cleaned_text. rewrite replace_lower. unfold lower.
  rewrite strip_map by apply is_space_lower_char.
  apply upper_lower.
Qed.

Lemma cleaned_text_upper raw : cleaned_text (upper raw) = cleaned_text raw.
Proof.
  unfold cleaned_text. rewrite replace_upper, strip_upper. apply upper_idem.
Qed.

Lemma cleaned_text_strip raw : cleaned_text (strip raw) = cleaned_text raw.
Proof.
  unfold cleaned_text, replace.
  rewrite <- (strip_map (fun c => if Ascii.eqb c "-" then "/"%char else c));
    [now rewrite strip_idem|].
  intros c. destruct (Ascii.eqb_spec c "-") as [-> | _]; reflexivity.
Qed.

Lemma cleaned_text_dashes raw :
  cleaned_text (replace "/" "-" raw) = cleaned_text raw.
Proof.
  unfold cleaned_text. do 2 f_equal. unfold replace.
  induction raw as [|c raw IH]; simpl; [reflexivity|].
  rewrite IH. f_equal. by_cases_on_char c.
Qed.

Lemma parse_pairs_loop_acc raws : forall acc,
  parse_pairs_loop raws acc = (ps <- parse_pairs_loop raws [] ;; Ok (acc ++ ps)).
Proof.
  induction raws as [|raw raws IH]; intros acc; cbn [parse_pairs_loop].
  - cbn. now rewrite app_nil_r.
  - destruct (parse_pair raw) as [p|e]; cbn [bind]; [|reflexivity].
    rewrite (IH (acc ++ [p])), (IH ([] ++ [p])).
    destruct (parse_pairs_loop raws []) as [ps|e]; cbn [bind]; [|reflexivity].
    now rewrite <- app_assoc.
Qed.

End ParsedPairs.

(** X1. The pairs [parse_pairs] returns: one per raw string, in order,
    each the cleaned text of its raw string cut at the first "/".  Both
    sides are non-empty, the base holds no "/", and the rendering
    "base/quote" holds no "-", no lower-case letter, and no white space at
    either end. *)
Theorem parse_pairs_normalized (raws : list string) (ps : list (string * string)) :
  parse_pairs raws = Ok ps ->
  length ps = length raws /\
  Forall2 (fun raw p => pair_key p = cleaned_text raw) raws ps /\
  Forall (fun p =>
            fst p <> EmptyString /\ snd p <> EmptyString /\
            PyStr.contains "/" (fst p) = false /\
            PyStr.contains "-" (pair_key p) = false /\
            PyStr.upper (pair_key p) = pair_key p /\
            PyStr.strip (pair_key p) = pair_key p) ps.
Proof.
  unfold parse_pairs. rewrite parse_pairs_loop_ok.
  intros (ps' & -> & H). cbn [app].
  induction H as [|raw [base quote] raws ps' Hp _ (IHlen & IHtext & IHall)].
  - repeat split; constructor.
  - apply parse_pair_ok in Hp as (Htext & Hfree & Hb & Hq).
    split; [cbn; now rewrite IHlen|]. split; [now constructor|].
    constructor; [|exact IHall]. cbn [fst snd]. rewrite <- Htext.
    repeat split; try assumption.
    + apply cleaned_text_no_dash.
    + apply PyStrFacts.upper_idem.
    + unfold cleaned_text.
      now rewrite PyStrFacts.strip_upper, PyStrFacts.strip_idem.
Qed.

Lemma parse_pairs_normalized_witness :
  length [("EUR", "USD"); ("GBP", "USD/X")] = length [" eur-usd"; "gbp/usd/x "] /\
  Forall2 (fun raw p => pair_key p = cleaned_text raw)
    [" eur-usd"; "gbp/usd/x "] [("EUR", "USD"); ("GBP", "USD/X")].
Proof.
  destruct (parse_pairs_normalized [" eur-usd"; "gbp/usd/x "]
              [("EUR", "USD"); ("GBP", "USD/X")] eq_refl) as (Hlen & Htext & _).
  exact (conj Hlen Htext).
Defined.

(** X2. Parsing a batch of raw strings is parsing its beginning and
    then its end: the pairs are concatenated, and the first string that is
    rejected decides the error, whatever comes after it. *)
Theorem parse_pairs_app (raws1 raws2 : list string) :
  parse_pairs (raws1 ++ raws2)
  = (ps1 <- parse_pairs raws1 ;; ps2 <- parse_pairs raws2 ;; Ok (ps1 ++ ps2)).
Proof.
  unfold parse_pairs. generalize (@nil (string * string)) at 1 2 as acc.
  induction raws1 as [|raw raws1 IH]; intros acc; cbn [app parse_pairs_loop].
  - cbn [bind]. apply parse_pairs_loop_acc.
  - destruct (parse_pair raw) as [p|e]; cbn [bind]; [apply IH | reflexivity].
Qed.

(** X3. The spelling of a raw pair does not matter: stripping the white
    space around it or writing "-" for every "/" gives the same pairs,
    and succeeds exactly when the original does; for ASCII text so do
    lower-casing and upper-casing. *)
Theorem parse_pairs_spelling (raws : list string) (ps : list (string * string)) :
  (Forall (fun raw => PyStr.is_ascii raw = true) raws ->
   (parse_pairs (map PyStr.lower raws) = Ok ps <-> parse_pairs raws = Ok ps) /\
   (parse_pairs (map PyStr.upper raws) = Ok ps <-> parse_pairs raws = Ok ps)) /\
  (parse_pairs (map PyStr.strip raws) = Ok ps <-> parse_pairs raws = Ok ps) /\
  (parse_pairs (map (PyStr.replace "/" "-") raws) = Ok ps <->
   parse_pairs raws = Ok ps).
Proof.
  split; [intros _; split|split]; apply parse_pairs_map_same_text; intros raw.
  - apply cleaned_text_lower.
  - apply cleaned_text_upper.
  - apply cleaned_text_strip.
  - apply cleaned_text_dashes.
Qed.

Lemma parse_pairs_spelling_witness :
  parse_pairs (map PyStr.lower ["EUR/USD"; " Gbp-Usd "])
  = Ok [("EUR", "USD"); ("GBP", "USD")] /\
  parse_pairs (map (PyStr.replace "/" "-") ["EUR/USD"; " Gbp-Usd "])
  = Ok [("EUR", "USD"); ("GBP", "USD")].
Proof.
  destruct (parse_pairs_spelling ["EUR/USD"; " Gbp-Usd "]
              [("EUR", "USD"); ("GBP", "USD")]) as (Hcase & _ & Hdash).
  destruct (Hcase ltac:(now repeat constructor)) as [Hlower _].
  split; [apply Hlower | apply Hdash]; reflexivity.
Defined.

(* ================================================================= *)
(** ** [from_api]: success, the keys it reads, the exceptions it lets out *)

(** X4. On a dictionary of ASCII strings [from_api] succeeds exactly
    when the four required keys are present and the rate text is a number
    for [float]; the record then holds the from-code, to-code and
    last-refreshed texts as they are, the rate text rounded to a float, and
    for bid and ask the parsed number or nothing. *)
Theorem from_api_succeeds_iff (fields : list (string * string)) (r : ExchangeRate) :
  Forall (fun kv => PyStr.is_ascii (snd kv) = true) fields ->
  from_api (str_dict fields) = Ok r <->
  exists from_code to_code rate_text rate refreshed,
    Py.lookup key_from fields = Some from_code /\
    Py.lookup key_to fields = Some to_code /\
    Py.lookup key_rate fields = Some rate_text /\
    PyFloat.of_string rate_text = Some rate /\
    Py.lookup key_refreshed fields = Some refreshed /\
    r = mkExchangeRate (JStr from_code) (JStr to_code) rate (JStr refreshed)
          (optional_price fields key_bid) (optional_price fields key_ask).
Proof.
  intros _. rewrite from_api_str_dict. split.
  - destruct (Py.lookup key_from fields) as [from_code|]; [|discriminate].
    destruct (Py.lookup key_to fields) as [to_code|]; [|discriminate].
    destruct (Py.lookup key_rate fields) as [rate_text|]; [|discriminate].
    destruct (PyFloat.of_string rate_text) as [rate|] eqn:Hrate; [|discriminate].
    destruct (Py.lookup key_refreshed fields) as [refreshed|]; [|discriminate].
    intros [= <-]. exists from_code, to_code, rate_text, rate, refreshed.
    repeat split. exact Hrate.
  - intros (from_code & to_code & rate_text & rate & refreshed
            & -> & -> & -> & -> & -> & ->).
    reflexivity.
Qed.

Lemma from_api_succeeds_iff_witness :
  exists from_code to_code rate_text rate refreshed,
    Py.lookup key_from [(key_from, "EUR"); (key_to, "USD"); (key_rate, "1e400");
                        (key_refreshed, "now"); (key_bid, "")] = Some from_code /\
    Py.lookup key_to [(key_from, "EUR"); (key_to, "USD"); (key_rate, "1e400");
                      (key_refreshed, "now"); (key_bid, "")] = Some to_code /\
    Py.lookup key_rate [(key_from, "EUR"); (key_to, "USD"); (key_rate, "1e400");
                        (key_refreshed, "now"); (key_bid, "")] = Some rate_text /\
    PyFloat.of_string rate_text = Some rate /\
    Py.lookup key_refreshed [(key_from, "EUR"); (key_to, "USD"); (key_rate, "1e400");
                             (key_refreshed, "now"); (key_bid, "")] = Some refreshed /\
    mkExchangeRate (JStr "EUR") (JStr "USD") (FInf false) (JStr "now") None None
    = mkExchangeRate (JStr from_code) (JStr to_code) rate (JStr refreshed)
        (optional_price [(key_from, "EUR"); (key_to, "USD"); (key_rate, "1e400");
                         (key_refreshed, "now"); (key_bid, "")] key_bid)
        (optional_price [(key_from, "EUR"); (key_to, "USD"); (key_rate, "1e400");
                         (key_refreshed, "now"); (key_bid, "")] key_ask).
Proof.
  refine (proj1 (from_api_succeeds_iff
                   [(key_from, "EUR"); (key_to, "USD"); (key_rate, "1e400");
                    (key_refreshed, "now"); (key_bid, "")]
                   (mkExchangeRate (JStr "EUR") (JStr "USD") (FInf false) (JStr "now")
                      None None) _)
            _).
  - now repeat constructor.
  - vm_compute. reflexivity.
Defined.

(** X5. [from_api] reads six keys of an object and nothing else: two
    objects that agree on these keys give the same record or raise the
    same exception. *)
Theorem from_api_reads_six_keys (fields1 fields2 : list (string * json)) :
  Forall (fun k => Py.lookup k fields1 = Py.lookup k fields2)
    [key_from; key_to; key_rate; key_refreshed; key_bid; key_ask] ->
  from_api (JObj fields1) = from_api (JObj fields2).
Proof.
  intros H. rewrite !from_api_object. unfold optional_value.
  repeat match goal with
         | H : Forall _ (_ :: _) |- _ =>
             let Hk := fresh "Hk" in
             inversion H as [|? ? Hk ?]; subst; clear H; rewrite Hk
         end.
  reflexivity.
Qed.

Lemma from_api_reads_six_keys_witness :
  from_api (JObj [("7. Time Zone", JStr "UTC"); (key_from, JStr "EUR");
                  (key_to, JStr "USD"); (key_rate, JStr "1.5");
                  (key_refreshed, JStr "now")])
  = from_api (JObj [(key_from, JStr "EUR"); (key_to, JStr "USD");
                    (key_rate, JStr "1.5"); (key_refreshed, JStr "now");
                    ("2. From_Currency Name", JStr "Euro")]).
Proof.
  apply from_api_reads_six_keys. repeat constructor.
Defined.

Section FromApiRaises.

(** What [from_api] can raise. *)
Lemma from_api_raises (payload : json) (e : exn) :
  from_api payload = Raise e ->
  (exists k, In k [key_from; key_to; key_rate; key_refreshed] /\
             e = ForexScannerError (ResponseMissingField k)) \/
  (exists s, e = ForexScannerError (InvalidNumericValue (NotAFloat s))) \/
  e = TypeError \/ e = OverflowError.
Proof.
  intros H.
  destruct payload as [| b | z | f | s | items | fields];
    try (injection H as <-; now right; right; left).
  rewrite from_api_object in H.
  destruct (Py.lookup key_from fields);
    [|injection H as <-; left; exists key_from; cbn; auto].
  destruct (Py.lookup key_to fields);
    [|injection H as <-; left; exists key_to; cbn; auto].
  destruct (Py.lookup key_rate fields) as [rate_value|];
    [|injection H as <-; left; exists key_rate; cbn; auto].
  destruct (float_cases rate_value)
    as [[rate Hv] | [(s & _ & _ & Hv) | [Hv | Hv]]]; rewrite Hv in H;
    try (injection H as <-; eauto 6).
  destruct (Py.lookup key_refreshed fields);
    [|injection H as <-; left; exists key_refreshed; cbn; auto 6].
  rewrite !parse_optional_float_cases in H.
  destruct (optional_value fields key_bid) as [| b | z | f | s | items | fields1];
    try (injection H as <-; auto);
    try (destruct (PyFloat.of_int z); [|injection H as <-; auto]);
    destruct (optional_value fields key_ask)
      as [| b' | z' | f' | s' | items' | fields2];
    try discriminate H; try (injection H as <-; auto);
    destruct (PyFloat.of_int z'); try discriminate H; injection H as <-; auto.
Qed.

End FromApiRaises.

(** X6. The exceptions [from_api] lets out: the field-missing error for
    one of the four required keys, the numeric-format error for a rate
    text, a [TypeError], or an [OverflowError] (an integer beyond the
    range of a float); no [KeyError] and no [ValueError] escapes.  A
    payload that is not an object always gives the [TypeError], and a
    dictionary of strings gives neither the [TypeError] nor the
    [OverflowError]. *)
Theorem from_api_exceptions (payload : json) (e : exn) :
  from_api payload = Raise e ->
  ((exists k, In k [key_from; key_to; key_rate; key_refreshed] /\
              e = ForexScannerError (ResponseMissingField k)) \/
   (exists s, e = ForexScannerError (InvalidNumericValue (NotAFloat s))) \/
   e = TypeError \/ e = OverflowError) /\
  ((forall fields, payload <> JObj fields) -> e = TypeError) /\
  ((exists fields, payload = str_dict fields) ->
   e <> TypeError /\ e <> OverflowError).
Proof.
  intros H. pose proof (from_api_raises _ _ H) as Hkinds.
  split; [exact Hkinds|]. split.
  - intros Hshape.
    destruct payload as [| b | z | f | s | items | fields];
      try (now injection H as <-).
    now destruct (Hshape fields).
  - intros [fields ->]. rewrite from_api_str_dict in H.
    destruct (Py.lookup key_from fields); [|injection H as <-; split; discriminate].
    destruct (Py.lookup key_to fields); [|injection H as <-; split; discriminate].
    destruct (Py.lookup key_rate fields) as [rate_text|];
      [|injection H as <-; split; discriminate].
    destruct (PyFloat.of_string rate_text); [|injection H as <-; split; discriminate].
    destruct (Py.lookup key_refreshed fields);
      [discriminate | injection H as <-; split; discriminate].
Qed.

Lemma from_api_exceptions_witness :
  from_api (JObj [(key_from, JStr "EUR"); (key_to, JStr "USD");
                  (key_rate, JInt (10 ^ 400))]) = Raise OverflowError /\
  ((exists k, In k [key_from; key_to; key_rate; key_refreshed] /\
              OverflowError = ForexScannerError (ResponseMissingField k)) \/
   (exists s, OverflowError = ForexScannerError (InvalidNumericValue (NotAFloat s))) \/
   OverflowError = TypeError \/ OverflowError = OverflowError).
Proof.
  assert (H : from_api (JObj [(key_from, JStr "EUR"); (key_to, JStr "USD");
                              (key_rate, JInt (10 ^ 400))]) = Raise OverflowError)
    by (vm_compute; reflexivity).
  split; [exact H|].
  exact (proj1 (from_api_exceptions _ OverflowError H)).
Defined.

(* ================================================================= *)
(** ** [fetch_exchange_rate]: the exceptions it lets out *)

(** X7. Whatever the provider answers, an exception out of
    [fetch_exchange_rate] is one of: the network, API, API-limit or
    unexpected-structure error for the pair asked for, the field-missing or
    numeric-format error of [from_api], a [TypeError], an [OverflowError],
    or the decoding error of [response.json()], which is a [ValueError].
    No exception of [requests.get] or [raise_for_status], no [KeyError]
    and no other [ValueError] escapes. *)
Theorem fetch_exceptions {W : Type}
    (requests_get : W -> string -> string -> string -> answer * W)
    (api_key base quote : string) (w w' : W) (e : exn) (evs : list event) :
  fetch_exchange_rate requests_get api_key base quote w = Some (Raise e, w', evs) ->
  (exists exc, e = ForexScannerError (NetworkError base quote exc)) \/
  (exists message, e = ForexScannerError (ApiError base quote message)) \/
  (exists note, e = ForexScannerError (ApiLimit note base quote)) \/
  (exists payload, e = ForexScannerError (UnexpectedStructure base quote payload)) \/
  (exists k, In k [key_from; key_to; key_rate; key_refreshed] /\
             e = ForexScannerError (ResponseMissingField k)) \/
  (exists s, e = ForexScannerError (InvalidNumericValue (NotAFloat s))) \/
  e = TypeError \/ e = OverflowError \/ e = ValueError InvalidJSON.
Proof.
  unfold fetch_exchange_rate.
  destruct (requests_get w api_key base quote) as [a w1].
  intros [= H _ _]. revert H. unfold fetch_outcome.
  destruct a as [detail | resp]; cbn [try_except].
  { intros [= <-]. left. eauto. }
  unfold raise_for_status.
  destruct ((400 <=? status_code resp) && (status_code resp <? 600));
    cbn [bind try_except].
  { intros [= <-]. left. eauto. }
  unfold response_json.
  destruct (body resp) as [payload|]; cbn [bind];
    [|intros [= <-]; do 8 right; reflexivity].
  destruct payload as [| b | z | f | s | items | fields]; cbn [Py.contains bind];
    try (intros [= <-]; do 6 right; left; reflexivity).
  - (* a string *)
    destruct (PyStr.substring_of "Error Message" s); cbn [Py.getitem bind];
      [intros [= <-]; do 6 right; left; reflexivity|].
    destruct (PyStr.substring_of "Note" s); cbn [Py.getitem bind];
      [intros [= <-]; do 6 right; left; reflexivity|].
    destruct (PyStr.substring_of data_key s); cbn [negb Py.getitem bind];
      intros [= <-]; [do 6 right; left; reflexivity | do 3 right; left; eauto].
  - (* a list *)
    destruct (existsb _ items); cbn [Py.getitem bind];
      [intros [= <-]; do 6 right; left; reflexivity|].
    destruct (existsb _ items); cbn [Py.getitem bind];
      [intros [= <-]; do 6 right; left; reflexivity|].
    destruct (existsb _ items); cbn [negb Py.getitem bind];
      intros [= <-]; [do 6 right; left; reflexivity | do 3 right; left; eauto].
  - (* an object *)
    unfold Py.getitem.
    destruct (Py.lookup "Error Message" fields); cbn [bind];
      [intros [= <-]; right; left; eauto|].
    destruct (Py.lookup "Note" fields); cbn [bind];
      [intros [= <-]; do 2 right; left; eauto|].
    destruct (Py.lookup data_key fields) as [subtree|]; cbn [negb bind];
      [|intros [= <-]; do 3 right; left; eauto].
    intros Hsub. destruct (from_api_raises _ _ Hsub) as [Hk | [Hs | [-> | ->]]].
    + do 4 right. left. exact Hk.
    + do 5 right. left. exact Hs.
    + do 6 right. left. reflexivity.
    + do 7 right. left. reflexivity.
Qed.

Lemma fetch_exceptions_witness :
  (exists exc, ValueError InvalidJSON
               = ForexScannerError (NetworkError "EUR" "USD" exc)) \/
  (exists message, ValueError InvalidJSON
                   = ForexScannerError (ApiError "EUR" "USD" message)) \/
  (exists note, ValueError InvalidJSON
                = ForexScannerError (ApiLimit note "EUR" "USD")) \/
  (exists payload, ValueError InvalidJSON
                   = ForexScannerError (UnexpectedStructure "EUR" "USD" payload)) \/
  (exists k, In k [key_from; key_to; key_rate; key_refreshed] /\
             ValueError InvalidJSON = ForexScannerError (ResponseMissingField k)) \/
  (exists s, ValueError InvalidJSON
             = ForexScannerError (InvalidNumericValue (NotAFloat s))) \/
  ValueError InvalidJSON = TypeError \/ ValueError InvalidJSON = OverflowError \/
  ValueError InvalidJSON = ValueError InvalidJSON.
Proof.
  exact (fetch_exceptions scripted "key" "EUR" "USD" [inr (mkResponse 200 None)] []
           (ValueError InvalidJSON)
           [EvGet "key" "EUR" "USD" (inr (mkResponse 200 None))] eq_refl).
Defined.

(* ================================================================= *)
(** ** [run_scanner]: what it requests, how batches compose *)

Section RunScannerMore.

Context {W : Type}.
Variable requests_get : W -> string -> string -> string -> answer * W.
Variable os_sleep : W -> Z -> bool.
Variables (api_key : string) (retry : Z) (retry_delay : pyfloat).

Local Abbreviation scan := (scan_loop requests_get os_sleep api_key retry retry_delay).

(** The records already collected do not influence the rest of the
    batch. *)
Lemma scan_loop_acc pairs : forall results w,
  scan pairs results w =
    match scan pairs [] w with
    | Some (Ok rs, w', evs) => Some (Ok (results ++ rs), w', evs)
    | other => other
    end.
Proof.
  induction pairs as [|[base quote] rest IH]; intros results w.
  - cbn. now rewrite app_nil_r.
  - rewrite !scan_loop_cons.
    destruct (retry_loop _ _ _ _ _ _ _ _ _ w) as [[[[rate|e] w1] evs1]|];
      try reflexivity.
    rewrite (IH (results ++ [rate])), (IH ([] ++ [rate])).
    destruct (scan rest [] w1) as [[[[rs|e] w2] evs2]|]; try reflexivity.
    now rewrite <- app_assoc.
Qed.

(** The loop for one pair requests that pair with the given credential
    and waits for the given delay. *)
Lemma retry_loop_events base quote : forall fuel attempt w r w' evs,
  retry_loop requests_get os_sleep fuel api_key base quote retry retry_delay attempt w
  = Some (r, w', evs) ->
  Forall (event_allowed api_key [(base, quote)] retry_delay) evs.
Proof.
  induction fuel as [|fuel IH]; intros attempt w r w' evs; [discriminate|].
  cbn [retry_loop]. unfold fetch_exchange_rate.
  destruct (requests_get w api_key base quote) as [a w1].
  assert (Hget : event_allowed api_key [(base, quote)] retry_delay
                   (EvGet api_key base quote a)) by (cbn; auto).
  destruct (fetch_outcome base quote a) as [rate|e].
  { intros [= _ _ <-]. now constructor. }
  destruct e; try (intros [= _ _ <-]; now constructor).
  destruct (attempt + 1 >? retry).
  { intros [= _ _ <-]. now constructor. }
  destruct (time_sleep_total os_sleep retry_delay w1) as [[[]|e] [-> _]].
  - destruct (retry_loop requests_get os_sleep fuel api_key base quote retry retry_delay
                (attempt + 1) w1) as [[[r3 w3] evs3]|] eqn:E; [|discriminate].
    intros [= _ _ <-]. cbn [app].
    constructor; [exact Hget|]. constructor; [reflexivity|].
    exact (IH _ _ _ _ _ E).
  - intros [= _ _ <-]. now constructor.
Qed.

Lemma scan_loop_events pairs : forall results w r w' evs,
  scan pairs results w = Some (r, w', evs) ->
  Forall (event_allowed api_key pairs retry_delay) evs.
Proof.
  induction pairs as [|[base quote] rest IH]; intros results w r w' evs.
  - intros [= _ _ <-]. constructor.
  - rewrite scan_loop_cons.
    destruct (retry_loop _ _ _ _ _ _ _ _ _ w) as [[[r1 w1] evs1]|] eqn:E;
      [|discriminate].
    assert (Hfirst : Forall (event_allowed api_key ((base, quote) :: rest)
                               retry_delay) evs1).
    { eapply Forall_impl; [|exact (retry_loop_events _ _ _ _ _ _ _ _ E)].
      intros [k b q a|d]; cbn; [|auto].
      intros [-> [Hp | []]]. auto. }
    destruct r1 as [rate|e]; [|now intros [= _ _ <-]].
    destruct (scan rest (results ++ [rate]) w1) as [[[r2 w2] evs2]|] eqn:E2;
      [|discriminate].
    intros [= _ _ <-]. apply Forall_app. split; [exact Hfirst|].
    eapply Forall_impl; [|exact (IH _ _ _ _ _ E2)].
    intros [k b q a|d]; cbn; [|auto]. intros [-> Hp]. auto.
Qed.

(** An exception that is no [ForexScannerError] ends the loop at once. *)
Lemma loop_uncaught base quote fuel attempt w a w1 e :
  requests_get w api_key base quote = (a, w1) ->
  fetch_outcome base quote a = Raise e ->
  (forall msg, e <> ForexScannerError msg) ->
  retry_loop requests_get os_sleep (S fuel) api_key base quote retry retry_delay attempt w
  = Some (Raise e, w1, [EvGet api_key base quote a]).
Proof.
  intros Hget Hout Hraw. cbn [retry_loop]. unfold fetch_exchange_rate.
  rewrite Hget, Hout. destruct e; try reflexivity. now destruct (Hraw msg).
Qed.

(** A first request that succeeds ends the loop at once. *)
Lemma loop_first_success base quote fuel attempt w a w1 rate :
  requests_get w api_key base quote = (a, w1) ->
  fetch_outcome base quote a = Ok rate ->
  retry_loop requests_get os_sleep (S fuel) api_key base quote retry retry_delay attempt w
  = Some (Ok rate, w1, [EvGet api_key base quote a]).
Proof.
  intros Hget Hout. cbn [retry_loop]. unfold fetch_exchange_rate.
  now rewrite Hget, Hout.
Qed.

(** With a budget and a delay [time.sleep] rejects, the first failed
    request is followed by the exception of the sleep. *)
Lemma loop_bad_delay base quote w a w1 msg :
  1 <= retry -> valid_delay retry_delay = false ->
  requests_get w api_key base quote = (a, w1) ->
  fetch_outcome base quote a = Raise (ForexScannerError msg) ->
  exists e,
    retry_loop requests_get os_sleep (attempts_allowed retry) api_key base quote
      retry retry_delay 0 w
    = Some (Raise e, w1, [EvGet api_key base quote a]) /\
    (e = OverflowError \/ e = ValueError (BadSleepLength retry_delay)).
Proof.
  intros Hretry Hdelay Hget Hout. unfold attempts_allowed.
  cbn [retry_loop]. unfold fetch_exchange_rate. rewrite Hget, Hout.
  replace (0 + 1 >? retry) with false by lia.
  destruct (time_sleep_invalid os_sleep retry_delay w1 Hdelay) as (e & -> & He).
  now exists e.
Qed.

Lemma requests_of_bound n pairs : forall counts,
  (length counts <= length pairs)%nat ->
  Forall (fun k => (1 <= k <= S n)%nat) counts ->
  (length (requests_of pairs counts) <= length pairs * S n)%nat /\
  (length (requests_of pairs counts) - length counts <= length pairs * n)%nat.
Proof.
  induction pairs as [|p pairs IH]; intros [|k counts] Hlen Hall;
    cbn [length] in *; try rewrite requests_of_nil_r; cbn [length];
    try (split; lia).
  rewrite requests_of_cons, length_app, repeat_length.
  inversion Hall as [|? ? Hk Hrest]; subst.
  destruct (IH counts ltac:(lia) Hrest) as [H1 H2].
  assert (length counts <= length (requests_of pairs counts))%nat.
  { apply requests_of_length; [lia|].
    eapply Forall_impl; [|exact Hrest]. cbn. lia. }
  split; nia.
Qed.

Lemma run_scanner_events pairs w r w' evs :
  run_scanner requests_get os_sleep pairs (Some api_key) retry retry_delay w
  = Some (r, w', evs) ->
  Forall (event_allowed api_key pairs retry_delay) evs.
Proof.
  unfold run_scanner. destruct (PyStr.is_empty api_key).
  - intros [= _ _ <-]. constructor.
  - apply scan_loop_events.
Qed.

End RunScannerMore.

(** X8. Only a [ForexScannerError] is retried.  When a request comes
    back with any other exception (a body that is not JSON, a body that is
    no object), the run ends with that exception after this single request,
    whatever the retry budget and the delay: no wait, no second request,
    and no pair after it is requested. *)
Theorem run_scanner_uncaught_not_retried {W : Type}
    (requests_get : W -> string -> string -> string -> answer * W)
    (os_sleep : W -> Z -> bool)
    (api_key : string) (retry : Z) (retry_delay : pyfloat)
    (pre post : list (string * string)) (base quote : string)
    (w0 w w1 : W) (rates : list ExchangeRate) (evs0 : list event)
    (a : answer) (e : exn) :
  run_scanner requests_get os_sleep pre (Some api_key) retry retry_delay w0
  = Some (Ok rates, w, evs0) ->
  requests_get w api_key base quote = (a, w1) ->
  fetch_outcome base quote a = Raise e ->
  (forall msg, e <> ForexScannerError msg) ->
  run_scanner requests_get os_sleep (pre ++ (base, quote) :: post) (Some api_key)
    retry retry_delay w0
  = Some (Raise e, w1, evs0 ++ [EvGet api_key base quote a]).
Proof.
  unfold run_scanner. destruct (PyStr.is_empty api_key); [discriminate|].
  intros Hpre Hget Hout Hraw.
  rewrite scan_loop_app, Hpre, scan_loop_cons.
  unfold attempts_allowed.
  now rewrite (loop_uncaught _ _ _ _ _ _ _ _ _ _ _ _ _ Hget Hout Hraw).
Qed.

Lemma run_scanner_uncaught_not_retried_witness :
  run_scanner scripted os_accepts ([("EUR", "USD")] ++ ("GBP", "USD") :: [("USD", "JPY")])
    (Some "key") 5 (FFin 2)
    [ok_body "1.5"; inr (mkResponse 200 None); ok_body "150"]
  = Some (Raise JSONDecodeError, [ok_body "150"],
          [EvGet "key" "EUR" "USD" (ok_body "1.5")] ++
          [EvGet "key" "GBP" "USD" (inr (mkResponse 200 None))]).
Proof.
  apply (run_scanner_uncaught_not_retried scripted os_accepts "key" 5 (FFin 2)
           [("EUR", "USD")] [("USD", "JPY")] "GBP" "USD"
           [ok_body "1.5"; inr (mkResponse 200 None); ok_body "150"]
           [inr (mkResponse 200 None); ok_body "150"] [ok_body "150"]
           [mkExchangeRate (JStr "EUR") (JStr "USD") (FFin (3 # 2))
              (JStr "2024-05-01 15:35:00") None None]);
    [reflexivity | reflexivity | reflexivity | discriminate].
Defined.

(** X9. The cost of a batch is bounded: with a budget [retry >= 0], a
    run makes at most [len(pairs) * (retry + 1)] requests and at most
    [len(pairs) * retry] waits. *)
Theorem run_scanner_cost_bound {W : Type}
    (requests_get : W -> string -> string -> string -> answer * W)
    (os_sleep : W -> Z -> bool)
    (pairs : list (string * string)) (api_key : option string)
    (retry : Z) (retry_delay : pyfloat) (w w' : W)
    (r : result (list ExchangeRate)) (evs : list event) :
  0 <= retry ->
  run_scanner requests_get os_sleep pairs api_key retry retry_delay w = Some (r, w', evs) ->
  Z.of_nat (length (gets evs)) <= Z.of_nat (length pairs) * (retry + 1) /\
  Z.of_nat (length (sleeps evs)) <= Z.of_nat (length pairs) * retry.
Proof.
  intros Hretry. unfold run_scanner.
  assert (Hnone : Some (Raise (ForexScannerError MissingApiKey), w, [])
                  = Some (r, w', evs) ->
                  Z.of_nat (length (gets evs)) <= Z.of_nat (length pairs) * (retry + 1) /\
                  Z.of_nat (length (sleeps evs)) <= Z.of_nat (length pairs) * retry).
  { intros [= _ _ <-]. cbn. split; nia. }
  destruct api_key as [key|]; [|exact Hnone].
  destruct (PyStr.is_empty key); [exact Hnone|].
  intros Hrun.
  destruct (scan_loop_requests _ _ _ _ _ _ _ _ _ _ _ Hrun)
    as (counts & Hlen & Hall & Hgets & Hsleeps & _).
  destruct (requests_of_bound (Z.to_nat retry) pairs counts Hlen Hall) as [H1 H2].
  rewrite Hsleeps, repeat_length, Hgets. split; nia.
Qed.

Lemma run_scanner_cost_bound_witness :
  Z.of_nat (length (gets [EvGet "key" "EUR" "USD" note_body; EvSleep (FFin 2);
                          EvGet "key" "EUR" "USD" server_error]))
  <= Z.of_nat (length [("EUR", "USD"); ("GBP", "USD")]) * (1 + 1) /\
  Z.of_nat (length (sleeps [EvGet "key" "EUR" "USD" note_body; EvSleep (FFin 2);
                            EvGet "key" "EUR" "USD" server_error]))
  <= Z.of_nat (length [("EUR", "USD"); ("GBP", "USD")]) * 1.
Proof.
  exact (run_scanner_cost_bound scripted os_accepts [("EUR", "USD"); ("GBP", "USD")]
           (Some "key") 1 (FFin 2) [note_body; server_error; ok_body "1"]
           [ok_body "1"]
           (Raise (ForexScannerError (NetworkError "EUR" "USD" (HTTPError 503))))
           _ ltac:(lia) eq_refl).
Defined.

(** X10. A run never requests anything but the pairs of its batch, never
    sends another credential than the one it was given, and never waits
    for another length than [retry_delay]. *)
Theorem run_scanner_events_allowed {W : Type}
    (requests_get : W -> string -> string -> string -> answer * W)
    (os_sleep : W -> Z -> bool)
    (pairs : list (string * string)) (api_key : string)
    (retry : Z) (retry_delay : pyfloat) (w w' : W)
    (r : result (list ExchangeRate)) (evs : list event) :
  run_scanner requests_get os_sleep pairs (Some api_key) retry retry_delay w
  = Some (r, w', evs) ->
  Forall (event_allowed api_key pairs retry_delay) evs.
Proof. apply run_scanner_events. Qed.

Lemma run_scanner_events_allowed_witness :
  Forall (event_allowed "key" [("EUR", "USD"); ("GBP", "USD")] (FFin 2))
    [EvGet "key" "EUR" "USD" note_body; EvSleep (FFin 2);
     EvGet "key" "EUR" "USD" (ok_body "1.5");
     EvGet "key" "GBP" "USD" (ok_body "1.2")].
Proof.
  exact (run_scanner_events_allowed scripted os_accepts [("EUR", "USD"); ("GBP", "USD")]
           "key" 1 (FFin 2) [note_body; ok_body "1.5"; ok_body "1.2"] [] _ _
           eq_refl).
Defined.

(** X11. A batch is run as its beginning followed by its end: when the
    beginning succeeds, the end is run from the state the beginning left,
    the records and the events are concatenated; when the beginning raises,
    the end is not run at all. *)
Theorem run_scanner_app {W : Type}
    (requests_get : W -> string -> string -> string -> answer * W)
    (os_sleep : W -> Z -> bool)
    (pre post : list (string * string)) (api_key : option string)
    (retry : Z) (retry_delay : pyfloat) (w : W) :
  run_scanner requests_get os_sleep (pre ++ post) api_key retry retry_delay w =
    match run_scanner requests_get os_sleep pre api_key retry retry_delay w with
    | Some (Ok rates1, w1, evs1) =>
        match run_scanner requests_get os_sleep post api_key retry retry_delay w1 with
        | Some (Ok rates2, w2, evs2) => Some (Ok (rates1 ++ rates2), w2, evs1 ++ evs2)
        | Some (Raise e, w2, evs2) => Some (Raise e, w2, evs1 ++ evs2)
        | None => None
        end
    | other => other
    end.
Proof.
  unfold run_scanner. destruct api_key as [key|]; [|reflexivity].
  destruct (PyStr.is_empty key); [reflexivity|].
  rewrite scan_loop_app.
  destruct (scan_loop requests_get os_sleep key retry retry_delay pre [] w)
    as [[[[rates1|e] w1] evs1]|]; try reflexivity.
  rewrite scan_loop_acc.
  now destruct (scan_loop requests_get os_sleep key retry retry_delay post [] w1)
    as [[[[rates2|e] w2] evs2]|].
Qed.

(** X12. [run_scanner] does not check its delay.  Called with a budget
    of at least one retry and a delay [time.sleep] rejects (negative, NaN,
    infinite, or beyond the 64-bit range of nanoseconds), it ends after the first failed request with the exception
    of the sleep, a [ValueError] or an [OverflowError], and not with the
    error of the request. *)
Theorem run_scanner_bad_delay {W : Type}
    (requests_get : W -> string -> string -> string -> answer * W)
    (os_sleep : W -> Z -> bool)
    (api_key : string) (retry : Z) (retry_delay : pyfloat)
    (base quote : string) (rest : list (string * string))
    (w w1 : W) (a : answer) (msg : scanner_error) :
  PyStr.is_empty api_key = false ->
  1 <= retry -> valid_delay retry_delay = false ->
  requests_get w api_key base quote = (a, w1) ->
  fetch_outcome base quote a = Raise (ForexScannerError msg) ->
  exists e,
    run_scanner requests_get os_sleep ((base, quote) :: rest) (Some api_key)
      retry retry_delay w
    = Some (Raise e, w1, [EvGet api_key base quote a]) /\
    (e = OverflowError \/ e = ValueError (BadSleepLength retry_delay)).
Proof.
  intros Hkey Hretry Hdelay Hget Hout. unfold run_scanner. rewrite Hkey.
  rewrite scan_loop_cons.
  destruct (loop_bad_delay requests_get os_sleep api_key retry retry_delay base quote
              w a w1 msg Hretry Hdelay Hget Hout) as (e & -> & He).
  now exists e.
Qed.

Lemma run_scanner_bad_delay_witness :
  exists e,
    run_scanner scripted os_accepts [("EUR", "USD"); ("GBP", "USD")] (Some "key") 3 (FFin (-1))
      [note_body; ok_body "1.5"]
    = Some (Raise e, [ok_body "1.5"], [EvGet "key" "EUR" "USD" note_body]) /\
    (e = OverflowError \/ e = ValueError (BadSleepLength (FFin (-1)))).
Proof.
  exact (run_scanner_bad_delay scripted os_accepts "key" 3 (FFin (-1)) "EUR" "USD"
           [("GBP", "USD")] [note_body; ok_body "1.5"] [ok_body "1.5"] note_body
           (ApiLimit (JStr "rate limit") "EUR" "USD")
           eq_refl ltac:(lia) eq_refl eq_refl eq_refl).
Defined.

(** X13. Against a provider whose answer to every request for a pair of
    the batch is a record, a run requests each pair exactly once, in order,
    never waits, and returns one record per pair, whatever the retry budget
    and the delay. *)
Theorem run_scanner_healthy_provider {W : Type}
    (requests_get : W -> string -> string -> string -> answer * W)
    (os_sleep : W -> Z -> bool)
    (pairs : list (string * string)) (api_key : string)
    (retry : Z) (retry_delay : pyfloat) (w : W) :
  PyStr.is_empty api_key = false ->
  (forall w base quote,
      In (base, quote) pairs ->
      exists rate,
        fetch_outcome base quote (fst (requests_get w api_key base quote)) = Ok rate) ->
  exists rates w' evs,
    run_scanner requests_get os_sleep pairs (Some api_key) retry retry_delay w
    = Some (Ok rates, w', evs) /\
    gets evs = pairs /\ sleeps evs = [] /\ length rates = length pairs.
Proof.
  intros Hkey Hhealthy. unfold run_scanner. rewrite Hkey.
  assert (Hscan : forall results w,
             exists rs w' evs,
               scan_loop requests_get os_sleep api_key retry retry_delay pairs results w
               = Some (Ok (results ++ rs), w', evs) /\
               gets evs = pairs /\ sleeps evs = [] /\ length rs = length pairs).
  { clear w. induction pairs as [|[base quote] rest IH]; intros results w.
    - exists [], w, []. rewrite app_nil_r. now repeat split.
    - rewrite scan_loop_cons.
      destruct (Hhealthy w base quote (or_introl eq_refl)) as [rate Hrate].
      destruct (requests_get w api_key base quote) as [a w1] eqn:Hget.
      cbn [fst] in Hrate. unfold attempts_allowed.
      rewrite (loop_first_success _ _ _ _ _ _ _ _ _ _ _ _ _ Hget Hrate).
      destruct (IH (fun w b q Hin => Hhealthy w b q (or_intror Hin))
                  (results ++ [rate]) w1)
        as (rs & w' & evs & -> & Hgets & Hsleeps & Hlen).
      exists (rate :: rs), w', (EvGet api_key base quote a :: evs).
      rewrite <- app_assoc. cbn [app].
      rewrite gets_get, sleeps_get, Hgets, Hsleeps. cbn [length].
      now rewrite Hlen. }
  destruct (Hscan [] w) as (rs & w' & evs & Hrun & H).
  now exists rs, w', evs.
Qed.

Lemma run_scanner_healthy_provider_witness :
  exists rates w' evs,
    run_scanner (fun (w : unit) (_ _ _ : string) => (ok_body "1.25", w)) os_accepts
      [("EUR", "USD"); ("GBP", "USD")] (Some "key") 4 FNan tt
    = Some (Ok rates, w', evs) /\
    gets evs = [("EUR", "USD"); ("GBP", "USD")] /\ sleeps evs = [] /\
    length rates = length [("EUR", "USD"); ("GBP", "USD")].
Proof.
  apply (run_scanner_healthy_provider
           (fun (w : unit) (_ _ _ : string) => (ok_body "1.25", w)) os_accepts
           [("EUR", "USD"); ("GBP", "USD")] "key" 4 FNan tt eq_refl).
  intros w base quote _. eexists. vm_compute. reflexivity.
Defined.

(* ================================================================= *)
(** ** [load_demo_data]: which pairs it serves *)

Section DemoTable.
Import PyStr PyStrFacts.

(** A rendering "base/quote" with a single "/" determines the pair. *)
Lemma pair_key_inj base quote base' quote' :
  contains "/" base' = false -> contains "/" quote' = false ->
  pair_key (base, quote) = pair_key (base', quote') ->
  (base, quote) = (base', quote').
Proof.
  unfold pair_key. cbn [fst snd].
  change (fun s t => (s ++ "/" ++ t)%string)
    with (fun s t => (s ++ String "/" t)%string).
  intros Hb' Hq'. revert base'  Hb'.
  induction base as [|c base IH]; intros [|c' base'] Hb'; cbn.
  - now intros [= ->].
  - intros [= <- _]. cbn in Hb'. discriminate.
  - intros [= -> H]. rewrite <- H, contains_append in Hq'. cbn in Hq'.
    rewrite orb_true_r in Hq'. discriminate.
  - intros [= -> H]. cbn in Hb'. apply orb_false_elim in Hb' as [_ Hb'].
    now injection (IH _ Hb' H) as -> ->.
Qed.

(** The table, entry by entry: its keys are [DEFAULT_PAIRS], and the
    record of a key carries the codes of the pair the key renders. *)
Lemma demo_lookup p :
  match Py.lookup (pair_key p) demo_payload with
  | Some entry =>
      In (pair_key p) DEFAULT_PAIRS /\
      exists r, from_api entry = Ok r /\
                from_currency r = JStr (fst p) /\ to_currency r = JStr (snd p)
  | None => ~ In (pair_key p) DEFAULT_PAIRS
  end.
Proof.
  destruct p as [base quote].
  assert (Hkey : forall b q,
             String.eqb (pair_key (b, q)) (pair_key (base, quote)) = true ->
             contains "/" b = false -> contains "/" q = false ->
             (base, quote) = (b, q)).
  { intros b q H Hb Hq. apply String.eqb_eq in H. symmetry in H.
    exact (pair_key_inj _ _ _ _ Hb Hq H). }
  unfold demo_payload, DEFAULT_PAIRS. cbn [Py.lookup].
  destruct (String.eqb "EUR/USD" _) eqn:E1.
  { injection (Hkey "EUR" "USD" E1 eq_refl eq_refl) as -> ->.
    split; [cbn; auto|]. eexists. repeat split. }
  destruct (String.eqb "GBP/USD" _) eqn:E2.
  { injection (Hkey "GBP" "USD" E2 eq_refl eq_refl) as -> ->.
    split; [cbn; auto|]. eexists. repeat split. }
  destruct (String.eqb "USD/JPY" _) eqn:E3.
  { injection (Hkey "USD" "JPY" E3 eq_refl eq_refl) as -> ->.
    split; [cbn; auto|]. eexists. repeat split. }
  destruct (String.eqb "USD/CHF" _) eqn:E4.
  { injection (Hkey "USD" "CHF" E4 eq_refl eq_refl) as -> ->.
    split; [cbn; auto|]. eexists. repeat split. }
  destruct (String.eqb "AUD/USD" _) eqn:E5.
  { injection (Hkey "AUD" "USD" E5 eq_refl eq_refl) as -> ->.
    split; [cbn; auto 6|]. eexists. repeat split. }
  apply String.eqb_neq in E1, E2, E3, E4, E5.
  cbn. intuition congruence.
Qed.

Lemma load_demo_loop_served pairs : forall results,
  Forall (fun p => In (pair_key p) DEFAULT_PAIRS) pairs ->
  exists rs,
    load_demo_loop pairs results = Ok (results ++ rs) /\
    Forall2 (fun p r => from_currency r = JStr (fst p) /\
                        to_currency r = JStr (snd p)) pairs rs.
Proof.
  induction pairs as [|p pairs IH]; intros results Hall.
  - exists []. cbn. now rewrite app_nil_r.
  - inversion Hall as [|? ? Hp Hrest]; subst. cbn [load_demo_loop].
    pose proof (demo_lookup p) as Hlook.
    destruct (Py.lookup (pair_key p) demo_payload) as [entry|]; [|contradiction].
    destruct Hlook as (_ & r & -> & Hfrom & Hto). cbn [bind].
    destruct (IH (results ++ [r]) Hrest) as (rs & -> & Hlabels).
    exists (r :: rs). rewrite <- app_assoc. split; [reflexivity|].
    now constructor.
Qed.

Lemma load_demo_loop_unserved pre p post : forall results,
  Forall (fun p => In (pair_key p) DEFAULT_PAIRS) pre ->
  ~ In (pair_key p) DEFAULT_PAIRS ->
  load_demo_loop (pre ++ p :: post) results
  = Raise (ForexScannerError (DemoUnavailable (pair_key p))).
Proof.
  induction pre as [|p0 pre IH]; intros results Hall Hp; cbn [app load_demo_loop].
  - pose proof (demo_lookup p) as Hlook.
    destruct (Py.lookup (pair_key p) demo_payload); [|reflexivity].
    now destruct Hlook.
  - inversion Hall as [|? ? Hp0 Hrest]; subst.
    pose proof (demo_lookup p0) as Hlook.
    destruct (Py.lookup (pair_key p0) demo_payload) as [entry|]; [|contradiction].
    destruct Hlook as (_ & r & -> & _). cbn [bind]. now apply IH.
Qed.

End DemoTable.

(** X14. The demo table serves exactly the pairs of [DEFAULT_PAIRS].
    When the rendering of every pair of the batch is one of them,
    [load_demo_data] returns one record per pair, in order, each carrying
    the codes of its pair (a pair may occur several times).  Otherwise it
    fails with the demo-pair-unavailable error for the first pair that is
    not served, whatever follows it. *)
Theorem load_demo_data_serves_default_pairs (pairs : list (string * string)) :
  (Forall (fun p => In (pair_key p) DEFAULT_PAIRS) pairs ->
   exists rates,
     load_demo_data pairs = Ok rates /\
     Forall2 (fun p r => from_currency r = JStr (fst p) /\
                         to_currency r = JStr (snd p)) pairs rates) /\
  (forall pre p post,
      pairs = pre ++ p :: post ->
      Forall (fun p => In (pair_key p) DEFAULT_PAIRS) pre ->
      ~ In (pair_key p) DEFAULT_PAIRS ->
      load_demo_data pairs = Raise (ForexScannerError (DemoUnavailable (pair_key p)))).
Proof.
  unfold load_demo_data. split.
  - intros Hall. destruct (load_demo_loop_served pairs [] Hall) as (rs & H & Hl).
    now exists rs.
  - intros pre p post -> Hpre Hp. now apply load_demo_loop_unserved.
Qed.

Lemma load_demo_data_serves_default_pairs_witness :
  (exists rates,
      load_demo_data [("USD", "JPY"); ("EUR", "USD"); ("USD", "JPY")] = Ok rates /\
      Forall2 (fun p r => from_currency r = JStr (fst p) /\
                          to_currency r = JStr (snd p))
        [("USD", "JPY"); ("EUR", "USD"); ("USD", "JPY")] rates) /\
  load_demo_data [("EUR", "USD"); ("usd", "jpy"); ("XAU", "USD")]
  = Raise (ForexScannerError (DemoUnavailable "usd/jpy")).
Proof.
  split.
  - apply (load_demo_data_serves_default_pairs
             [("USD", "JPY"); ("EUR", "USD"); ("USD", "JPY")]).
    repeat apply Forall_cons; try apply Forall_nil; cbn; auto 8.
  - apply (proj2 (load_demo_data_serves_default_pairs
                    [("EUR", "USD"); ("usd", "jpy"); ("XAU", "USD")])
             [("EUR", "USD")] ("usd", "jpy") [("XAU", "USD")] eq_refl).
    + repeat apply Forall_cons; try apply Forall_nil; cbn; auto 8.
    + cbn. intuition discriminate.
Defined.

(* ================================================================= *)
(** ** [main]: when it talks to the provider, and with which credential *)

(** X15. [main] makes a request or waits only in a live run whose raw
    pairs all parse and for which a non-empty credential is available: a
    demo run, a run with a malformed pair and a run without a credential
    leave the provider alone. *)
Theorem main_requests_only_when {W : Type}
    (requests_get : W -> string -> string -> string -> answer * W)
    (os_sleep : W -> Z -> bool)
    (env_api_key : option string) (args : arguments) (w w' : W)
    (r : result (list ExchangeRate)) (evs : list event) :
  main_rates requests_get os_sleep env_api_key args w = Some (r, w', evs) ->
  evs <> [] ->
  arg_demo args = false /\
  (exists pairs, parse_pairs (arg_pairs args) = Ok pairs /\ pairs <> []) /\
  (exists key, chosen_api_key args env_api_key = Some key /\
               PyStr.is_empty key = false).
Proof.
  unfold main_rates, ebind, lift, chosen_api_key.
  destruct (parse_pairs (arg_pairs args)) as [pairs|e];
    [|intros [= _ _ <-]; contradiction].
  destruct (arg_demo args); [intros [= _ _ <-]; contradiction|].
  unfold run_scanner.
  destruct (Py.or (arg_api_key args) env_api_key) as [key|];
    [|intros [= _ _ <-]; contradiction].
  destruct (PyStr.is_empty key) eqn:Hkey; [intros [= _ _ <-]; contradiction|].
  destruct pairs as [|p pairs]; [intros [= _ _ <-]; contradiction|].
  intros _ _. repeat split.
  - now exists (p :: pairs).
  - now exists key.
Qed.

Lemma main_requests_only_when_witness :
  arg_demo (mkArguments ["eur-usd"] (Some "") 0 (FFin 5) false) = false /\
  (exists pairs,
      parse_pairs (arg_pairs (mkArguments ["eur-usd"] (Some "") 0 (FFin 5) false))
      = Ok pairs /\ pairs <> []) /\
  (exists key,
      chosen_api_key (mkArguments ["eur-usd"] (Some "") 0 (FFin 5) false)
        (Some "envkey") = Some key /\
      PyStr.is_empty key = false).
Proof.
  apply (main_requests_only_when scripted os_accepts (Some "envkey")
           (mkArguments ["eur-usd"] (Some "") 0 (FFin 5) false)
           [ok_body "1.5"] [] _ [EvGet "envkey" "EUR" "USD" (ok_body "1.5")] eq_refl).
  discriminate.
Defined.



(* ================================================================= *)
(** ** [render_table]: the shape of the table *)

Section TextFacts.
Import Text.

Lemma length_append s t :
  String.length (s ++ t)%string = (String.length s + String.length t)%nat.
Proof. induction s as [|c s IH]; cbn; [reflexivity | now rewrite IH]. Qed.

Lemma length_repeat_char c n : String.length (repeat_char c n) = n.
Proof. induction n as [|n IH]; cbn; [reflexivity | now rewrite IH]. Qed.

(** Padding never shortens and never cuts. *)
Lemma length_ljust s width :
  String.length (ljust s width) = Nat.max (String.length s) width.
Proof. unfold ljust. rewrite length_append, length_repeat_char. lia. Qed.

Lemma fold_max_le xs : forall x,
  (x <= fold_left Nat.max xs x)%nat /\
  Forall (fun y => (y <= fold_left Nat.max xs x)%nat) xs.
Proof.
  induction xs as [|y xs IH]; intros x; cbn; [split; [lia | constructor]|].
  destruct (IH (Nat.max x y)) as [H1 H2]. split; [lia|].
  constructor; [lia | exact H2].
Qed.

Lemma max_or_upper d xs : Forall (fun y => (y <= max_or d xs)%nat) xs.
Proof.
  destruct xs as [|x xs]; cbn; [constructor|].
  destruct (fold_max_le xs x) as [H1 H2]. now constructor.
Qed.

End TextFacts.

Section RenderFacts.
Import Text.

Variable str_of : json -> string.
Variable aligned_number : json -> string.
Variable fixed6 : pyfloat -> string.
Variable placeholder : string.

Local Abbreviation label := (pair_label str_of).
Local Abbreviation width := (pair_width str_of).
Local Abbreviation row_of := (render_row str_of aligned_number fixed6 placeholder).
Local Abbreviation rows_of := (render_rows str_of aligned_number fixed6 placeholder).
Local Abbreviation table := (render_table str_of aligned_number fixed6 placeholder).
Local Abbreviation fit := (cells_fit aligned_number fixed6 placeholder).

Lemma pair_width_bounds data :
  (4 <= width data)%nat /\
  Forall (fun item => (String.length (label item) <= width data)%nat) data.
Proof.
  unfold pair_width. split; [lia|].
  pose proof (max_or_upper 4 (map (fun item => String.length (label item)) data)) as H.
  apply Forall_map in H. eapply Forall_impl; [|exact H].
  intros item Hitem. eapply Nat.le_trans; [exact Hitem | apply Nat.le_max_r].
Qed.



Lemma length_format_price value w :
  String.length (format_price fixed6 placeholder value w)
  = Nat.max (String.length (price_text fixed6 placeholder value)) w.
Proof. destruct value; cbn; apply length_ljust. Qed.

Lemma format_left_text v w :
  format_left aligned_number v w =
    match refreshed_text aligned_number v with
    | Some text => Ok (ljust text w)
    | None => Raise TypeError
    end.
Proof. now destruct v. Qed.

Lemma render_row_shape w item :
  (String.length (label item) <= w)%nat ->
  match row_of w item with
  | Ok row =>
      refreshed_text aligned_number (last_refreshed item) <> None /\
      (exists rest, row = (ljust (label item) w ++ " | " ++ rest)%string) /\
      (w + 67 <= String.length row)%nat /\
      (String.length row = (w + 67)%nat <-> fit item)
  | Raise e =>
      e = TypeError /\ refreshed_text aligned_number (last_refreshed item) = None
  end.
Proof.
  intros Hlabel. unfold render_row, cells_fit. rewrite format_left_text.
  destruct (refreshed_text aligned_number (last_refreshed item)) as [text|];
    cbn [bind]; [|now split].
  split; [discriminate|]. split; [eexists; reflexivity|].
  cbn [join]. rewrite !length_append, !length_ljust, !length_format_price.
  cbn [String.length]. split; [lia|]. split; [intros H; repeat split; lia|].
  intros (H1 & H2 & H3 & H4). lia.
Qed.


Lemma render_rows_raise w data : forall acc e,
  Forall (fun item => (String.length (label item) <= w)%nat) data ->
  rows_of w data acc = Raise e ->
  e = TypeError /\
  Exists (fun item => refreshed_text aligned_number (last_refreshed item) = None) data.
Proof.
  induction data as [|item data IH]; intros acc e Hall; cbn [render_rows];
    [discriminate|].
  inversion Hall as [|? ? Hitem Hrest]; subst.
  pose proof (render_row_shape w item Hitem) as Hrow.
  destruct (row_of w item) as [row|e']; cbn [bind].
  - intros H. destruct (IH _ _ Hrest H) as [-> Hex]. split; [reflexivity|].
    now apply Exists_cons_tl.
  - intros [= <-]. destruct Hrow as [-> Hnone]. split; [reflexivity|].
    now apply Exists_cons_hd.
Qed.

Lemma render_table_raises data e :
  table data = Raise e ->
  e = TypeError /\
  Exists (fun item => refreshed_text aligned_number (last_refreshed item) = None) data.
Proof.
  unfold render_table.
  destruct (rows_of (width data) data []) as [rows|e'] eqn:E; [discriminate|].
  intros [= <-].
  exact (render_rows_raise _ data [] e' (proj2 (pair_width_bounds data)) E).
Qed.

End RenderFacts.




(** X18. [render_table] fails only with a [TypeError], and exactly when
    the last-refreshed value of some record is [None], a list or an object;
    for records whose last-refreshed value is a string it always returns a
    table. *)
Theorem render_table_failure
    (str_of aligned_number : json -> string) (fixed6 : pyfloat -> string)
    (placeholder : string) (data : list ExchangeRate) :
  (Forall (fun item => refreshed_text aligned_number (last_refreshed item) <> None)
     data ->
   exists text, render_table str_of aligned_number fixed6 placeholder data = Ok text) /\
  (forall e,
      render_table str_of aligned_number fixed6 placeholder data = Raise e ->
      e = TypeError /\
      Exists (fun item => refreshed_text aligned_number (last_refreshed item) = None)
        data) /\
  (Forall (fun item => exists s, last_refreshed item = JStr s) data ->
   exists text, render_table str_of aligned_number fixed6 placeholder data = Ok text).
Proof.
  pose proof (render_table_raises str_of aligned_number fixed6 placeholder data)
    as Hraise.
  assert (Hok : Forall (fun item =>
                          refreshed_text aligned_number (last_refreshed item) <> None)
                  data ->
                exists text,
                  render_table str_of aligned_number fixed6 placeholder data = Ok text).
  { intros Hall.
    destruct (render_table str_of aligned_number fixed6 placeholder data)
      as [text|e] eqn:E; [now exists text|].
    destruct (Hraise e eq_refl) as [_ Hex].
    apply Exists_exists in Hex as (item & Hin & Hnone).
    rewrite Forall_forall in Hall. now destruct (Hall item Hin). }
  split; [exact Hok|]. split; [exact Hraise|].
  intros Hall. apply Hok. eapply Forall_impl; [|exact Hall].
  intros item [s ->]. discriminate.
Qed.

Lemma render_table_failure_witness :
  exists text,
    render_table (fun _ => "?") (fun _ => "?") (fun _ => "1.500000") "---"
      [mkExchangeRate (JStr "EUR") (JStr "USD") (FFin (3 # 2))
         (JStr "2024-05-01 15:35:00") None None] = Ok text.
Proof.
  apply (render_table_failure (fun _ => "?") (fun _ => "?") (fun _ => "1.500000")
           "---").
  repeat constructor. now exists "2024-05-01 15:35:00".
Defined.

(* ================================================================= *)
(** ** [main]: exit status, output and snapshot *)

Section MainFacts.

Variable str_of : json -> string.
Variable aligned_number : json -> string.
Variable fixed6 : pyfloat -> string.
Variable placeholder : string.
Context {W : Type}.
Variable requests_get : W -> string -> string -> string -> answer * W.
Variable os_sleep : W -> Z -> bool.
Variable env_api_key : option string.
Variable clock : string.
Variable writable : string -> bool.

Local Abbreviation the_report :=
  (report str_of aligned_number fixed6 placeholder clock writable).
Local Abbreviation the_main :=
  (main str_of aligned_number fixed6 placeholder requests_get os_sleep env_api_key
     clock writable).

(** [main] is [main_rates] followed by the handler or by [report]. *)
Lemma main_unfold cli w :
  the_main cli w =
    match main_rates requests_get os_sleep env_api_key (cli_args cli) w with
    | None => None
    | Some (Raise e, w', evs) =>
        let (status, acts) := on_exception e in Some (status, w', evs, acts)
    | Some (Ok rates, w', evs) =>
        match parse_pairs (arg_pairs (cli_args cli)) with
        | Ok pairs =>
            let (status, acts) := the_report cli pairs rates in
            Some (status, w', evs, acts)
        | Raise e => None
        end
    end.
Proof.
  unfold main, main_rates, ebind, lift.
  destruct (parse_pairs (arg_pairs (cli_args cli))) as [pairs|e]; [|reflexivity].
  destruct (arg_demo (cli_args cli)).
  - destruct (load_demo_data pairs); reflexivity.
  - destruct (run_scanner _ _ _ _ _ _ w) as [[[[rates|e] w'] evs]|]; reflexivity.
Qed.

(** The rates of a run that has them: one per parsed pair. *)
Lemma main_rates_ok args w rates w' evs :
  main_rates requests_get os_sleep env_api_key args w = Some (Ok rates, w', evs) ->
  exists pairs,
    parse_pairs (arg_pairs args) = Ok pairs /\ length rates = length pairs.
Proof.
  unfold main_rates, ebind, lift.
  destruct (parse_pairs (arg_pairs args)) as [pairs|e]; [|discriminate].
  intros H. exists pairs. split; [reflexivity|]. revert H.
  destruct (arg_demo args).
  - unfold load_demo_data.
    destruct (load_demo_loop_outcome pairs []) as [(rs & -> & Hlen & _) | (p & _ & ->)];
      [|discriminate].
    now intros [= <- _ _].
  - unfold run_scanner.
    destruct (Py.or (arg_api_key args) env_api_key) as [key|]; [|discriminate].
    destruct (PyStr.is_empty key); [discriminate|].
    destruct (scan_loop _ _ _ _ _ pairs [] w) as [[[r2 w2] evs2]|] eqn:E;
      [|discriminate].
    intros [= -> _ _].
    now destruct (scan_loop_ok _ _ _ _ _ _ _ _ _ _ _ E) as (rs & -> & Hlen & _).
Qed.

(** What [report] can end with and show. *)
Lemma report_outcome cli pairs rates :
  exists printed,
    (printed = PrintJson (JArr (map (json_entry str_of) rates)) \/
     exists text, printed = PrintText text) /\
    (the_report cli pairs rates = (Uncaught TypeError, []) \/
     the_report cli pairs rates = (Returned 0, [printed]) \/
     exists path,
       cli_save cli = Some path /\ PyStr.is_empty path = false /\
       (writable path = true /\
        the_report cli pairs rates
        = (Returned 0, [printed; WriteJson path (snapshot clock pairs rates)]) \/
        writable path = false /\
        the_report cli pairs rates = (UncaughtOSError path, [printed]))).
Proof.
  unfold report.
  assert (Hsave : forall printed,
             exists outcome,
               outcome =
                 match cli_save cli with
                 | Some path =>
                     if PyStr.is_empty path then (Returned 0, [printed])
                     else
                       let (saved, written) :=
                         save_output writable path (snapshot clock pairs rates) in
                       (if saved then Returned 0 else UncaughtOSError path,
                        printed :: written)
                 | None => (Returned 0, [printed])
                 end /\
               (outcome = (Returned 0, [printed]) \/
                exists path,
                  cli_save cli = Some path /\ PyStr.is_empty path = false /\
                  (writable path = true /\
                   outcome
                   = (Returned 0, [printed; WriteJson path (snapshot clock pairs rates)]) \/
                   writable path = false /\ outcome = (UncaughtOSError path, [printed])))).
  { intros printed. eexists. split; [reflexivity|].
    destruct (cli_save cli) as [path|]; [|now left].
    destruct (PyStr.is_empty path) eqn:He; [now left|].
    right. exists path. split; [reflexivity|]. split; [exact He|].
    unfold save_output. destruct (writable path); [left | right]; now split. }
  destruct (cli_output cli).
  - destruct (render_table str_of aligned_number fixed6 placeholder rates)
      as [text|e] eqn:E; cbn [bind].
    + exists (PrintText text). split; [right; now exists text|].
      right. destruct (Hsave (PrintText text)) as (outcome & <- & H). exact H.
    + destruct (render_table_raises str_of aligned_number fixed6 placeholder
                  rates e E) as [-> _].
      exists (PrintText EmptyString). split; [right; now eexists|]. now left.
  - exists (PrintJson (JArr (map (json_entry str_of) rates))).
    split; [now left|]. right.
    destruct (Hsave (PrintJson (JArr (map (json_entry str_of) rates))))
      as (outcome & <- & H).
    exact H.
Qed.

End MainFacts.

(** X19. How [main] ends.  It returns 1 exactly when the fetching part
    raised a [ForexScannerError], and then the error line is all it shows:
    nothing is printed to standard output and no file is written.  Any
    other exception of the fetching part passes uncaught, with nothing
    shown.  When the rates were obtained, [main] returns 0 or ends with an
    exception of rendering or saving; it never returns another value than 0
    or 1, and shows no error line. *)
Theorem main_exit_status {W : Type}
    (str_of aligned_number : json -> string) (fixed6 : pyfloat -> string)
    (placeholder : string)
    (requests_get : W -> string -> string -> string -> answer * W)
    (os_sleep : W -> Z -> bool)
    (env_api_key : option string) (clock : string) (writable : string -> bool)
    (cli : cli_arguments) (w w' : W) (status : exit_status)
    (evs : list event) (acts : list action) :
  main str_of aligned_number fixed6 placeholder requests_get os_sleep env_api_key
    clock writable cli w = Some (status, w', evs, acts) ->
  exists r,
    main_rates requests_get os_sleep env_api_key (cli_args cli) w = Some (r, w', evs) /\
    match r with
    | Raise (ForexScannerError msg) =>
        status = Returned 1 /\ acts = [PrintError msg]
    | Raise e => status = Uncaught e /\ acts = []
    | Ok rates =>
        status <> Returned 1 /\
        (forall code, status = Returned code -> code = 0) /\
        Forall (fun a => forall msg, a <> PrintError msg) acts
    end.
Proof.
  rewrite main_unfold.
  destruct (main_rates requests_get os_sleep env_api_key (cli_args cli) w)
    as [[[[rates|e] w1] evs1]|] eqn:Hrates; [| |discriminate].
  - destruct (main_rates_ok _ _ _ _ _ _ _ _ Hrates) as (pairs & -> & _).
    destruct (report_outcome str_of aligned_number fixed6 placeholder clock
                writable cli pairs rates)
      as (printed & Hprinted & Hreport).
    assert (Hshown : forall msg, printed <> PrintError msg).
    { intros msg. destruct Hprinted as [-> | [text ->]]; discriminate. }
    intros H. exists (Ok rates).
    destruct Hreport as [Hr | [Hr | (path & _ & _ & [[_ Hr] | [_ Hr]])]];
      rewrite Hr in H; injection H as <- <- <- <-;
      (split; [reflexivity|]); (split; [discriminate|]);
      (split; [intros code [= <-]; reflexivity || discriminate
              | repeat constructor; try exact Hshown; discriminate]).
  - intros H. exists (Raise e). destruct e; cbn in H;
      injection H as <- <- <- <-; now split.
Qed.

Lemma main_exit_status_witness :
  exists r,
    main_rates scripted os_accepts None (mkArguments ["EURUSD"] None 1 (FFin 5) false) []
    = Some (r, [], []) /\
    match r with
    | Raise (ForexScannerError msg) =>
        Returned 1 = Returned 1 /\
        [PrintError (InvalidPairFormat "EURUSD")] = [PrintError msg]
    | Raise e => Returned 1 = Uncaught e /\ [PrintError (InvalidPairFormat "EURUSD")] = []
    | Ok rates =>
        Returned 1 <> Returned 1 /\
        (forall code, Returned 1 = Returned code -> code = 0) /\
        Forall (fun a => forall msg, a <> PrintError msg)
          [PrintError (InvalidPairFormat "EURUSD")]
    end.
Proof.
  exact (main_exit_status (fun _ => "?") (fun _ => "?") (fun _ => "1.500000") "---"
           scripted os_accepts None "2024-05-01T15:35:00Z" (fun _ => true)
           (mkCli (mkArguments ["EURUSD"] None 1 (FFin 5) false) OutTable None)
           [] [] (Returned 1) [] [PrintError (InvalidPairFormat "EURUSD")] eq_refl).
Defined.

(** X20. A snapshot is written only by a run that obtained its rates,
    showed them, was given a non-empty [--save] path that can be opened,
    and returns 0.  It is the last thing the run does, and the snapshot
    holds the clock's text, the labels of the parsed pairs and one entry
    per record, as many entries as pairs. *)
Theorem main_snapshot_written {W : Type}
    (str_of aligned_number : json -> string) (fixed6 : pyfloat -> string)
    (placeholder : string)
    (requests_get : W -> string -> string -> string -> answer * W)
    (os_sleep : W -> Z -> bool)
    (env_api_key : option string) (clock : string) (writable : string -> bool)
    (cli : cli_arguments) (w w' : W) (status : exit_status)
    (evs : list event) (acts : list action) (path : string) (payload : json) :
  main str_of aligned_number fixed6 placeholder requests_get os_sleep env_api_key
    clock writable cli w = Some (status, w', evs, acts) ->
  In (WriteJson path payload) acts ->
  status = Returned 0 /\
  cli_save cli = Some path /\ PyStr.is_empty path = false /\ writable path = true /\
  exists pairs rates printed,
    parse_pairs (arg_pairs (cli_args cli)) = Ok pairs /\
    main_rates requests_get os_sleep env_api_key (cli_args cli) w = Some (Ok rates, w', evs) /\
    length rates = length pairs /\
    payload = snapshot clock pairs rates /\
    acts = [printed; WriteJson path payload].
Proof.
  rewrite main_unfold.
  destruct (main_rates requests_get os_sleep env_api_key (cli_args cli) w)
    as [[[[rates|e] w1] evs1]|] eqn:Hrates; [| |discriminate].
  - destruct (main_rates_ok _ _ _ _ _ _ _ _ Hrates) as (pairs & Hpairs & Hlen).
    rewrite Hpairs.
    destruct (report_outcome str_of aligned_number fixed6 placeholder clock
                writable cli pairs rates)
      as (printed & Hprinted & Hreport).
    assert (Hother : forall p q, printed <> WriteJson p q).
    { intros p q. destruct Hprinted as [-> | [text ->]]; discriminate. }
    intros H Hin.
    destruct Hreport as [Hr | [Hr | (path' & Hsave & Hne & [[Hw Hr] | [_ Hr]])]];
      rewrite Hr in H; injection H as <- <- <- <-.
    + destruct Hin.
    + destruct Hin as [Hin | []]. now destruct (Hother path payload).
    + destruct Hin as [Hin | [Hin | []]]; [now destruct (Hother path payload)|].
      injection Hin as <- <-.
      repeat split; try assumption.
      exists pairs, rates, printed. now repeat split.
    + destruct Hin as [Hin | []]. now destruct (Hother path payload).
  - intros H Hin. destruct e; cbn in H; injection H as <- <- <- <-;
      try destruct Hin as [Hin | []]; try discriminate; destruct Hin.
Qed.

Lemma main_snapshot_written_witness :
  Returned 0 = Returned 0 /\
  Some "out.json" = Some "out.json" /\
  PyStr.is_empty "out.json" = false /\ true = true /\
  exists pairs rates printed,
    parse_pairs ["usd/jpy"] = Ok pairs /\
    main_rates scripted os_accepts None (mkArguments ["usd/jpy"] None 1 (FFin 5) true) []
    = Some (Ok rates, [], []) /\
    length rates = length pairs /\
    snapshot "2024-05-01T15:35:00Z" [("USD", "JPY")]
      [mkExchangeRate (JStr "USD") (JStr "JPY") (FFin (2723622243396485 # 17592186044416))
         (JStr "2024-05-01 15:35:00") (Some (FFin (5445837111909417 # 35184372088832))) (Some (FFin (1362162965419131 # 8796093022208)))]
    = snapshot "2024-05-01T15:35:00Z" pairs rates /\
    [PrintJson (JArr [json_entry (fun _ => "?")
                        (mkExchangeRate (JStr "USD") (JStr "JPY") (FFin (2723622243396485 # 17592186044416))
                           (JStr "2024-05-01 15:35:00") (Some (FFin (5445837111909417 # 35184372088832)))
                           (Some (FFin (1362162965419131 # 8796093022208))))]);
     WriteJson "out.json"
       (snapshot "2024-05-01T15:35:00Z" [("USD", "JPY")]
          [mkExchangeRate (JStr "USD") (JStr "JPY") (FFin (2723622243396485 # 17592186044416))
             (JStr "2024-05-01 15:35:00") (Some (FFin (5445837111909417 # 35184372088832)))
             (Some (FFin (1362162965419131 # 8796093022208)))])]
    = [printed;
       WriteJson "out.json"
         (snapshot "2024-05-01T15:35:00Z" [("USD", "JPY")]
            [mkExchangeRate (JStr "USD") (JStr "JPY") (FFin (2723622243396485 # 17592186044416))
               (JStr "2024-05-01 15:35:00") (Some (FFin (5445837111909417 # 35184372088832)))
               (Some (FFin (1362162965419131 # 8796093022208)))])].
Proof.
  apply (main_snapshot_written (fun _ => "?") (fun _ => "?") (fun _ => "1.500000")
           "---" scripted os_accepts None "2024-05-01T15:35:00Z" (fun _ => true)
           (mkCli (mkArguments ["usd/jpy"] None 1 (FFin 5) true) OutJson
              (Some "out.json"))
           [] [] (Returned 0) []
           [PrintJson (JArr [json_entry (fun _ => "?")
                               (mkExchangeRate (JStr "USD") (JStr "JPY") (FFin (2723622243396485 # 17592186044416))
                                  (JStr "2024-05-01 15:35:00") (Some (FFin (5445837111909417 # 35184372088832)))
                                  (Some (FFin (1362162965419131 # 8796093022208))))]);
            WriteJson "out.json"
              (snapshot "2024-05-01T15:35:00Z" [("USD", "JPY")]
                 [mkExchangeRate (JStr "USD") (JStr "JPY") (FFin (2723622243396485 # 17592186044416))
                    (JStr "2024-05-01 15:35:00") (Some (FFin (5445837111909417 # 35184372088832)))
                    (Some (FFin (1362162965419131 # 8796093022208)))])]
           "out.json" _ eq_refl).
  right. left. reflexivity.
Defined.

Section SnapshotFacts.
Import PyStr PyStrFacts.

Lemma optional_float_inj a b : optional_float a = optional_float b -> a = b.
Proof. destruct a, b; cbn; congruence. Qed.

Lemma snapshot_entry_inj r1 r2 : snapshot_entry r1 = snapshot_entry r2 -> r1 = r2.
Proof.
  destruct r1, r2. unfold snapshot_entry. cbn.
  intros [= -> -> -> Hbid Hask ->].
  now rewrite (optional_float_inj _ _ Hbid), (optional_float_inj _ _ Hask).
Qed.

(** Labels cut at their first "/" determine the pairs. *)
Lemma pair_key_inj_base p q :
  contains "/" (fst p) = false -> contains "/" (fst q) = false ->
  pair_key p = pair_key q -> p = q.
Proof.
  destruct p as [b1 q1], q as [b2 q2]. unfold pair_key. cbn [fst snd].
  change (fun s t => (s ++ "/" ++ t)%string)
    with (fun s t => (s ++ String "/" t)%string).
  intros H1 H2 H.
  pose proof (split_first_append "/" b1 q1 H1) as E1.
  pose proof (split_first_append "/" b2 q2 H2) as E2.
  change (b1 ++ "/" ++ q1)%string with (b1 ++ String "/" q1)%string in H.
  change (b2 ++ "/" ++ q2)%string with (b2 ++ String "/" q2)%string in H.
  rewrite H, E2 in E1. now injection E1 as -> ->.
Qed.

Lemma parse_pairs_bases raws ps :
  parse_pairs raws = Ok ps -> Forall (fun p => contains "/" (fst p) = false) ps.
Proof.
  unfold parse_pairs. rewrite parse_pairs_loop_ok. intros (ps' & -> & H). cbn [app].
  induction H as [|raw [base quote] raws ps' Hp _ IH]; constructor; [|exact IH].
  now apply parse_pair_ok in Hp as (_ & Hfree & _).
Qed.

Lemma map_inj_on {A B : Type} (f : A -> B) (P : A -> Prop) :
  (forall x y, P x -> P y -> f x = f y -> x = y) ->
  forall xs ys, Forall P xs -> Forall P ys -> List.map f xs = List.map f ys -> xs = ys.
Proof.
  intros Hinj. induction xs as [|x xs IH]; intros [|y ys] Hx Hy; cbn;
    try discriminate; [reflexivity|].
  inversion Hx; inversion Hy; subst. intros [= Hhead Htail].
  f_equal; [now apply Hinj | now apply IH].
Qed.

End SnapshotFacts.

(** X21. The snapshot loses nothing: two runs whose pairs came out of
    [parse_pairs] and that give the same snapshot had the same clock text,
    the same pairs and the same records, field by field. *)
Theorem snapshot_faithful
    (clock1 clock2 : string) (raws1 raws2 : list string)
    (pairs1 pairs2 : list (string * string)) (rates1 rates2 : list ExchangeRate) :
  parse_pairs raws1 = Ok pairs1 -> parse_pairs raws2 = Ok pairs2 ->
  snapshot clock1 pairs1 rates1 = snapshot clock2 pairs2 rates2 ->
  clock1 = clock2 /\ pairs1 = pairs2 /\ rates1 = rates2.
Proof.
  intros H1 H2. unfold snapshot. intros [= -> Hpairs Hrates].
  split; [reflexivity|]. split.
  - apply (map_inj_on (fun p => JStr (pair_key p))
             (fun p => PyStr.contains "/" (fst p) = false)).
    + intros p q Hp Hq [= H]. now apply pair_key_inj_base.
    + exact (parse_pairs_bases _ _ H1).
    + exact (parse_pairs_bases _ _ H2).
    + exact Hpairs.
  - apply (map_inj_on snapshot_entry (fun _ => True)).
    + intros r1 r2 _ _. apply snapshot_entry_inj.
    + apply Forall_forall. auto.
    + apply Forall_forall. auto.
    + exact Hrates.
Qed.

Lemma snapshot_faithful_witness :
  "now" = "now" /\ [("EUR", "USD/X")] = [("EUR", "USD/X")] /\
  @nil ExchangeRate = [].
Proof.
  exact (snapshot_faithful "now" "now" ["eur-usd-x"] [" EUR/USD/X"]
           [("EUR", "USD/X")] [("EUR", "USD/X")] [] [] eq_refl eq_refl eq_refl).
Defined.
